(** * A shallow embedding of the LangChain agent of [agent/langchain_agent.py]

    The file follows the Python module top to bottom: the value fragment of
    the interpreter the module relies on (strings, integers, floats, dates),
    the seven tools, the tool registry and the [invoke_agent] entry point.
    External services (the chat model, the clock, the random source, the
    digest algorithms of [hashlib]) are fields of the [Platform] class. *)

From Stdlib Require Import ZArith List String Ascii Bool Lia DecimalString.
Import ListNotations.

Set Warnings "-register-all".

Open Scope string_scope.
Open Scope Z_scope.

(* ===================================================================== *)
(** ** Python strings and integers *)
(* ===================================================================== *)

(** A Python [str] is modelled by a Rocq [string]; the character with code
    [n] stands for the code point U+00[n], so the model covers the texts
    over U+0000..U+00FF. *)

(** [str(n)] for an [int]. *)
Definition str_int (n : Z) : string := NilZero.string_of_int (Z.to_int n).

(** [f"{n:02d}"]: sign-aware zero padding to width 2. *)
Definition fmt_02d (n : Z) : string :=
  if (0 <=? n) && (n <? 10) then "0" ++ str_int n else str_int n.

(** [sep.join(parts)]. *)
Fixpoint join (sep : string) (parts : list string) : string :=
  match parts with
  | [] => ""
  | [p] => p
  | p :: rest => p ++ sep ++ join sep rest
  end.

(** [c * n] for a one-character string [c]. *)
Fixpoint replicate (n : nat) (c : ascii) : string :=
  match n with
  | O => ""
  | S k => String c (replicate k c)
  end.

Definition hex_digit (n : Z) : ascii :=
  ascii_of_nat (Z.to_nat (if n <? 10 then 48 + n else 87 + n)).

Definition code (c : ascii) : Z := Z.of_nat (nat_of_ascii c).

(** [str.isprintable] on U+0000..U+00FF: the ASCII graphic characters and
    space, and the Latin-1 graphic characters (U+00A0 is a separator other
    than the ASCII space and U+00AD is a format character: both are
    escaped by [repr]). *)
Definition printable (c : ascii) : bool :=
  let n := code c in
  ((32 <=? n) && (n <=? 126)) || ((161 <=? n) && negb (n =? 173)).

Fixpoint contains (c : ascii) (s : string) : bool :=
  match s with
  | EmptyString => false
  | String d rest => Ascii.eqb c d || contains c rest
  end.

(** The body of [repr(s)] between the quotes, for the quote character [q]. *)
Fixpoint repr_body (q : ascii) (s : string) : string :=
  match s with
  | EmptyString => ""
  | String c rest =>
      let n := code c in
      (if Ascii.eqb c q then String "\" (String c "")
       else if n =? 92 then "\\"
       else if n =? 9 then "\t"
       else if n =? 10 then "\n"
       else if n =? 13 then "\r"
       else if printable c then String c ""
       else String "\" (String "x" (String (hex_digit (n / 16)) (String (hex_digit (n mod 16)) ""))))
      ++ repr_body q rest
  end.

(** [repr(s)] for a [str]: single quotes unless the text holds a single
    quote and no double quote (the character of code 34). *)
Definition repr_str (s : string) : string :=
  let q := if contains "'" s && negb (contains "034" s) then "034"%char else "'"%char in
  String q (repr_body q s ++ String q "").

(* ===================================================================== *)
(** ** Python floats *)
(* ===================================================================== *)

(** A [float] is an IEEE-754 binary64 number.  [Float s m e] is the finite
    value [(-1)^s * m * 2^e] with [0 <= m < 2^53] and [-1074 <= e <= 971];
    values produced by [nearest] are normalised ([2^52 <= m] unless the
    value is subnormal, and zero is [m = 0], [e = 0]).  Infinities and NaN do
    not arise in this module: [float(int)] raises before it overflows and
    every division is by a constant larger than one. *)
Record pyfloat : Type := Float { f_neg : bool; f_man : Z; f_exp : Z }.

(** The nearest integer to [a / b], ties to the even one ([0 <= a], [0 < b]). *)
Definition rne_div (a b : Z) : Z :=
  let q := a / b in
  let r := a mod b in
  if 2 * r <? b then q
  else if b <? 2 * r then q + 1
  else if Z.even q then q else q + 1.

(** [2^l <= num / den], for positive [num] and [den]. *)
Definition ge_pow2 (num den l : Z) : bool :=
  if 0 <=? l then den * 2 ^ l <=? num else den <=? num * 2 ^ (- l).

(** [floor (log2 (num / den))], for positive [num] and [den]. *)
Definition ilog2_frac (num den : Z) : Z :=
  let l := Z.log2 num - Z.log2 den in
  if ge_pow2 num den l then l else l - 1.

(** Round-to-nearest-even of the non-negative rational [num / den] to the
    binary64 grid: mantissa and exponent.  An exponent above 971 means the
    value is beyond the largest finite float. *)
Definition nearest (num den : Z) : Z * Z :=
  if num =? 0 then (0, 0)
  else
    let e := Z.max (ilog2_frac num den - 52) (-1074) in
    let m := if 0 <=? e then rne_div num (den * 2 ^ e)
             else rne_div (num * 2 ^ (- e)) den in
    if m =? 2 ^ 53 then (2 ^ 52, e + 1) else (m, e).

(** The magnitude of a float as a fraction [(num, den)]. *)
Definition frac_of (x : pyfloat) : Z * Z :=
  if 0 <=? f_exp x then (f_man x * 2 ^ f_exp x, 1) else (f_man x, 2 ^ (- f_exp x)).

(** [x >= y] on floats. *)
Definition float_ge (x y : pyfloat) : bool :=
  let '(a, b) := frac_of x in
  let '(c, d) := frac_of y in
  let sx := if f_neg x then - a else a in
  let sy := if f_neg y then - c else c in
  sy * b <=? sx * d.

(** [x / y] for a non-zero [y] whose magnitude exceeds one (IEEE division,
    round to nearest even). *)
Definition float_div (x y : pyfloat) : pyfloat :=
  let '(a, b) := frac_of x in
  let '(c, d) := frac_of y in
  let '(m, e) := nearest (a * d) (b * c) in
  Float (xorb (f_neg x) (f_neg y)) m e.

(** [round(x, ndigits)] for [0 <= ndigits]: the decimal with [ndigits]
    places nearest to the exact value of [x] (ties to even), converted back
    to the nearest float. *)
Definition float_round (x : pyfloat) (ndigits : Z) : pyfloat :=
  let '(a, b) := frac_of x in
  let h := rne_div (a * 10 ^ ndigits) b in
  let '(m, e) := nearest h (10 ^ ndigits) in
  Float (f_neg x) m e.

(** The literals of the module. *)
Definition float_1024 : pyfloat := Float false (2 ^ 52) (-42).
Definition float_365_25 : pyfloat := Float false (1461 * 2 ^ 42) (-44).

(** *** [repr] of a float: the shortest decimal that reads back as it *)

(** [10^k <= num / den]. *)
Definition ge_pow10 (num den k : Z) : bool :=
  if 0 <=? k then den * 10 ^ k <=? num else den <=? num * 10 ^ (- k).

(** [floor (log10 (num / den))], for positive [num] and [den]. *)
Definition ilog10_frac (num den : Z) : Z :=
  let k := (ilog2_frac num den * 30103) / 100000 in
  if ge_pow10 num den (k + 1) then k + 1
  else if ge_pow10 num den k then k else k - 1.

(** [c * 10^k] reads back as the float of mantissa [m] and exponent [e]. *)
Definition reads_back (c k m e : Z) : bool :=
  let '(m', e') := if 0 <=? k then nearest (c * 10 ^ k) 1 else nearest c (10 ^ (- k)) in
  (m' =? m) && (e' =? e).

(** The candidates with [p] significant digits around [num / den] (whose
    decimal exponent is [e10]): the one that reads back, the closer one
    when both do, the even one when they are equally close. *)
Definition candidate (num den m e e10 p : Z) : option (Z * Z) :=
  let k := e10 - p + 1 in
  let '(a, b) := if 0 <=? k then (num, den * 10 ^ k) else (num * 10 ^ (- k), den) in
  let lo := a / b in
  let r := a mod b in
  let ok_lo := reads_back lo k m e in
  let ok_hi := reads_back (lo + 1) k m e in
  let pick_lo := (2 * r <? b) || ((2 * r =? b) && Z.even lo) in
  if ok_lo && (negb ok_hi || pick_lo) then Some (lo, k)
  else if ok_hi then Some (lo + 1, k)
  else None.

Fixpoint shortest (fuel : nat) (num den m e e10 p : Z) : Z * Z :=
  match fuel with
  | O => (num * 10 ^ (16 - e10) / den, e10 - 16)
  | S fuel' =>
      match candidate num den m e e10 p with
      | Some ck => ck
      | None => shortest fuel' num den m e e10 (p + 1)
      end
  end.

(** Drop the trailing zeros of [c * 10^k]. *)
Fixpoint strip_zeros (fuel : nat) (c k : Z) : Z * Z :=
  match fuel with
  | O => (c, k)
  | S fuel' => if (c mod 10 =? 0) && negb (c =? 0) then strip_zeros fuel' (c / 10) (k + 1) else (c, k)
  end.

(** The digits of the shortest decimal and the position of the decimal
    point relative to their start. *)
Definition float_digits (x : pyfloat) : string * Z :=
  let '(num, den) := frac_of x in
  let e10 := ilog10_frac num den in
  let '(c, k) := shortest 17 num den (f_man x) (f_exp x) e10 1 in
  let '(c, k) := strip_zeros 20 c k in
  let ds := str_int c in
  (ds, Z.of_nat (String.length ds) + k).

(** [repr(x)], which is also [str(x)] and the default f-string format. *)
Definition float_repr (x : pyfloat) : string :=
  let sign := if f_neg x then "-" else "" in
  if f_man x =? 0 then sign ++ "0.0"
  else
    let '(ds, decpt) := float_digits x in
    let nd := Z.of_nat (String.length ds) in
    if (decpt <? -3) || (16 <? decpt) then
      let ex := decpt - 1 in
      let frac := substring 1 (String.length ds - 1) ds in
      sign ++ substring 0 1 ds ++ (if nd =? 1 then "" else "." ++ frac)
           ++ "e" ++ (if ex <? 0 then "-" else "+") ++ fmt_02d (Z.abs ex)
    else if decpt <=? 0 then
      sign ++ "0." ++ replicate (Z.to_nat (- decpt)) "0" ++ ds
    else if nd <=? decpt then
      sign ++ ds ++ replicate (Z.to_nat (decpt - nd)) "0" ++ ".0"
    else
      sign ++ substring 0 (Z.to_nat decpt) ds ++ "."
           ++ substring (Z.to_nat decpt) (Z.to_nat (nd - decpt)) ds.

(* ===================================================================== *)
(** ** Exceptions *)
(* ===================================================================== *)

(** The exception classes the module meets.  Every value of [exn] is an
    instance of Python's [Exception]; [ValidationError] (pydantic) and
    [ValueError] are the classes an [except ValueError] clause catches. *)
Inductive exn_class : Type :=
  | ValueError
  | ValidationError
  | OverflowError
  | ZeroDivisionError
  | AttributeError
  | OtherException (name : string).

(** An exception and its message, [str(e)]. *)
Record exn : Type := Exn { exn_cls : exn_class; exn_msg : string }.

Definition is_ValueError (e : exn) : bool :=
  match exn_cls e with
  | ValueError | ValidationError => true
  | _ => false
  end.

(** What evaluating an expression gives: a value, or a raised exception. *)
Inductive outcome (A : Type) : Type :=
  | Ret (a : A)
  | Raise (e : exn).
Arguments Ret {A} a.
Arguments Raise {A} e.

Definition obind {A B : Type} (o : outcome A) (f : A -> outcome B) : outcome B :=
  match o with
  | Ret a => f a
  | Raise e => Raise e
  end.

(** [float(n)] for an [int]. *)
Definition float_of_int (n : Z) : outcome pyfloat :=
  let '(m, e) := nearest (Z.abs n) 1 in
  if 971 <? e then Raise (Exn OverflowError "int too large to convert to float")
  else Ret (Float (n <? 0) m e).

(** [a / b] for two [int]s: the float nearest to the exact quotient. *)
Definition int_truediv (a b : Z) : outcome pyfloat :=
  if b =? 0 then Raise (Exn ZeroDivisionError "division by zero")
  else
    let '(m, e) := nearest (Z.abs a) (Z.abs b) in
    if 971 <? e then Raise (Exn OverflowError "integer division result too large for a float")
    else Ret (Float (xorb (a <? 0) (b <? 0)) m e).

(* ===================================================================== *)
(** ** [datetime]: dates of the proleptic Gregorian calendar *)
(* ===================================================================== *)

Definition MINYEAR : Z := 1.
Definition MAXYEAR : Z := 9999.

Definition is_leap (year : Z) : bool :=
  (year mod 4 =? 0) && (negb (year mod 100 =? 0) || (year mod 400 =? 0)).

Definition days_in_month (year month : Z) : Z :=
  if month =? 2 then (if is_leap year then 29 else 28)
  else if (month =? 4) || (month =? 6) || (month =? 9) || (month =? 11) then 30
  else 31.

(** Days before January 1st of [year]. *)
Definition days_before_year (year : Z) : Z :=
  let y := year - 1 in
  y * 365 + y / 4 - y / 100 + y / 400.

(** Days in [year] before the first day of [month]. *)
Definition days_before_month (year month : Z) : Z :=
  nth (Z.to_nat month) [0; 0; 31; 59; 90; 120; 151; 181; 212; 243; 273; 304; 334] 0
  + (if (2 <? month) && is_leap year then 1 else 0).

(** The ordinal of a date; 0001-01-01 has ordinal 1. *)
Definition ymd_to_ord (year month day : Z) : Z :=
  days_before_year year + days_before_month year month + day.

(** Monday is 0, Sunday is 6. *)
Definition weekday (year month day : Z) : Z :=
  (ymd_to_ord year month day + 6) mod 7.

Record date : Type := Date { d_year : Z; d_month : Z; d_day : Z }.

Definition toordinal (d : date) : Z := ymd_to_ord (d_year d) (d_month d) (d_day d).

(** An [int] argument received as a C [int] (on a platform whose C [long]
    has 64 bits). *)
Definition c_int (v : Z) : outcome Z :=
  if (v <? - 2 ^ 63) || (2 ^ 63 <=? v) then
    Raise (Exn OverflowError "Python int too large to convert to C long")
  else if 2 ^ 31 <=? v then Raise (Exn OverflowError "signed integer is greater than maximum")
  else if v <? - 2 ^ 31 then Raise (Exn OverflowError "signed integer is less than minimum")
  else Ret v.

(** The range checks of the [date] constructor. *)
Definition check_date_args (year month day : Z) : outcome date :=
  if (year <? MINYEAR) || (MAXYEAR <? year) then
    Raise (Exn ValueError ("year " ++ str_int year ++ " is out of range"))
  else if (month <? 1) || (12 <? month) then Raise (Exn ValueError "month must be in 1..12")
  else if (day <? 1) || (days_in_month year month <? day) then
    Raise (Exn ValueError "day is out of range for month")
  else Ret (Date year month day).

(** [datetime.date(year, month, day)]. *)
Definition date_new (year month day : Z) : outcome date :=
  obind (c_int year) (fun y =>
  obind (c_int month) (fun m =>
  obind (c_int day) (fun d =>
  check_date_args y m d))).

(** [d.strftime("%A")] in the C locale. *)
Definition strftime_A (d : date) : string :=
  nth (Z.to_nat (weekday (d_year d) (d_month d) (d_day d)))
      ["Monday"; "Tuesday"; "Wednesday"; "Thursday"; "Friday"; "Saturday"; "Sunday"] "".

(** *** [datetime.datetime.strptime(s, "%Y-%m-%d")] *)

Definition in_range (c lo hi : ascii) : bool :=
  (code lo <=? code c) && (code c <=? code hi).

(** [p|q]: the second alternative is tried when the first one, or what
    follows it, fails. *)
Definition alt {R : Type} (p q : option R) : option R :=
  match p with
  | Some r => Some r
  | None => q
  end.

(** [(?P<Y>\d\d\d\d)] *)
Definition year_re {R : Type} (s : string) (k : string -> string -> option R) : option R :=
  match s with
  | String a (String b (String c (String d rest))) =>
      if in_range a "0" "9" && in_range b "0" "9" && in_range c "0" "9" && in_range d "0" "9"
      then k (String a (String b (String c (String d "")))) rest
      else None
  | _ => None
  end.

(** A literal character of the format. *)
Definition lit_re {R : Type} (c : ascii) (s : string) (k : string -> option R) : option R :=
  match s with
  | String a rest => if Ascii.eqb a c then k rest else None
  | EmptyString => None
  end.

(** Two characters, the first in [[a1-b1]] and the second in [[a2-b2]]. *)
Definition two_re {R : Type} (a1 b1 a2 b2 : ascii) (s : string)
    (k : string -> string -> option R) : option R :=
  match s with
  | String x (String y rest) =>
      if in_range x a1 b1 && in_range y a2 b2 then k (String x (String y "")) rest else None
  | _ => None
  end.

(** One character in [[a-b]]. *)
Definition one_re {R : Type} (a b : ascii) (s : string)
    (k : string -> string -> option R) : option R :=
  match s with
  | String x rest => if in_range x a b then k (String x "") rest else None
  | EmptyString => None
  end.

(** [(?P<m>1[0-2]|0[1-9]|[1-9])] *)
Definition month_re {R : Type} (s : string) (k : string -> string -> option R) : option R :=
  alt (two_re "1" "1" "0" "2" s k)
 (alt (two_re "0" "0" "1" "9" s k)
      (one_re "1" "9" s k)).

(** [(?P<d>3[0-1]|[1-2]\d|0[1-9]|[1-9]| [1-9])] *)
Definition day_re {R : Type} (s : string) (k : string -> string -> option R) : option R :=
  alt (two_re "3" "3" "0" "1" s k)
 (alt (two_re "1" "2" "0" "9" s k)
 (alt (two_re "0" "0" "1" "9" s k)
 (alt (one_re "1" "9" s k)
      (two_re " " " " "1" "9" s k)))).

(** The regular expression of the format ["%Y-%m-%d"], matched at the start
    of the text: the three groups and the unmatched rest. *)
Definition match_format (s : string) : option (string * string * string * string) :=
  year_re s (fun Y r1 =>
  lit_re "-" r1 (fun r2 =>
  month_re r2 (fun m r3 =>
  lit_re "-" r3 (fun r4 =>
  day_re r4 (fun d rest => Some (Y, m, d, rest)))))).

(** [int(s)] for a group of the match: decimal digits after optional
    blanks. *)
Fixpoint int_of_digits (acc : Z) (s : string) : Z :=
  match s with
  | EmptyString => acc
  | String c rest =>
      if Ascii.eqb c " " then int_of_digits acc rest
      else int_of_digits (10 * acc + (code c - 48)) rest
  end.

Definition strptime (data_string : string) : outcome date :=
  match match_format data_string with
  | None =>
      Raise (Exn ValueError ("time data " ++ repr_str data_string
                             ++ " does not match format '%Y-%m-%d'"))
  | Some (Y, m, d, rest) =>
      if negb (String.eqb rest "") then
        Raise (Exn ValueError ("unconverted data remains: " ++ rest))
      else date_new (int_of_digits 0 Y) (int_of_digits 0 m) (int_of_digits 0 d)
  end.

(* ===================================================================== *)
(** ** Values, messages and the outside world *)
(* ===================================================================== *)

(** The Python values that cross the module's boundaries (payloads, tool
    arguments and results, message contents). *)
Inductive pyval : Type :=
  | VNone
  | VBool (b : bool)
  | VInt (n : Z)
  | VStr (s : string)
  | VList (items : list pyval)
  | VDict (items : list (string * pyval)).

(** A [dict] with [str] keys, in insertion order. *)
Definition dict : Type := list (string * pyval).

(** [d.get(key)] *)
Fixpoint dict_get (key : string) (d : dict) : option pyval :=
  match d with
  | [] => None
  | (k, v) :: rest => if String.eqb k key then Some v else dict_get key rest
  end.

(** [repr(v)] *)
Fixpoint py_repr (v : pyval) : string :=
  match v with
  | VNone => "None"
  | VBool b => if b then "True" else "False"
  | VInt n => str_int n
  | VStr s => repr_str s
  | VList items => "[" ++ join ", " (map py_repr items) ++ "]"
  | VDict items =>
      "{" ++ join ", " (map (fun kv => match kv with
                                       | (k, x) => repr_str k ++ ": " ++ py_repr x
                                       end) items) ++ "}"
  end.

(** [str(v)], also what an f-string interpolates. *)
Definition py_str (v : pyval) : string :=
  match v with
  | VStr s => s
  | _ => py_repr v
  end.

(** [type(v).__name__] *)
Definition type_name (v : pyval) : string :=
  match v with
  | VNone => "NoneType"
  | VBool _ => "bool"
  | VInt _ => "int"
  | VStr _ => "str"
  | VList _ => "list"
  | VDict _ => "dict"
  end.

(** A tool-call request of the model: [tc_id] is [None] when the request
    has no ["id"] key. *)
Record tool_call : Type :=
  ToolCall { tc_name : string; tc_args : dict; tc_id : option string }.

(** A reply of the model. *)
Record ai_message : Type :=
  AiMessage { content : pyval; tool_calls : list tool_call }.

Inductive message : Type :=
  | SystemMessage (text : string)
  | HumanMessage (body : pyval)
  | AIMessage (reply : ai_message)
  | ToolMessage (text : string) (tool_call_id : string).

(** What an invocation does that can be observed from outside: the lines it
    prints, the traceback it writes to [stderr], and (recorded by the
    model, not by the program) its calls to the chat model and to the
    tools. *)
Inductive event : Type :=
  | Stdout (line : string)
  | Traceback (e : exn)
  | LlmInvoked (messages : list message)
  | ToolInvoked (name : string) (args : dict)
  | ToolReturned (name : string) (result : pyval).

(** The services the module imports.  [env] is the state of the outside
    world (the remote model, the clock, the random source). *)
Class Platform : Type := {
  env : Type;
  (** [llm_with_tools.invoke(messages)]: a reply, or the exception raised. *)
  llm_reply : list message -> env -> outcome ai_message * env;
  (** [datetime.datetime.now().isoformat()] *)
  clock_now : env -> string * env;
  (** a draw of the random source for a range of [n] values *)
  random_below : Z -> env -> Z * env;
  (** [str(uuid.uuid4())] *)
  uuid4 : env -> string * env;
  (** the digests of [hashlib] *)
  md5 : list Byte.byte -> list Byte.byte;
  sha1 : list Byte.byte -> list Byte.byte;
  sha256 : list Byte.byte -> list Byte.byte;
  sha512 : list Byte.byte -> list Byte.byte;
  (** the tool framework's validation of one raw argument against the
      annotation [int], respectively [str] *)
  coerce_int : pyval -> option Z;
  coerce_str : pyval -> option string;
  (** the exception the framework raises for an argument or a message
      field that fails validation, or is missing *)
  validation_error : string -> string -> exn
}.

(* ===================================================================== *)
(** ** The monad of the module: state and exceptions *)
(* ===================================================================== *)

Section Agent.

Context {P : Platform}.

Record world : Type := World { w_env : env; w_events : list event }.

Definition M (A : Type) : Type := world -> outcome A * world.

Definition ret {A : Type} (a : A) : M A := fun w => (Ret a, w).

Definition bind {A B : Type} (m : M A) (f : A -> M B) : M B :=
  fun w =>
    match m w with
    | (Ret a, w') => f a w'
    | (Raise e, w') => (Raise e, w')
    end.

Definition raise {A : Type} (e : exn) : M A := fun w => (Raise e, w).

Definition lift {A : Type} (o : outcome A) : M A := fun w => (o, w).

Definition emit (ev : event) : M unit :=
  fun w => (Ret tt, World (w_env w) (w_events w ++ [ev])%list).

(** [print(line)] *)
Definition print (line : string) : M unit := emit (Stdout line).

(** A call to the outside world. *)
Definition ask {A : Type} (f : env -> A * env) : M A :=
  fun w => let '(a, e') := f (w_env w) in (Ret a, World e' (w_events w)).

(** [try: body / except <class> as e: handler e] *)
Definition try_except {A : Type} (body : M A) (catches : exn -> bool)
    (handler : exn -> M A) : M A :=
  fun w =>
    match body w with
    | (Ret a, w') => (Ret a, w')
    | (Raise e, w') => if catches e then handler e w' else (Raise e, w')
    end.

End Agent.

Declare Scope py_scope.
Delimit Scope py_scope with py.
Notation "x <- m ;; k" := (bind m (fun x => k))
  (at level 61, m at next level, right associativity) : py_scope.
Notation "m ;; k" := (bind m (fun _ => k))
  (at level 61, right associativity) : py_scope.
Open Scope py_scope.

(* ===================================================================== *)
(** ** The tools *)
(* ===================================================================== *)

Section Tools.

Context {P : Platform}.

(** [get_current_timestamp()] *)
Definition get_current_timestamp : M string :=
  timestamp <- ask clock_now ;;
  print ("[TOOL] get_current_timestamp called, returning: " ++ timestamp) ;;
  ret timestamp.

(** [random.randint(a, b)]: [randrange(a, b + 1)]. *)
Definition randint (a b : Z) : M Z :=
  let istop := b + 1 in
  let width := istop - a in
  if 0 <? width then
    r <- ask (random_below width) ;;
    ret (a + r mod width)
  else
    raise (Exn ValueError ("empty range for randrange() (" ++ str_int a ++ ", "
                           ++ str_int istop ++ ", " ++ str_int width ++ ")")).

(** [generate_random_number(min_val, max_val)] *)
Definition generate_random_number (min_val max_val : Z) : M Z :=
  result <- randint min_val max_val ;;
  print ("[TOOL] generate_random_number called with min=" ++ str_int min_val
         ++ ", max=" ++ str_int max_val ++ ", returning: " ++ str_int result) ;;
  ret result.

(** [generate_uuid()] *)
Definition generate_uuid : M string :=
  result <- ask uuid4 ;;
  print ("[TOOL] generate_uuid called, returning: " ++ result) ;;
  ret result.

Definition byte_of_Z (n : Z) : Byte.byte := byte_of_ascii (ascii_of_N (Z.to_N n)).

(** [text.encode('utf-8')]: one byte below U+0080, two bytes from U+0080
    to U+00FF. *)
Fixpoint encode_utf8 (text : string) : list Byte.byte :=
  match text with
  | EmptyString => []
  | String c rest =>
      let n := code c in
      if n <? 128 then byte_of_Z n :: encode_utf8 rest
      else byte_of_Z (192 + n / 64) :: byte_of_Z (128 + n mod 64) :: encode_utf8 rest
  end.

(** [digest.hex()]: two lowercase hexadecimal digits per byte. *)
Fixpoint hexdigest (digest : list Byte.byte) : string :=
  match digest with
  | [] => ""
  | b :: rest =>
      let n := Z.of_N (Byte.to_N b) in
      String (hex_digit (n / 16)) (String (hex_digit (n mod 16)) (hexdigest rest))
  end.

(** [hash_string(text, algorithm)] *)
Definition hash_string (text algorithm : string) : M string :=
  let text_bytes := encode_utf8 text in
  let result :=
    if String.eqb algorithm "md5" then hexdigest (md5 text_bytes)
    else if String.eqb algorithm "sha1" then hexdigest (sha1 text_bytes)
    else if String.eqb algorithm "sha256" then hexdigest (sha256 text_bytes)
    else if String.eqb algorithm "sha512" then hexdigest (sha512 text_bytes)
    else "Unsupported algorithm: " ++ algorithm ++ ". Use md5, sha1, sha256, or sha512." in
  print ("[TOOL] hash_string called with text='" ++ text ++ "', algorithm='" ++ algorithm
         ++ "', returning: " ++ result) ;;
  ret result.

Definition units : list string := ["bytes"; "KB"; "MB"; "GB"; "TB"; "PB"].

(** The [while] loop of [calculate_file_size]; it runs at most
    [len(units) - 1] times, which bounds [fuel]. *)
Fixpoint scale (fuel : nat) (size : pyfloat) (unit_index : Z) : pyfloat * Z :=
  match fuel with
  | O => (size, unit_index)
  | S fuel' =>
      if float_ge size float_1024 && (unit_index <? Z.of_nat (List.length units) - 1)
      then scale fuel' (float_div size float_1024) (unit_index + 1)
      else (size, unit_index)
  end.

(** [calculate_file_size(size_bytes)] *)
Definition calculate_file_size (size_bytes : Z) : M string :=
  size <- lift (float_of_int size_bytes) ;;
  let '(size, unit_index) := scale (List.length units) size 0 in
  let result := float_repr (float_round size 2) ++ " " ++ nth (Z.to_nat unit_index) units "" in
  print ("[TOOL] calculate_file_size called with " ++ str_int size_bytes
         ++ " bytes, returning: " ++ result) ;;
  ret result.

(** [get_day_of_week(year, month, day)] *)
Definition get_day_of_week (year month day : Z) : M string :=
  try_except
    (date_obj <- lift (date_new year month day) ;;
     let day_name := strftime_A date_obj in
     let result := str_int year ++ "-" ++ fmt_02d month ++ "-" ++ fmt_02d day
                   ++ " was/is a " ++ day_name in
     print ("[TOOL] get_day_of_week called with " ++ str_int year ++ "-" ++ str_int month
            ++ "-" ++ str_int day ++ ", returning: " ++ result) ;;
     ret result)
    is_ValueError
    (fun e =>
       let error_msg := "Invalid date: " ++ exn_msg e in
       print ("[TOOL] get_day_of_week error: " ++ error_msg) ;;
       ret error_msg).

(** The text [calculate_days_between] builds from [difference.days]. *)
Definition days_report (days : Z) : outcome string :=
  obind (int_truediv days 7) (fun weeks =>
  obind (float_of_int days) (fun fdays =>
  Ret (str_int days ++ " days (approximately " ++ float_repr (float_round weeks 2)
       ++ " weeks or " ++ float_repr (float_round (float_div fdays float_365_25) 2)
       ++ " years)"))).

(** [calculate_days_between(start_date, end_date)] *)
Definition calculate_days_between (start_date end_date : string) : M string :=
  try_except
    (start <- lift (strptime start_date) ;;
     end_ <- lift (strptime end_date) ;;
     let difference_days := toordinal end_ - toordinal start in
     result <- lift (days_report difference_days) ;;
     print ("[TOOL] calculate_days_between called with " ++ start_date ++ " to " ++ end_date
            ++ ", returning: " ++ result) ;;
     ret result)
    is_ValueError
    (fun e =>
       let error_msg := "Invalid date format. Use YYYY-MM-DD. Error: " ++ exn_msg e in
       print ("[TOOL] calculate_days_between error: " ++ error_msg) ;;
       ret error_msg).

(* ===================================================================== *)
(** ** The tool registry *)
(* ===================================================================== *)

(** A tool as the [@tool] decorator builds it: its name (the name of the
    function) and what [invoke] does with a raw argument [dict]. *)
Record Tool : Type := { t_name : string; tool_run : dict -> M pyval }.

(** One argument of a call, validated against its annotation; [default]
    is the default value of the parameter, if it has one. *)
Definition arg {A : Type} (coerce : pyval -> option A) (tool param : string)
    (default : option A) (args : dict) : M A :=
  match dict_get param args with
  | Some v =>
      match coerce v with
      | Some a => ret a
      | None => raise (validation_error tool param)
      end
  | None =>
      match default with
      | Some a => ret a
      | None => raise (validation_error tool param)
      end
  end.

Definition get_current_timestamp_tool : Tool :=
  {| t_name := "get_current_timestamp";
     tool_run := fun _ => r <- get_current_timestamp ;; ret (VStr r) |}.

Definition generate_random_number_tool : Tool :=
  {| t_name := "generate_random_number";
     tool_run := fun args =>
       min_val <- arg coerce_int "generate_random_number" "min_val" None args ;;
       max_val <- arg coerce_int "generate_random_number" "max_val" None args ;;
       r <- generate_random_number min_val max_val ;;
       ret (VInt r) |}.

Definition generate_uuid_tool : Tool :=
  {| t_name := "generate_uuid";
     tool_run := fun _ => r <- generate_uuid ;; ret (VStr r) |}.

Definition hash_string_tool : Tool :=
  {| t_name := "hash_string";
     tool_run := fun args =>
       text <- arg coerce_str "hash_string" "text" None args ;;
       algorithm <- arg coerce_str "hash_string" "algorithm" (Some "sha256") args ;;
       r <- hash_string text algorithm ;;
       ret (VStr r) |}.

Definition calculate_file_size_tool : Tool :=
  {| t_name := "calculate_file_size";
     tool_run := fun args =>
       size_bytes <- arg coerce_int "calculate_file_size" "size_bytes" None args ;;
       r <- calculate_file_size size_bytes ;;
       ret (VStr r) |}.

Definition get_day_of_week_tool : Tool :=
  {| t_name := "get_day_of_week";
     tool_run := fun args =>
       year <- arg coerce_int "get_day_of_week" "year" None args ;;
       month <- arg coerce_int "get_day_of_week" "month" None args ;;
       day <- arg coerce_int "get_day_of_week" "day" None args ;;
       r <- get_day_of_week year month day ;;
       ret (VStr r) |}.

Definition calculate_days_between_tool : Tool :=
  {| t_name := "calculate_days_between";
     tool_run := fun args =>
       start_date <- arg coerce_str "calculate_days_between" "start_date" None args ;;
       end_date <- arg coerce_str "calculate_days_between" "end_date" None args ;;
       r <- calculate_days_between start_date end_date ;;
       ret (VStr r) |}.

Definition tools : list Tool :=
  [ get_current_timestamp_tool;
    generate_random_number_tool;
    generate_uuid_tool;
    hash_string_tool;
    calculate_file_size_tool;
    get_day_of_week_tool;
    calculate_days_between_tool ].

(** [tool_func.invoke(tool_args)] *)
Definition tool_invoke (tool_func : Tool) (tool_args : dict) : M pyval :=
  emit (ToolInvoked (t_name tool_func) tool_args) ;;
  result <- tool_run tool_func tool_args ;;
  emit (ToolReturned (t_name tool_func) result) ;;
  ret result.

(** [llm_with_tools.invoke(messages)] *)
Definition llm_with_tools_invoke (messages : list message) : M ai_message :=
  emit (LlmInvoked messages) ;;
  fun w =>
    let '(r, e') := llm_reply messages (w_env w) in
    (r, World e' (w_events w)).

End Tools.

(* ===================================================================== *)
(** ** The entry point *)
(* ===================================================================== *)

Section Entry.

Context {P : Platform}.

Definition system_prompt : string :=
"You are a helpful assistant with access to tools. 
You MUST use the available tools when asked about:
- Current time/timestamp: use get_current_timestamp
- Random numbers: use generate_random_number
- UUIDs: use generate_uuid
- Hashing: use hash_string
- File size conversions: use calculate_file_size
- Day of week: use get_day_of_week
- Date calculations: use calculate_days_between

Always provide the tool result in your response.".

(** [payload.get(key, default)] *)
Definition payload_get (payload : pyval) (key : string) (default : pyval) : M pyval :=
  match payload with
  | VDict d =>
      match dict_get key d with
      | Some v => ret v
      | None => ret default
      end
  | _ => raise (Exn AttributeError ("'" ++ type_name payload ++ "' object has no attribute 'get'"))
  end.

(** [HumanMessage(content=v)]: the content is a [str], or a [list] of
    [str] and [dict] blocks. *)
Definition new_HumanMessage (v : pyval) : M message :=
  match v with
  | VStr _ => ret (HumanMessage v)
  | VList items =>
      if forallb (fun x => match x with VStr _ | VDict _ => true | _ => false end) items
      then ret (HumanMessage v)
      else raise (validation_error "HumanMessage" "content")
  | _ => raise (validation_error "HumanMessage" "content")
  end.

(** [tool_call.get("id", "")] *)
Definition call_id (tool_call : tool_call) : string :=
  match tc_id tool_call with
  | Some id => id
  | None => ""
  end.

(** The inner [for] loop: the first registered tool of that name is
    invoked; [None] when there is none. *)
Fixpoint find_and_invoke (registry : list Tool) (tool_name : string) (tool_args : dict)
    : M pyval :=
  match registry with
  | [] => ret VNone
  | tool_func :: rest =>
      if String.eqb (t_name tool_func) tool_name then tool_invoke tool_func tool_args
      else find_and_invoke rest tool_name tool_args
  end.

(** The outer [for] loop over [enumerate(response.tool_calls)], from its
    [i]-th item on; [messages] is the list it appends to. *)
Fixpoint run_tool_calls (calls : list tool_call) (i : Z) (messages : list message)
    : M (list message) :=
  match calls with
  | [] => ret messages
  | tool_call :: rest =>
      let tool_name := tc_name tool_call in
      let tool_args := tc_args tool_call in
      let tool_call_id := call_id tool_call in
      print ("[DEBUG] Executing tool " ++ str_int (i + 1) ++ ": " ++ tool_name
             ++ " with args: " ++ py_repr (VDict tool_args)) ;;
      tool_result <- find_and_invoke tools tool_name tool_args ;;
      tool_result <-
        match tool_result with
        | VNone =>
            print ("[ERROR] Tool not found: " ++ tool_name) ;;
            ret (VStr ("Tool " ++ tool_name ++ " not found"))
        | _ => ret tool_result
        end ;;
      print ("[DEBUG] Tool result: " ++ py_str tool_result) ;;
      run_tool_calls rest (i + 1)
        (messages ++ [ToolMessage (py_str tool_result) tool_call_id])%list
  end.

(** The branch taken when the first reply requests tools. *)
Definition tool_round (messages : list message) (response : ai_message) : M pyval :=
  print ("[DEBUG] Tool calls requested: "
         ++ str_int (Z.of_nat (List.length (tool_calls response)))) ;;
  let messages := (messages ++ [AIMessage response])%list in
  messages <- run_tool_calls (tool_calls response) 0 messages ;;
  print "[DEBUG] Getting final response from LLM..." ;;
  final_response <- llm_with_tools_invoke messages ;;
  print ("[DEBUG] Final response content: " ++ py_str (content final_response)) ;;
  ret (VDict [("result", content final_response)]).

(** The messages of the first call to the model. *)
Definition first_messages (payload : pyval) : M (list message) :=
  user_input <- payload_get payload "prompt" (VStr "Hello!") ;;
  print ("[DEBUG] Received prompt: " ++ py_str user_input) ;;
  human <- new_HumanMessage user_input ;;
  ret [SystemMessage system_prompt; human].

(** The body of the [try] statement of [invoke_agent]. *)
Definition invoke_agent_try (payload : pyval) : M pyval :=
  messages <- first_messages payload ;;
  print "[DEBUG] Invoking LLM with tools..." ;;
  response <- llm_with_tools_invoke messages ;;
  print ("[DEBUG] LLM response received. Has tool_calls: "
         ++ (match tool_calls response with [] => "False" | _ => "True" end)) ;;
  match tool_calls response with
  | _ :: _ => tool_round messages response
  | [] =>
      print ("[DEBUG] No tools used. Direct response: " ++ py_str (content response)) ;;
      ret (VDict [("result", content response)])
  end.

(** The [except Exception as e] clause. *)
Definition invoke_agent_except (e : exn) : M pyval :=
  print ("[ERROR] Exception in invoke_agent: " ++ exn_msg e) ;;
  emit (Traceback e) ;;
  ret (VDict [("result", VStr ("Error: " ++ exn_msg e))]).

(** [invoke_agent(payload, context=None)] *)
Definition invoke_agent (payload context : pyval) : M pyval :=
  try_except (invoke_agent_try payload) (fun _ => true) invoke_agent_except.

End Entry.

(* ===================================================================== *)
(** ** A simulated platform *)
(* ===================================================================== *)

(** A platform to run the module on: the model answers from a script, the
    clock ticks once per reading, the random source always draws 0, and the
    digests are stand-ins (a one-byte checksum: [hashlib] is not part of the
    module). *)
Record sim_env : Type := SimEnv { script : list (outcome ai_message); ticks : Z }.

Definition sim_llm (messages : list message) (e : sim_env) : outcome ai_message * sim_env :=
  match script e with
  | [] => (Raise (Exn (OtherException "ConnectionError") "model endpoint unreachable"), e)
  | r :: rest => (r, SimEnv rest (ticks e))
  end.

Definition checksum (bytes : list Byte.byte) : list Byte.byte :=
  [byte_of_Z (fold_right (fun b acc => (Z.of_N (Byte.to_N b) + acc) mod 256) 0 bytes)].

#[local] Instance Sim : Platform := {|
  env := sim_env;
  llm_reply := sim_llm;
  clock_now := fun e => ("2025-01-01T00:00:" ++ fmt_02d (ticks e mod 60), SimEnv (script e) (ticks e + 1));
  random_below := fun _ e => (0, e);
  uuid4 := fun e => ("00000000-0000-4000-8000-000000000000", e);
  md5 := checksum;
  sha1 := checksum;
  sha256 := checksum;
  sha512 := checksum;
  coerce_int := fun v => match v with VInt n => Some n | _ => None end;
  coerce_str := fun v => match v with VStr s => Some s | _ => None end;
  validation_error := fun model field =>
    Exn ValidationError ("1 validation error for " ++ model ++ ": " ++ field)
|}.

(** The simulated world in which the model will give the replies [rs]. *)
Definition sim_world (rs : list (outcome ai_message)) : world :=
  World (SimEnv rs 0) [].

(** Requests and a payload to run the entry point on. *)
Definition demo_size_call : tool_call :=
  ToolCall "calculate_file_size" [("size_bytes", VInt 1073741824)] (Some "call-1").

Definition demo_unknown_call : tool_call :=
  ToolCall "lookup_weather" [("city", VStr "Oslo")] (Some "call-2").

Definition demo_failing_call : tool_call :=
  ToolCall "generate_random_number" [("min_val", VInt 5); ("max_val", VInt 1)] (Some "call-3").

Definition demo_uuid_call : tool_call :=
  ToolCall "generate_uuid" [] (Some "call-4").

Definition demo_call_without_id : tool_call :=
  ToolCall "generate_uuid" [] None.

Definition demo_payload : pyval :=
  VDict [("prompt", VStr "How large is 1073741824 bytes?")].

(** A model that asks for one tool and, in its second reply, asks again. *)
Definition demo_world : world :=
  sim_world [Ret (AiMessage (VStr "") [demo_size_call]);
             Ret (AiMessage (VStr "It is 1.0 GB.") [demo_size_call])].

(** A model whose first reply asks for a tool that will raise. *)
Definition demo_failing_world : world :=
  sim_world [Ret (AiMessage (VStr "") [demo_failing_call; demo_uuid_call]);
             Ret (AiMessage (VStr "Done.") [])].

(** A model that answers at once. *)
Definition demo_direct_world : world :=
  sim_world [Ret (AiMessage (VStr "Hello there.") [])].


(* ===================================================================== *)
(** ** The vocabulary of the specification *)
(* ===================================================================== *)

(** *** Numbers and floats *)

(** The fraction [num / den] is exactly [m * 2^e]. *)
Definition frac_is (num den m e : Z) : Prop :=
  num * 2 ^ Z.max (- e) 0 = den * m * 2 ^ Z.max e 0.

(** The index of the smallest unit in which [n] is below 1024, the last
    unit when there is none. *)
Definition unit_index_of (n : Z) : Z :=
  if n <? 1024 then 0
  else if n <? 1024 ^ 2 then 1
  else if n <? 1024 ^ 3 then 2
  else if n <? 1024 ^ 4 then 3
  else if n <? 1024 ^ 5 then 4
  else 5.

(** *** Dates and their texts *)

(** A date of the proleptic Gregorian calendar, whatever the year. *)
Definition gregorian_date (year month day : Z) : bool :=
  (1 <=? month) && (month <=? 12) && (1 <=? day) && (day <=? days_in_month year month).

(** The day after [d]. *)
Definition next_day (d : date) : date :=
  if d_day d <? days_in_month (d_year d) (d_month d) then Date (d_year d) (d_month d) (d_day d + 1)
  else if d_month d <? 12 then Date (d_year d) (d_month d + 1) 1
  else Date (d_year d + 1) 1 1.

Definition is_date (d : date) : Prop := gregorian_date (d_year d) (d_month d) (d_day d) = true.

(** [n] days after [d]. *)
Definition days_after (n : nat) (d : date) : date := Nat.iter n next_day d.

(** *** Well-formed [YYYY-MM-DD] texts *)

Definition digit (n : Z) : ascii := ascii_of_nat (Z.to_nat (48 + n)).

Definition two_digits (n : Z) : string :=
  String (digit (n / 10)) (String (digit (n mod 10)) "").

Definition four_digits (n : Z) : string :=
  String (digit (n / 1000)) (String (digit (n / 100 mod 10))
    (String (digit (n / 10 mod 10)) (String (digit (n mod 10)) ""))).

(** The text [YYYY-MM-DD] of a date, every field zero-padded. *)
Definition iso_format (year month day : Z) : string :=
  four_digits year ++ "-" ++ two_digits month ++ "-" ++ two_digits day.

(** The name of the day that follows the day [name]. *)
Definition following (name : string) : string :=
  if String.eqb name "Monday" then "Tuesday"
  else if String.eqb name "Tuesday" then "Wednesday"
  else if String.eqb name "Wednesday" then "Thursday"
  else if String.eqb name "Thursday" then "Friday"
  else if String.eqb name "Friday" then "Saturday"
  else if String.eqb name "Saturday" then "Sunday"
  else "Monday".

(** *** Digests *)




(** *** Traces of an invocation *)

Definition is_stdout (ev : event) : bool :=
  match ev with Stdout _ => true | _ => false end.

Definition is_llm (ev : event) : bool :=
  match ev with LlmInvoked _ => true | _ => false end.

Definition is_tool (ev : event) : bool :=
  match ev with ToolInvoked _ _ | ToolReturned _ _ => true | _ => false end.

Definition not_llm (ev : event) : bool := negb (is_llm ev).

(** The calls to the model, respectively to the tools, in a trace. *)
Definition llm_calls (evs : list event) : list event := filter is_llm evs.
Definition tool_events (evs : list event) : list event := filter is_tool evs.

Section Vocabulary.

Context {P : Platform}.

(** [log w evs]: the world [w] after the events [evs]. *)
Definition log (w : world) (evs : list event) : world :=
  World (w_env w) (w_events w ++ evs)%list.

(** A computation extends the trace, and with events of one kind only. *)
Definition emits {A} (ok : event -> bool) (m : M A) : Prop :=
  forall w, exists evs, w_events (snd (m w)) = (w_events w ++ evs)%list /\ forallb ok evs = true.

(** A tool of that name is registered. *)
Definition registered (tool_name : string) : bool :=
  existsb (fun t => String.eqb (t_name t) tool_name) tools.

(** The text of the tool-result message for the result [r] of the lookup. *)
Definition answer_text (tool_name : string) (r : pyval) : string :=
  match r with
  | VNone => "Tool " ++ tool_name ++ " not found"
  | _ => py_str r
  end.

(** The lines the loop prints around the lookup of one request. *)
Definition executing_line (i : Z) (tc : tool_call) : event :=
  Stdout ("[DEBUG] Executing tool " ++ str_int (i + 1) ++ ": " ++ tc_name tc
          ++ " with args: " ++ py_repr (VDict (tc_args tc))).

Definition result_lines (tool_name : string) (r : pyval) : list event :=
  match r with
  | VNone => [Stdout ("[ERROR] Tool not found: " ++ tool_name);
              Stdout ("[DEBUG] Tool result: Tool " ++ tool_name ++ " not found")]
  | _ => [Stdout ("[DEBUG] Tool result: " ++ py_str r)]
  end.

(** The requests [calls] were answered, in order, by the tool-result
    messages [answers], the tools having run as the tool events [evs] of the
    trace tell: one message for each request, carrying the text of the
    result of its own invocation and its own id. *)
Inductive answered : list tool_call -> list event -> list message -> Prop :=
  | answered_nil : answered [] [] []
  | answered_tool tc id r calls evs answers :
      registered (tc_name tc) = true ->
      tc_id tc = Some id ->
      answered calls evs answers ->
      answered (tc :: calls)
               (ToolInvoked (tc_name tc) (tc_args tc) :: ToolReturned (tc_name tc) r :: evs)
               (ToolMessage (py_str r) id :: answers)
  | answered_unknown tc id calls evs answers :
      registered (tc_name tc) = false ->
      tc_id tc = Some id ->
      answered calls evs answers ->
      answered (tc :: calls) evs
               (ToolMessage ("Tool " ++ tc_name tc ++ " not found") id :: answers).

(** The tail of [tool_round], after the loop. *)
Definition final_call (messages : list message) : M pyval :=
  print "[DEBUG] Getting final response from LLM..." ;;
  final_response <- llm_with_tools_invoke messages ;;
  print ("[DEBUG] Final response content: " ++ py_str (content final_response)) ;;
  ret (VDict [("result", content final_response)]).

End Vocabulary.

(** *** The prompt, the registry and the texts of numbers and dates *)

(** [payload.get("prompt", "Hello!")] for a payload that is a dictionary. *)
Definition prompt_of (d : dict) : pyval :=
  match dict_get "prompt" d with
  | Some v => v
  | None => VStr "Hello!"
  end.

(** The names of the functions the [@tool] decorator is applied to. *)
Definition tool_names : list string :=
  ["get_current_timestamp"; "generate_random_number"; "generate_uuid"; "hash_string";
   "calculate_file_size"; "get_day_of_week"; "calculate_days_between"].

(** An integer that fits a C [int]. *)
Definition fits_C_int (v : Z) : Prop := - 2 ^ 31 <= v < 2 ^ 31.

(** The text of a date with a year of four digits and the month and the
    day as [str] gives them, without padding. *)
Definition unpadded_format (year month day : Z) : string :=
  four_digits year ++ "-" ++ str_int month ++ "-" ++ str_int day.

(** [f"{round(float(n), 2)}"] is the text [expected]. *)
Definition rounded_text_is (n : Z) (expected : string) : bool :=
  match float_of_int n with
  | Ret x => String.eqb (float_repr (float_round x 2)) expected
  | Raise _ => false
  end.

(* ===================================================================== *)
(** ** Facts about floats *)
(* ===================================================================== *)

Lemma pow2_gt0 k : 0 <= k -> 0 < 2 ^ k.
Proof. intros; now apply Z.pow_pos_nonneg. Qed.

Lemma pow2_add a b : 0 <= a -> 0 <= b -> 2 ^ (a + b) = 2 ^ a * 2 ^ b.
Proof. intros; now apply Z.pow_add_r. Qed.

Lemma pow2_succ a : 0 <= a -> 2 ^ (a + 1) = 2 * 2 ^ a.
Proof. intros. rewrite Z.pow_add_r by lia. change (2 ^ 1) with 2. lia. Qed.

(** *** Rounding a quotient to the nearest integer *)

Lemma rne_div_bounds a b : 0 <= a -> 0 < b -> a / b <= rne_div a b <= a / b + 1.
Proof.
  intros. unfold rne_div. cbv zeta.
  destruct (2 * (a mod b) <? b); [lia|].
  destruct (b <? 2 * (a mod b)); [lia|].
  destruct (Z.even (a / b)); lia.
Qed.

Lemma rne_div_error a b : 0 <= a -> 0 < b -> 2 * Z.abs (rne_div a b * b - a) <= b.
Proof.
  intros Ha Hb. unfold rne_div. cbv zeta.
  pose proof (Z.div_mod a b ltac:(lia)) as D.
  pose proof (Z.mod_pos_bound a b Hb) as R.
  destruct (2 * (a mod b) <? b) eqn:E1; [apply Z.ltb_lt in E1; lia|].
  apply Z.ltb_ge in E1.
  destruct (b <? 2 * (a mod b)) eqn:E2.
  - apply Z.ltb_lt in E2. lia.
  - apply Z.ltb_ge in E2. destruct (Z.even (a / b)); lia.
Qed.

Lemma rne_div_exact q b : 0 < b -> rne_div (q * b) b = q.
Proof.
  intros Hb. unfold rne_div. cbv zeta.
  rewrite Z.div_mul, Z.mod_mul by lia.
  destruct (2 * 0 <? b) eqn:E; [reflexivity|]. apply Z.ltb_ge in E. lia.
Qed.

Lemma rne_div_1 a : rne_div a 1 = a.
Proof. replace a with (a * 1) at 1 by lia. apply rne_div_exact. lia. Qed.

(** *** The binary exponent of a fraction *)

Lemma ge_pow2_spec num den l :
  ge_pow2 num den l = true <-> den * 2 ^ Z.max l 0 <= num * 2 ^ Z.max (- l) 0.
Proof.
  unfold ge_pow2. destruct (0 <=? l) eqn:E.
  - apply Z.leb_le in E. rewrite Z.leb_le.
    rewrite (Z.max_l l 0), (Z.max_r (- l) 0) by lia. change (2 ^ 0) with 1. lia.
  - apply Z.leb_gt in E. rewrite Z.leb_le.
    rewrite (Z.max_r l 0), (Z.max_l (- l) 0) by lia. change (2 ^ 0) with 1. lia.
Qed.

Lemma ge_pow2_pred num den l :
  0 < num -> 0 < den -> ge_pow2 num den (l + 1) = true -> ge_pow2 num den l = true.
Proof.
  intros Hn Hd. rewrite !ge_pow2_spec.
  destruct (Z.lt_ge_cases l 0) as [N|N].
  - rewrite (Z.max_r l 0), (Z.max_r (l + 1) 0), (Z.max_l (- l) 0), (Z.max_l (- (l + 1)) 0) by lia.
    replace (- l) with (- (l + 1) + 1) by lia. rewrite pow2_succ by lia.
    pose proof (pow2_gt0 (- (l + 1)) ltac:(lia)). change (2 ^ 0) with 1. nia.
  - rewrite (Z.max_l l 0), (Z.max_l (l + 1) 0), (Z.max_r (- l) 0), (Z.max_r (- (l + 1)) 0) by lia.
    rewrite pow2_succ by lia. pose proof (pow2_gt0 l N). change (2 ^ 0) with 1. nia.
Qed.

Lemma ge_pow2_mono num den l l' :
  0 < num -> 0 < den -> l <= l' -> ge_pow2 num den l' = true -> ge_pow2 num den l = true.
Proof.
  intros Hn Hd Hl. pattern l'. apply (Zlt_lower_bound_ind _ l); [|exact Hl].
  intros x IH Hx H.
  destruct (Z.eq_dec x l) as [->|N]; [exact H|].
  apply (IH (x - 1)); [lia|]. apply ge_pow2_pred; auto. now replace (x - 1 + 1) with x by lia.
Qed.

Lemma ilog2_frac_spec num den :
  0 < num -> 0 < den ->
  ge_pow2 num den (ilog2_frac num den) = true /\ ge_pow2 num den (ilog2_frac num den + 1) = false.
Proof.
  intros Hn Hd. unfold ilog2_frac. cbv zeta.
  pose proof (Z.log2_spec num Hn) as [A1 A2].
  pose proof (Z.log2_spec den Hd) as [B1 B2].
  pose proof (Z.log2_nonneg num) as An. pose proof (Z.log2_nonneg den) as Bn.
  set (a := Z.log2 num) in *. set (b := Z.log2 den) in *.
  replace (Z.succ a) with (a + 1) in A2 by lia. replace (Z.succ b) with (b + 1) in B2 by lia.
  rewrite pow2_succ in A2, B2 by lia.
  pose proof (pow2_gt0 a An) as PA. pose proof (pow2_gt0 b Bn) as PB.
  destruct (ge_pow2 num den (a - b)) eqn:G.
  - split; [exact G|]. apply not_true_iff_false. rewrite ge_pow2_spec.
    destruct (Z.lt_ge_cases (a - b + 1) 0) as [N|N].
    + rewrite (Z.max_r (a - b + 1) 0), (Z.max_l (- (a - b + 1)) 0) by lia.
      change (2 ^ 0) with 1.
      assert (E : 2 ^ b = 2 * 2 ^ a * 2 ^ (- (a - b + 1))).
      { rewrite <- pow2_succ, <- pow2_add by lia. f_equal. lia. }
      pose proof (pow2_gt0 (- (a - b + 1)) ltac:(lia)). nia.
    + rewrite (Z.max_l (a - b + 1) 0), (Z.max_r (- (a - b + 1)) 0) by lia.
      change (2 ^ 0) with 1.
      assert (E : 2 * 2 ^ a = 2 ^ b * 2 ^ (a - b + 1)).
      { rewrite <- pow2_succ, <- pow2_add by lia. f_equal. lia. }
      pose proof (pow2_gt0 (a - b + 1) N). nia.
  - split.
    + rewrite ge_pow2_spec.
      destruct (Z.lt_ge_cases (a - b - 1) 0) as [N|N].
      * rewrite (Z.max_r (a - b - 1) 0), (Z.max_l (- (a - b - 1)) 0) by lia.
        change (2 ^ 0) with 1.
        assert (E : 2 * 2 ^ b = 2 ^ a * 2 ^ (- (a - b - 1))).
        { rewrite <- pow2_succ, <- pow2_add by lia. f_equal. lia. }
        pose proof (pow2_gt0 (- (a - b - 1)) ltac:(lia)). nia.
      * rewrite (Z.max_l (a - b - 1) 0), (Z.max_r (- (a - b - 1)) 0) by lia.
        change (2 ^ 0) with 1.
        assert (E : 2 ^ a = 2 * 2 ^ b * 2 ^ (a - b - 1)).
        { rewrite <- pow2_succ, <- pow2_add by lia. f_equal. lia. }
        pose proof (pow2_gt0 (a - b - 1) N). nia.
    + replace (a - b - 1 + 1) with (a - b) by lia. exact G.
Qed.

Lemma ilog2_frac_unique num den l :
  0 < num -> 0 < den ->
  ge_pow2 num den l = true -> ge_pow2 num den (l + 1) = false -> ilog2_frac num den = l.
Proof.
  intros Hn Hd H1 H2. destruct (ilog2_frac_spec num den Hn Hd) as [S1 S2].
  destruct (Z.lt_trichotomy (ilog2_frac num den) l) as [C|[C|C]]; [|exact C|].
  - rewrite (ge_pow2_mono num den (ilog2_frac num den + 1) l) in S2; auto; [discriminate|lia].
  - rewrite (ge_pow2_mono num den (l + 1) (ilog2_frac num den)) in H2; auto; [discriminate|lia].
Qed.

Lemma nearest_exact num den m e :
  0 < den -> 2 ^ 52 <= m < 2 ^ 53 -> -1074 <= e -> frac_is num den m e ->
  nearest num den = (m, e).
Proof.
  intros Hd Hm He F. unfold frac_is in F.
  assert (P52 : 2 ^ 52 = 4503599627370496) by reflexivity.
  assert (P53 : 2 ^ 53 = 9007199254740992) by reflexivity.
  assert (Hn : 0 < num).
  { pose proof (pow2_gt0 (Z.max (- e) 0) ltac:(lia)).
    pose proof (pow2_gt0 (Z.max e 0) ltac:(lia)). nia. }
  assert (L : ilog2_frac num den = e + 52).
  { apply ilog2_frac_unique; auto.
    - rewrite ge_pow2_spec.
      destruct (Z.lt_ge_cases e 0) as [N|N].
      + rewrite (Z.max_l (- e) 0), (Z.max_r e 0) in F by lia. change (2 ^ 0) with 1 in F.
        destruct (Z.lt_ge_cases (e + 52) 0) as [N'|N'].
        * rewrite (Z.max_r (e + 52) 0), (Z.max_l (- (e + 52)) 0) by lia. change (2 ^ 0) with 1.
          assert (E : 2 ^ (- e) = 2 ^ 52 * 2 ^ (- (e + 52))).
          { rewrite <- pow2_add by lia. f_equal. lia. }
          pose proof (pow2_gt0 (- (e + 52)) ltac:(lia)). nia.
        * rewrite (Z.max_l (e + 52) 0), (Z.max_r (- (e + 52)) 0) by lia. change (2 ^ 0) with 1.
          assert (E : 2 ^ 52 = 2 ^ (- e) * 2 ^ (e + 52)).
          { rewrite <- pow2_add by lia. f_equal. lia. }
          pose proof (pow2_gt0 (e + 52) N'). pose proof (pow2_gt0 (- e) ltac:(lia)). nia.
      + rewrite (Z.max_r (- e) 0), (Z.max_l e 0) in F by lia. change (2 ^ 0) with 1 in F.
        rewrite (Z.max_l (e + 52) 0), (Z.max_r (- (e + 52)) 0) by lia. change (2 ^ 0) with 1.
        rewrite pow2_add by lia. pose proof (pow2_gt0 e N). nia.
    - apply not_true_iff_false. rewrite ge_pow2_spec.
      destruct (Z.lt_ge_cases e 0) as [N|N].
      + rewrite (Z.max_l (- e) 0), (Z.max_r e 0) in F by lia. change (2 ^ 0) with 1 in F.
        destruct (Z.lt_ge_cases (e + 52 + 1) 0) as [N'|N'].
        * rewrite (Z.max_r (e + 52 + 1) 0), (Z.max_l (- (e + 52 + 1)) 0) by lia.
          change (2 ^ 0) with 1.
          assert (E : 2 ^ (- e) = 2 ^ 53 * 2 ^ (- (e + 52 + 1))).
          { rewrite <- pow2_add by lia. f_equal. lia. }
          pose proof (pow2_gt0 (- (e + 52 + 1)) ltac:(lia)). nia.
        * rewrite (Z.max_l (e + 52 + 1) 0), (Z.max_r (- (e + 52 + 1)) 0) by lia.
          change (2 ^ 0) with 1.
          assert (E : 2 ^ 53 = 2 ^ (- e) * 2 ^ (e + 52 + 1)).
          { rewrite <- pow2_add by lia. f_equal. lia. }
          pose proof (pow2_gt0 (e + 52 + 1) N'). pose proof (pow2_gt0 (- e) ltac:(lia)). nia.
      + rewrite (Z.max_r (- e) 0), (Z.max_l e 0) in F by lia. change (2 ^ 0) with 1 in F.
        rewrite (Z.max_l (e + 52 + 1) 0), (Z.max_r (- (e + 52 + 1)) 0) by lia.
        change (2 ^ 0) with 1.
        replace (e + 52 + 1) with (e + 53) by lia.
        rewrite pow2_add by lia. pose proof (pow2_gt0 e N). nia. }
  unfold nearest. destruct (num =? 0) eqn:Z0; [apply Z.eqb_eq in Z0; lia|].
  cbv zeta. rewrite L. replace (e + 52 - 52) with e by lia. rewrite Z.max_l by lia.
  assert (M : (if 0 <=? e then rne_div num (den * 2 ^ e) else rne_div (num * 2 ^ (- e)) den) = m).
  { destruct (0 <=? e) eqn:E.
    - apply Z.leb_le in E.
      rewrite (Z.max_r (- e) 0), (Z.max_l e 0) in F by lia. change (2 ^ 0) with 1 in F.
      replace num with (m * (den * 2 ^ e)) by lia.
      apply rne_div_exact. pose proof (pow2_gt0 e E). nia.
    - apply Z.leb_gt in E.
      rewrite (Z.max_l (- e) 0), (Z.max_r e 0) in F by lia. change (2 ^ 0) with 1 in F.
      replace (num * 2 ^ (- e)) with (m * den) by lia.
      now apply rne_div_exact. }
  rewrite M. destruct (m =? 2 ^ 53) eqn:E; [apply Z.eqb_eq in E; lia|reflexivity].
Qed.

(** Dividing a normal float by [1024.0] lowers its exponent by ten. *)
Lemma float_div_1024 s m e :
  2 ^ 52 <= m < 2 ^ 53 -> -1064 <= e ->
  float_div (Float s m e) float_1024 = Float s m (e - 10).
Proof.
  intros Hm He. unfold float_div.
  change (frac_of float_1024) with (2 ^ 52, 2 ^ 42).
  assert (F : forall a b, frac_of (Float s m e) = (a, b) ->
                nearest (a * 2 ^ 42) (b * 2 ^ 52) = (m, e - 10) /\ 0 < b).
  { intros a b. unfold frac_of. cbn [f_man f_exp].
    destruct (0 <=? e) eqn:E; intros H; inversion H; subst a b; clear H.
    - apply Z.leb_le in E. split; [|lia].
      apply nearest_exact; try lia. unfold frac_is.
      destruct (Z.lt_ge_cases (e - 10) 0) as [N|N].
      + rewrite (Z.max_l (- (e - 10)) 0), (Z.max_r (e - 10) 0) by lia. change (2 ^ 0) with 1.
        assert (X : 2 ^ e * 2 ^ (- (e - 10)) = 2 ^ 10).
        { rewrite <- pow2_add by lia. f_equal. lia. }
        change (2 ^ 52) with (2 ^ 42 * 2 ^ 10). nia.
      + rewrite (Z.max_r (- (e - 10)) 0), (Z.max_l (e - 10) 0) by lia. change (2 ^ 0) with 1.
        assert (X : 2 ^ e = 2 ^ 10 * 2 ^ (e - 10)).
        { rewrite <- pow2_add by lia. f_equal. lia. }
        change (2 ^ 52) with (2 ^ 42 * 2 ^ 10). nia.
    - apply Z.leb_gt in E. split; [|apply pow2_gt0; lia].
      pose proof (pow2_gt0 (- e) ltac:(lia)).
      apply nearest_exact; try lia. unfold frac_is.
      rewrite (Z.max_l (- (e - 10)) 0), (Z.max_r (e - 10) 0) by lia. change (2 ^ 0) with 1.
      assert (X : 2 ^ (- (e - 10)) = 2 ^ 10 * 2 ^ (- e)).
      { rewrite <- pow2_add by lia. f_equal. lia. }
      change (2 ^ 52) with (2 ^ 42 * 2 ^ 10). nia. }
  destruct (frac_of (Float s m e)) as [a b]. destruct (F a b eq_refl) as [-> _].
  cbn [f_neg]. now rewrite xorb_false_r.
Qed.

(** *** [float(n)] *)

Lemma ilog2_frac_int N : 0 < N -> ilog2_frac N 1 = Z.log2 N.
Proof.
  intros HN. pose proof (Z.log2_spec N HN) as [A1 A2]. pose proof (Z.log2_nonneg N) as An.
  apply ilog2_frac_unique; try lia.
  - rewrite ge_pow2_spec. rewrite Z.max_l, Z.max_r by lia. change (2 ^ 0) with 1. lia.
  - apply not_true_iff_false. rewrite ge_pow2_spec. rewrite Z.max_l, Z.max_r by lia.
    change (2 ^ 0) with 1. replace (Z.succ (Z.log2 N)) with (Z.log2 N + 1) in A2 by lia. lia.
Qed.

(** The float nearest to a positive integer. *)
Lemma nearest_int N :
  0 < N ->
  exists m e,
    nearest N 1 = (m, e) /\ 2 ^ 52 <= m < 2 ^ 53 /\ -52 <= e /\
    (N < 2 ^ 53 -> e <= 0 /\ N * 2 ^ (- e) = m) /\
    (2 ^ 53 <= N -> 1 <= e).
Proof.
  intros HN. pose proof (Z.log2_spec N HN) as [A1 A2]. pose proof (Z.log2_nonneg N) as An.
  replace (Z.succ (Z.log2 N)) with (Z.log2 N + 1) in A2 by lia.
  assert (P52 : 2 ^ 52 = 4503599627370496) by reflexivity.
  assert (P53 : 2 ^ 53 = 9007199254740992) by reflexivity.
  unfold nearest. destruct (N =? 0) eqn:Z0; [apply Z.eqb_eq in Z0; lia|]. cbv zeta.
  rewrite ilog2_frac_int by exact HN. set (l := Z.log2 N) in *.
  rewrite Z.max_l by lia.
  destruct (0 <=? l - 52) eqn:E.
  - apply Z.leb_le in E. rewrite Z.mul_1_l.
    pose proof (pow2_gt0 (l - 52) E) as PE.
    assert (X : 2 ^ l = 2 ^ 52 * 2 ^ (l - 52)).
    { rewrite <- pow2_add by lia. f_equal. lia. }
    assert (X' : 2 ^ (l + 1) = 2 ^ 53 * 2 ^ (l - 52)).
    { rewrite <- pow2_add by lia. f_equal. lia. }
    pose proof (rne_div_bounds N (2 ^ (l - 52)) ltac:(lia) PE) as B.
    assert (Q1 : 2 ^ 52 <= N / 2 ^ (l - 52)) by (apply Z.div_le_lower_bound; lia).
    assert (Q2 : N / 2 ^ (l - 52) < 2 ^ 53) by (apply Z.div_lt_upper_bound; lia).
    assert (S53 : N < 2 ^ 53 -> l - 52 = 0).
    { intros H5. assert (l < 53) by (apply Z.log2_lt_pow2; lia). lia. }
    assert (G53 : 2 ^ 53 <= N -> 1 <= l - 52).
    { intros H5. assert (53 <= l) by (apply Z.log2_le_pow2; lia). lia. }
    destruct (rne_div N (2 ^ (l - 52)) =? 2 ^ 53) eqn:M.
    + apply Z.eqb_eq in M. exists (2 ^ 52), (l - 52 + 1).
      assert (NS : ~ N < 2 ^ 53).
      { intros H5. specialize (S53 H5). rewrite S53 in M. change (2 ^ 0) with 1 in M.
        rewrite rne_div_1 in M. lia. }
      split; [reflexivity|]. split; [lia|]. split; [lia|]. split; intros H5; lia.
    + apply Z.eqb_neq in M. exists (rne_div N (2 ^ (l - 52))), (l - 52).
      split; [reflexivity|]. split; [lia|]. split; [lia|]. split; intros H5; [|lia].
      rewrite (S53 H5). change (- 0) with 0. change (2 ^ 0) with 1.
      rewrite rne_div_1. lia.
  - apply Z.leb_gt in E.
    pose proof (pow2_gt0 (- (l - 52)) ltac:(lia)) as PE.
    assert (X : 2 ^ 52 = 2 ^ l * 2 ^ (- (l - 52))).
    { rewrite <- pow2_add by lia. f_equal. lia. }
    assert (X' : 2 ^ 53 = 2 ^ (l + 1) * 2 ^ (- (l - 52))).
    { rewrite <- pow2_add by lia. f_equal. lia. }
    rewrite rne_div_1.
    assert (B : 2 ^ 52 <= N * 2 ^ (- (l - 52)) < 2 ^ 53) by nia.
    destruct (N * 2 ^ (- (l - 52)) =? 2 ^ 53) eqn:M; [apply Z.eqb_eq in M; lia|].
    exists (N * 2 ^ (- (l - 52))), (l - 52).
    split; [reflexivity|]. split; [lia|]. split; [lia|]. split; intros H5; [lia|].
    assert (53 <= l) by (apply Z.log2_le_pow2; lia). lia.
Qed.

Lemma pow1024 j : 0 <= j -> 1024 ^ j = 2 ^ (10 * j).
Proof. intros. change 1024 with (2 ^ 10). rewrite <- Z.pow_mul_r by lia. reflexivity. Qed.

(** The test of the loop, on the float of a positive integer [N] divided
    [j] times. *)
Lemma float_ge_1024 N m e j :
  0 < N -> 2 ^ 52 <= m < 2 ^ 53 -> -52 <= e ->
  (N < 2 ^ 53 -> e <= 0 /\ N * 2 ^ (- e) = m) ->
  (2 ^ 53 <= N -> 1 <= e) ->
  0 <= j <= 4 ->
  float_ge (Float false m (e - 10 * j)) float_1024 = (1024 ^ (j + 1) <=? N).
Proof.
  intros HN Hm He Hs Hg Hj.
  assert (P52 : 2 ^ 52 = 4503599627370496) by reflexivity.
  assert (P53 : 2 ^ 53 = 9007199254740992) by reflexivity.
  assert (P42 : 2 ^ 42 = 4398046511104) by reflexivity.
  rewrite pow1024 by lia.
  assert (PJ : 2 ^ 10 <= 2 ^ (10 * (j + 1)) <= 2 ^ 50).
  { split; apply Z.pow_le_mono_r; lia. }
  assert (P10 : 2 ^ 10 = 1024) by reflexivity.
  assert (P50 : 2 ^ 50 = 1125899906842624) by reflexivity.
  unfold float_ge. change (frac_of float_1024) with (2 ^ 52, 2 ^ 42).
  unfold frac_of. change (f_neg float_1024) with false. cbn [f_man f_exp f_neg].
  apply eq_true_iff_eq. rewrite Z.leb_le.
  destruct (0 <=? e - 10 * j) eqn:E.
  - apply Z.leb_le in E. rewrite Z.leb_le.
    pose proof (pow2_gt0 (e - 10 * j) E).
    assert (m <= m * 2 ^ (e - 10 * j)) by nia.
    rewrite P42. split; intros _; [|lia].
    destruct (Z.lt_ge_cases N (2 ^ 53)) as [C|C]; [|lia].
    destruct (Hs C) as [H1 H2]. assert (e = 0) by lia. subst e.
    change (2 ^ (- 0)) with 1 in H2. lia.
  - apply Z.leb_gt in E. rewrite Z.leb_le.
    pose proof (pow2_gt0 (- (e - 10 * j)) ltac:(lia)) as PE.
    rewrite P42.
    destruct (Z.lt_ge_cases N (2 ^ 53)) as [C|C].
    + destruct (Hs C) as [H1 H2].
      assert (X : 2 ^ (- (e - 10 * j)) * 2 ^ 10 = 2 ^ (10 * (j + 1)) * 2 ^ (- e)).
      { rewrite <- !pow2_add by lia. f_equal. lia. }
      pose proof (pow2_gt0 (- e) ltac:(lia)). rewrite P10 in X. nia.
    + specialize (Hg C).
      assert (X : 2 ^ (- (e - 10 * j)) <= 2 ^ 39) by (apply Z.pow_le_mono_r; lia).
      assert (P39 : 2 ^ 39 = 549755813888) by reflexivity.
      split; intros _; lia.
Qed.

Lemma unit_index_of_spec n :
  let k := unit_index_of n in
  0 <= k <= 5 /\ (k = 5 \/ n < 1024 ^ (k + 1)) /\ (forall j, 0 <= j < k -> 1024 ^ (j + 1) <= n).
Proof.
  unfold unit_index_of.
  assert (Q : forall j, 0 <= j < 5 -> j = 0 \/ j = 1 \/ j = 2 \/ j = 3 \/ j = 4) by lia.
  repeat match goal with
         | |- context [?a <? ?b] => destruct (Z.ltb_spec a b)
         end; cbv zeta; (split; [lia|]); (split; [first [now left | right; assumption]|]);
    intros j Hj; destruct (Q j ltac:(lia)) as [->|[->|[->|[->| ->]]]]; try lia;
    cbn [Z.add Pos.add Pos.succ] in *; lia.
Qed.

Lemma unit_index_of_unique n k :
  0 <= k <= 5 -> (k = 5 \/ n < 1024 ^ (k + 1)) ->
  (forall j, 0 <= j < k -> 1024 ^ (j + 1) <= n) -> unit_index_of n = k.
Proof.
  intros Hk Hlt Hge. destruct (unit_index_of_spec n) as (B & L & G).
  set (u := unit_index_of n) in *.
  destruct (Z.lt_trichotomy u k) as [C|[C|C]]; [|exact C|].
  - specialize (Hge u ltac:(lia)). destruct L as [L1|L1]; lia.
  - specialize (G k ltac:(lia)). destruct Hlt as [L1|L1]; lia.
Qed.

Section Scale.

Variables (N m e : Z).
Hypothesis HN : 0 < N.
Hypothesis Hm : 2 ^ 52 <= m < 2 ^ 53.
Hypothesis He : -52 <= e.
Hypothesis Hsmall : N < 2 ^ 53 -> e <= 0 /\ N * 2 ^ (- e) = m.
Hypothesis Hlarge : 2 ^ 53 <= N -> 1 <= e.

Lemma scale_from fuel j :
  0 <= j <= 5 -> 5 - j < Z.of_nat fuel ->
  (forall i, 0 <= i < j -> 1024 ^ (i + 1) <= N) ->
  scale fuel (Float false m (e - 10 * j)) j
  = (Float false m (e - 10 * unit_index_of N), unit_index_of N).
Proof.
  revert j. induction fuel as [|fuel IH]; intros j Hj Hf Hge; [lia|].
  cbn [scale]. change (Z.of_nat (List.length units) - 1) with 5.
  destruct (Z.eq_dec j 5) as [->|Nj].
  - rewrite (proj2 (Z.ltb_ge 5 5)) by lia. rewrite andb_false_r.
    rewrite (unit_index_of_unique N 5); auto; lia.
  - rewrite (float_ge_1024 N m e j) by (auto; lia).
    rewrite (proj2 (Z.ltb_lt j 5)) by lia. rewrite andb_true_r.
    destruct (Z.leb_spec (1024 ^ (j + 1)) N) as [C|C].
    + rewrite float_div_1024 by lia.
      replace (e - 10 * j - 10) with (e - 10 * (j + 1)) by lia.
      apply IH; try lia.
      intros i Hi. destruct (Z.eq_dec i j) as [->|]; [exact C|apply Hge; lia].
    + rewrite (unit_index_of_unique N j); auto; lia.
Qed.

End Scale.

Lemma float_ge_negative m e : 0 <= m -> float_ge (Float true m e) float_1024 = false.
Proof.
  intros Hm. unfold float_ge. change (frac_of float_1024) with (2 ^ 52, 2 ^ 42).
  change (f_neg float_1024) with false. unfold frac_of. cbn [f_neg f_man f_exp].
  change (2 ^ 52) with 4503599627370496. change (2 ^ 42) with 4398046511104.
  destruct (0 <=? e) eqn:E; apply Z.leb_gt.
  - apply Z.leb_le in E. pose proof (pow2_gt0 e E). nia.
  - apply Z.leb_gt in E. pose proof (pow2_gt0 (- e) ltac:(lia)). nia.
Qed.

(** The float [float(n)] and what the loop makes of it. *)
Lemma scale_float_of_int n x :
  float_of_int n = Ret x ->
  f_neg x = (n <? 0) /\
  scale (List.length units) x 0
  = (Float (f_neg x) (f_man x) (f_exp x - 10 * unit_index_of n), unit_index_of n) /\
  (Z.abs n < 2 ^ 53 ->
   Z.abs n * 2 ^ Z.max (- f_exp x) 0 = f_man x * 2 ^ Z.max (f_exp x) 0).
Proof.
  unfold float_of_int.
  destruct (Z.eq_dec n 0) as [->|Nz].
  - cbn. intros H. inversion H; subst x. repeat split.
  - destruct (nearest_int (Z.abs n) ltac:(lia)) as (m & e & NE & Hm & He & Hs & Hl).
    rewrite NE. destruct (971 <? e); [discriminate|].
    intros H. inversion H; subst x. cbn [f_neg f_man f_exp]. split; [reflexivity|].
    split.
    + destruct (Z.ltb_spec n 0) as [C|C].
      * cbn [scale List.length units]. rewrite float_ge_negative by lia. cbn [andb].
        rewrite (unit_index_of_unique n 0); try lia.
        now replace (e - 10 * 0) with e by lia.
      * replace (Z.abs n) with n in * by lia.
        pose proof (scale_from n m e ltac:(lia) Hm He Hs Hl 6 0 ltac:(lia) ltac:(lia)
                      ltac:(intros; lia)) as S.
        replace (e - 10 * 0) with e in S by lia. exact S.
    + intros H53. destruct (Hs H53) as [E0 EQ].
      rewrite (Z.max_l (- e) 0), (Z.max_r e 0) by lia. change (2 ^ 0) with 1. lia.
Qed.

(** [float(n)] succeeds exactly below the rounding boundary of the largest
    finite float. *)
Lemma float_of_int_range n :
  Z.abs n < 2 ^ 1024 - 2 ^ 970 <-> exists x, float_of_int n = Ret x.
Proof.
  unfold float_of_int.
  destruct (Z.eq_dec n 0) as [->|Nz].
  - split; [intros _; eexists; reflexivity|intros _; reflexivity].
  - set (N := Z.abs n). assert (HN : 0 < N) by (unfold N; lia).
    pose proof (Z.log2_spec N HN) as [A1 A2]. pose proof (Z.log2_nonneg N) as An.
    replace (Z.succ (Z.log2 N)) with (Z.log2 N + 1) in A2 by lia.
    unfold nearest. destruct (N =? 0) eqn:Z0; [apply Z.eqb_eq in Z0; lia|]. cbv zeta.
    rewrite ilog2_frac_int by exact HN. set (l := Z.log2 N) in *.
    rewrite Z.max_l by lia.
    assert (P53 : 2 ^ 53 = 9007199254740992) by reflexivity.
    destruct (Z.lt_trichotomy l 1023) as [C|[C|C]].
    + (* below the last binade *)
      assert (B : N < 2 ^ 1023).
      { apply Z.lt_le_trans with (2 ^ (l + 1)); [exact A2|]. apply Z.pow_le_mono_r; lia. }
      split; [intros _|intros _; change (2 ^ 1024 - 2 ^ 970) with (2 ^ 1023 + (2 ^ 1023 - 2 ^ 970)); 
                                 assert (0 < 2 ^ 1023 - 2 ^ 970) by reflexivity; lia].
      match goal with |- context [?t =? 2 ^ 53] => destruct (t =? 2 ^ 53) end;
        match goal with |- context [971 <? ?e] => destruct (Z.ltb_spec 971 e) end;
        try lia; eexists; reflexivity.
    + (* the last binade *)
      rewrite C in *. change (1023 - 52) with 971. change (0 <=? 971) with true. cbv iota.
      rewrite Z.mul_1_l. unfold rne_div. cbv zeta.
      set (b := 2 ^ 971) in *. assert (Hb : 0 < b) by reflexivity.
      pose proof (Z.div_mod N b ltac:(lia)) as D.
      pose proof (Z.mod_pos_bound N b Hb) as R.
      assert (T1 : 2 ^ 1023 = 2 ^ 52 * b) by reflexivity.
      assert (T2 : 2 ^ (1023 + 1) = 2 ^ 53 * b) by reflexivity.
      assert (T3 : 2 ^ 1024 - 2 ^ 970 = (2 ^ 53 - 1) * b + 2 ^ 970) by reflexivity.
      assert (T4 : b = 2 * 2 ^ 970) by reflexivity.
      assert (Q1 : 2 ^ 52 <= N / b) by (apply Z.div_le_lower_bound; lia).
      assert (Q2 : N / b < 2 ^ 53) by (apply Z.div_lt_upper_bound; lia).
      set (q := N / b) in *. set (r := N mod b) in *. set (h := 2 ^ 970) in *.
      assert (P52 : 2 ^ 52 = 4503599627370496) by reflexivity.
      rewrite T3. clear T1 T2 T3 A1 A2.
      destruct (Z.lt_ge_cases N ((2 ^ 53 - 1) * b + h)) as [S|S].
      * split; [intros _|intros _; exact S].
        assert (M : (if 2 * r <? b then q
                     else if b <? 2 * r then q + 1 else if Z.even q then q else q + 1)
                    <> 2 ^ 53).
        { destruct (Z.ltb_spec (2 * r) b); [lia|].
          assert (q <= 2 ^ 53 - 2) by nia.
          destruct (b <? 2 * r); [lia|]. destruct (Z.even q); lia. }
        apply Z.eqb_neq in M. rewrite M. change (971 <? 971) with false.
        eexists; reflexivity.
      * split; [lia|]. intros [x Hx]. exfalso.
        assert (Q : q = 2 ^ 53 - 1) by nia.
        assert (M : (if 2 * r <? b then q
                     else if b <? 2 * r then q + 1 else if Z.even q then q else q + 1)
                    = 2 ^ 53).
        { destruct (Z.ltb_spec (2 * r) b); [nia|].
          destruct (b <? 2 * r); [lia|]. rewrite Q. cbn. lia. }
        rewrite M in Hx. rewrite Z.eqb_refl in Hx. discriminate.
    + (* beyond the largest binade *)
      assert (B : 2 ^ 1024 <= N).
      { apply Z.le_trans with (2 ^ l); [|exact A1]. apply Z.pow_le_mono_r; lia. }
      assert (0 < 2 ^ 970) by reflexivity.
      split; [lia|]. intros [x Hx]. exfalso.
      rewrite (proj2 (Z.leb_le 0 (l - 52))) in Hx by lia.
      match type of Hx with context [?t =? 2 ^ 53] => destruct (t =? 2 ^ 53) end;
        match type of Hx with context [971 <? ?e] => destruct (Z.ltb_spec 971 e) end;
        try discriminate; lia.
Qed.

Lemma frac_of_pos x : 0 <= f_man x -> 0 <= fst (frac_of x) /\ 0 < snd (frac_of x).
Proof.
  intros H. unfold frac_of. destruct (0 <=? f_exp x) eqn:E; cbn [fst snd].
  - apply Z.leb_le in E. pose proof (pow2_gt0 _ E). nia.
  - apply Z.leb_gt in E. pose proof (pow2_gt0 (- f_exp x) ltac:(lia)). lia.
Qed.

(** [round(x, 2)] is the float nearest to the decimal [h / 100], where [h]
    is the integer nearest to [100 * |x|]. *)
Lemma float_round_2 x :
  0 <= f_man x ->
  exists h,
    0 <= h /\
    float_round x 2 = Float (f_neg x) (fst (nearest h 100)) (snd (nearest h 100)) /\
    2 * Z.abs (h * snd (frac_of x) - 100 * fst (frac_of x)) <= snd (frac_of x).
Proof.
  intros H. destruct (frac_of_pos x H) as [Ha Hb].
  unfold float_round. destruct (frac_of x) as [a b]. cbn [fst snd] in *.
  change (10 ^ 2) with 100.
  exists (rne_div (a * 100) b). split; [|split].
  - pose proof (rne_div_bounds (a * 100) b ltac:(lia) Hb).
    assert (0 <= a * 100 / b) by (apply Z.div_pos; lia). lia.
  - now destruct (nearest _ 100).
  - pose proof (rne_div_error (a * 100) b ltac:(lia) Hb). lia.
Qed.

Lemma nearest_exp_le num den :
  0 < num -> 0 < den ->
  snd (nearest num den) <= Z.max (Z.log2 num - Z.log2 den - 52) (-1074) + 1.
Proof.
  intros Hn Hd. unfold nearest. destruct (num =? 0) eqn:Z0; [apply Z.eqb_eq in Z0; lia|].
  cbv zeta.
  assert (L : ilog2_frac num den <= Z.log2 num - Z.log2 den).
  { unfold ilog2_frac. cbv zeta. destruct (ge_pow2 _ _ _); lia. }
  match goal with |- context [?t =? 2 ^ 53] => destruct (t =? 2 ^ 53) end; cbn [snd]; lia.
Qed.

(** The report is built without an exception for every difference of two
    dates. *)
Lemma days_report_returns days :
  Z.abs days < 2 ^ 22 ->
  exists weeks fdays,
    int_truediv days 7 = Ret weeks /\ float_of_int days = Ret fdays /\
    days_report days
    = Ret (str_int days ++ " days (approximately " ++ float_repr (float_round weeks 2)
           ++ " weeks or " ++ float_repr (float_round (float_div fdays float_365_25) 2)
           ++ " years)").
Proof.
  intros H.
  assert (P22 : 2 ^ 22 = 4194304) by reflexivity.
  assert (F : exists fdays, float_of_int days = Ret fdays).
  { apply float_of_int_range. assert (2 ^ 22 < 2 ^ 1024 - 2 ^ 970) by reflexivity. lia. }
  destruct F as [fdays F].
  assert (W : exists weeks, int_truediv days 7 = Ret weeks).
  { unfold int_truediv. change (7 =? 0) with false. cbv iota. change (Z.abs 7) with 7.
    destruct (Z.eq_dec days 0) as [->|Nz]; [eexists; reflexivity|].
    pose proof (nearest_exp_le (Z.abs days) 7 ltac:(lia) ltac:(lia)) as B.
    assert (Z.log2 (Z.abs days) < 22) by (apply Z.log2_lt_pow2; lia).
    change (Z.log2 7) with 2 in B.
    destruct (nearest (Z.abs days) 7) as [m e]. cbn [snd] in B.
    rewrite (proj2 (Z.ltb_ge 971 e)) by lia. eexists; reflexivity. }
  destruct W as [weeks W].
  exists weeks, fdays. split; [exact W|]. split; [exact F|].
  unfold days_report. rewrite W, F. reflexivity.
Qed.

(** *** Integers that are printed exactly *)

(** The integers between -1024 and 1024 are printed with one decimal. *)
Lemma small_integers_table :
  forallb (fun i => let n := Z.of_nat i - 1023 in rounded_text_is n (str_int n ++ ".0"))
          (seq 0 2047) = true.
Proof. vm_compute. reflexivity. Qed.

Lemma small_integers_text n :
  - 1024 < n < 1024 ->
  exists x, float_of_int n = Ret x /\ float_repr (float_round x 2) = str_int n ++ ".0".
Proof.
  intros H. pose proof small_integers_table as T. rewrite forallb_forall in T.
  specialize (T (Z.to_nat (n + 1023)) ltac:(apply in_seq; lia)). cbv zeta in T.
  replace (Z.of_nat (Z.to_nat (n + 1023)) - 1023) with n in T by lia.
  unfold rounded_text_is in T. destruct (float_of_int n) as [x|e]; [|discriminate].
  exists x. split; [reflexivity|]. now apply String.eqb_eq.
Qed.

Lemma append_assoc (a b c : string) : (a ++ b) ++ c = a ++ b ++ c.
Proof. induction a as [|x a IH]; cbn; [reflexivity|now rewrite IH]. Qed.

(** The float of a whole number of units. *)
Lemma float_of_whole_units q k m e :
  1 <= q < 1024 -> 0 <= k <= 5 ->
  float_of_int q = Ret (Float false m e) ->
  float_of_int (q * 1024 ^ k) = Ret (Float false m (e + 10 * k)).
Proof.
  intros Hq Hk. unfold float_of_int.
  assert (P53 : 2 ^ 53 = 9007199254740992) by reflexivity.
  destruct (nearest_int q ltac:(lia)) as (m' & e' & NE & Hm & He & Hs & _).
  replace (Z.abs q) with q by lia. rewrite NE.
  destruct (971 <? e'); [discriminate|].
  intros X. inversion X; subst m' e'. clear X.
  destruct (Hs ltac:(lia)) as [E0 EQ].
  assert (PK : 1024 ^ k = 2 ^ (10 * k)) by (apply pow1024; lia).
  assert (PKpos : 0 < 2 ^ (10 * k)) by (apply pow2_gt0; lia).
  assert (Hn : 0 < q * 1024 ^ k) by (rewrite PK; nia).
  replace (Z.abs (q * 1024 ^ k)) with (q * 1024 ^ k) by lia.
  rewrite (nearest_exact (q * 1024 ^ k) 1 m (e + 10 * k)); try lia.
  - rewrite (proj2 (Z.ltb_ge 971 (e + 10 * k))) by lia.
    rewrite (proj2 (Z.ltb_ge (q * 1024 ^ k) 0)) by lia.
    rewrite (proj2 (Z.ltb_ge q 0)) by lia. reflexivity.
  - unfold frac_is. rewrite PK, <- EQ.
    destruct (Z.lt_ge_cases (e + 10 * k) 0) as [C|C].
    + rewrite (Z.max_l (- (e + 10 * k)) 0), (Z.max_r (e + 10 * k) 0) by lia.
      change (2 ^ 0) with 1.
      replace (- e) with (10 * k + - (e + 10 * k)) by lia.
      rewrite pow2_add by lia. lia.
    + rewrite (Z.max_r (- (e + 10 * k)) 0), (Z.max_l (e + 10 * k) 0) by lia.
      change (2 ^ 0) with 1.
      replace (10 * k) with (- e + (e + 10 * k)) at 1 by lia.
      rewrite pow2_add by lia. lia.
Qed.

Lemma unit_index_of_whole_units q k :
  1 <= q < 1024 -> 0 <= k <= 5 -> unit_index_of (q * 1024 ^ k) = k.
Proof.
  intros Hq Hk.
  assert (Kpos : 0 < 1024 ^ k) by (apply Z.pow_pos_nonneg; lia).
  apply unit_index_of_unique; [exact Hk| |].
  - destruct (Z.eq_dec k 5) as [->|N]; [now left|right].
    rewrite Z.pow_add_r by lia. change (1024 ^ 1) with 1024. nia.
  - intros j Hj.
    assert (1024 ^ (j + 1) <= 1024 ^ k) by (apply Z.pow_le_mono_r; lia). nia.
Qed.

(* ===================================================================== *)
(** ** Facts about dates *)
(* ===================================================================== *)

Ltac divmod := Z.div_mod_to_equations; lia.

Lemma is_leap_spec y :
  is_leap y = true <-> (y mod 4 = 0 /\ (y mod 100 <> 0 \/ y mod 400 = 0)).
Proof.
  unfold is_leap. rewrite andb_true_iff, orb_true_iff, negb_true_iff, !Z.eqb_eq, Z.eqb_neq.
  tauto.
Qed.

Lemma days_before_year_succ y :
  days_before_year (y + 1) = days_before_year y + (if is_leap y then 366 else 365).
Proof.
  unfold days_before_year. cbv zeta.
  replace (y + 1 - 1) with y by lia.
  destruct (is_leap y) eqn:L.
  - apply is_leap_spec in L. divmod.
  - assert (N : ~ (y mod 4 = 0 /\ (y mod 100 <> 0 \/ y mod 400 = 0))).
    { rewrite <- is_leap_spec. congruence. }
    divmod.
Qed.

Lemma month_cases m : 1 <= m <= 12 ->
  m = 1 \/ m = 2 \/ m = 3 \/ m = 4 \/ m = 5 \/ m = 6 \/ m = 7 \/ m = 8 \/ m = 9 \/ m = 10
  \/ m = 11 \/ m = 12.
Proof. lia. Qed.

Lemma days_before_month_succ y m :
  1 <= m < 12 -> days_before_month y (m + 1) = days_before_month y m + days_in_month y m.
Proof.
  intros H. assert (C := month_cases m ltac:(lia)).
  unfold days_before_month, days_in_month.
  repeat (destruct C as [-> | C]); try lia; cbn; destruct (is_leap y); reflexivity.
Qed.

Lemma days_before_month_12 y :
  days_before_month y 12 + 31 = if is_leap y then 366 else 365.
Proof. unfold days_before_month. cbn. destruct (is_leap y); reflexivity. Qed.

Lemma is_date_bounds d :
  is_date d -> 1 <= d_month d <= 12 /\ 1 <= d_day d <= days_in_month (d_year d) (d_month d).
Proof. unfold is_date, gregorian_date. rewrite !andb_true_iff, !Z.leb_le. lia. Qed.

Lemma days_in_month_bounds y m : 28 <= days_in_month y m <= 31.
Proof.
  unfold days_in_month.
  destruct (m =? 2); [destruct (is_leap y); lia|].
  destruct (_ || _); lia.
Qed.

Lemma next_day_is_date d : is_date d -> is_date (next_day d).
Proof.
  intros H. destruct (is_date_bounds d H) as [Hm Hd].
  pose proof (days_in_month_bounds (d_year d)) as B.
  unfold next_day, is_date, gregorian_date.
  destruct (d_day d <? _) eqn:E1; cbn [d_year d_month d_day].
  - apply Z.ltb_lt in E1. rewrite !andb_true_iff, !Z.leb_le. lia.
  - destruct (d_month d <? 12) eqn:E2; cbn [d_year d_month d_day].
    + apply Z.ltb_lt in E2. specialize (B (d_month d + 1)).
      rewrite !andb_true_iff, !Z.leb_le. lia.
    + reflexivity.
Qed.

(** Ordinals count days: the day after has the next ordinal. *)
Lemma toordinal_next_day d : is_date d -> toordinal (next_day d) = toordinal d + 1.
Proof.
  intros H. destruct (is_date_bounds d H) as [Hm Hd].
  unfold next_day, toordinal, ymd_to_ord.
  destruct (d_day d <? _) eqn:E1; cbn [d_year d_month d_day].
  - lia.
  - apply Z.ltb_ge in E1.
    destruct (d_month d <? 12) eqn:E2; cbn [d_year d_month d_day].
    + apply Z.ltb_lt in E2. rewrite days_before_month_succ by lia. lia.
    + apply Z.ltb_ge in E2. assert (M : d_month d = 12) by lia.
      rewrite M in *. rewrite days_before_year_succ.
      pose proof (days_before_month_12 (d_year d)).
      assert (D : days_in_month (d_year d) 12 = 31) by reflexivity.
      change (days_before_month (d_year d + 1) 1) with 0. lia.
Qed.

Lemma weekday_next_day d :
  is_date d ->
  weekday (d_year (next_day d)) (d_month (next_day d)) (d_day (next_day d))
  = (weekday (d_year d) (d_month d) (d_day d) + 1) mod 7.
Proof.
  intros H. pose proof (toordinal_next_day d H) as T. unfold toordinal in T.
  unfold weekday. rewrite T. divmod.
Qed.

(** *** What [strptime] accepts *)

Lemma alt_some {R} (p q : option R) r : alt p q = Some r -> p = Some r \/ q = Some r.
Proof. destruct p; cbn; auto. Qed.

Lemma year_re_some {R} s (k : string -> string -> option R) r :
  year_re s k = Some r -> exists g rest, String.length g = 4%nat /\ k g rest = Some r.
Proof.
  unfold year_re. destruct s as [|a [|b [|c [|d rest]]]]; try discriminate.
  destruct (_ && _); [|discriminate]. intros H.
  exists (String a (String b (String c (String d "")))), rest. auto.
Qed.

Lemma lit_re_some {R} c s (k : string -> option R) r :
  lit_re c s k = Some r -> exists rest, k rest = Some r.
Proof.
  unfold lit_re. destruct s as [|a rest]; try discriminate.
  destruct (Ascii.eqb a c); [|discriminate]. intros H. exists rest. exact H.
Qed.

Lemma two_re_some {R} a1 b1 a2 b2 s (k : string -> string -> option R) r :
  two_re a1 b1 a2 b2 s k = Some r ->
  exists g rest, (String.length g <= 2)%nat /\ k g rest = Some r.
Proof.
  unfold two_re. destruct s as [|x [|y rest]]; try discriminate.
  destruct (_ && _); [|discriminate]. intros H. exists (String x (String y "")), rest. auto.
Qed.

Lemma one_re_some {R} a b s (k : string -> string -> option R) r :
  one_re a b s k = Some r ->
  exists g rest, (String.length g <= 2)%nat /\ k g rest = Some r.
Proof.
  unfold one_re. destruct s as [|x rest]; try discriminate.
  destruct (in_range x a b); [|discriminate]. intros H. exists (String x ""), rest. auto.
Qed.

Lemma month_re_some {R} s (k : string -> string -> option R) r :
  month_re s k = Some r ->
  exists g rest, (String.length g <= 2)%nat /\ k g rest = Some r.
Proof.
  unfold month_re. intros H.
  repeat (apply alt_some in H; destruct H as [H|H]);
    first [eapply two_re_some; eassumption | eapply one_re_some; eassumption].
Qed.

Lemma day_re_some {R} s (k : string -> string -> option R) r :
  day_re s k = Some r ->
  exists g rest, (String.length g <= 2)%nat /\ k g rest = Some r.
Proof.
  unfold day_re. intros H.
  repeat (apply alt_some in H; destruct H as [H|H]);
    first [eapply two_re_some; eassumption | eapply one_re_some; eassumption].
Qed.

Lemma match_format_groups s Y m d rest :
  match_format s = Some (Y, m, d, rest) ->
  String.length Y = 4%nat /\ (String.length m <= 2)%nat /\ (String.length d <= 2)%nat.
Proof.
  unfold match_format. intros H.
  apply year_re_some in H. destruct H as (Y' & r1 & LY & H).
  apply lit_re_some in H. destruct H as (r2 & H).
  apply month_re_some in H. destruct H as (m' & r3 & Lm & H).
  apply lit_re_some in H. destruct H as (r4 & H).
  apply day_re_some in H. destruct H as (d' & r5 & Ld & H).
  inversion H; subst. auto.
Qed.

Lemma code_range c : 0 <= code c < 256.
Proof.
  unfold code. pose proof (nat_ascii_bounded c). lia.
Qed.

Lemma int_of_digits_small g :
  (String.length g <= 4)%nat -> - 2 ^ 31 <= int_of_digits 0 g < 2 ^ 31.
Proof.
  change (2 ^ 31) with 2147483648.
  destruct g as [|c1 [|c2 [|c3 [|c4 [|c5 g]]]]]; cbn [String.length]; intros L; try lia;
    cbn [int_of_digits];
    repeat match goal with
           | |- context [Ascii.eqb ?c " "] => destruct (Ascii.eqb c " ")
           end;
    cbn [int_of_digits];
    repeat match goal with
           | c : ascii |- _ => pose proof (code_range c); generalize dependent (code c); clear c; intros
           end; lia.
Qed.

Lemma c_int_small v : - 2 ^ 31 <= v < 2 ^ 31 -> c_int v = Ret v.
Proof.
  intros H. unfold c_int.
  assert (2 ^ 31 < 2 ^ 63) by reflexivity.
  rewrite (proj2 (Z.ltb_ge v (- 2 ^ 63))) by lia.
  rewrite (proj2 (Z.leb_gt (2 ^ 63) v)) by lia. cbn [orb].
  rewrite (proj2 (Z.leb_gt (2 ^ 31) v)) by lia.
  rewrite (proj2 (Z.ltb_ge v (- 2 ^ 31))) by lia. reflexivity.
Qed.

Lemma date_new_small y m d :
  - 2 ^ 31 <= y < 2 ^ 31 -> - 2 ^ 31 <= m < 2 ^ 31 -> - 2 ^ 31 <= d < 2 ^ 31 ->
  date_new y m d = check_date_args y m d.
Proof.
  intros. unfold date_new. now rewrite !c_int_small by assumption.
Qed.

(** The range checks accept the Gregorian dates of the years 1 to 9999,
    and raise [ValueError] for every other triple. *)
Lemma check_date_args_spec y m d :
  if (1 <=? y) && (y <=? 9999) && gregorian_date y m d
  then check_date_args y m d = Ret (Date y m d)
  else exists reason, check_date_args y m d = Raise (Exn ValueError reason).
Proof.
  unfold check_date_args, gregorian_date, MINYEAR, MAXYEAR.
  destruct (Z.leb_spec 1 y), (Z.leb_spec y 9999); cbn [andb];
    try (rewrite (proj2 (Z.ltb_lt y 1)) by lia; cbn [orb]; eauto);
    try (rewrite (proj2 (Z.ltb_ge y 1)) by lia; rewrite (proj2 (Z.ltb_lt 9999 y)) by lia;
         cbn [orb]; eauto).
  rewrite (proj2 (Z.ltb_ge y 1)), (proj2 (Z.ltb_ge 9999 y)) by lia. cbn [orb].
  destruct (Z.leb_spec 1 m), (Z.leb_spec m 12); cbn [andb];
    try (rewrite (proj2 (Z.ltb_lt m 1)) by lia; cbn [orb]; eauto);
    try (rewrite (proj2 (Z.ltb_ge m 1)) by lia; rewrite (proj2 (Z.ltb_lt 12 m)) by lia;
         cbn [orb]; eauto).
  rewrite (proj2 (Z.ltb_ge m 1)), (proj2 (Z.ltb_ge 12 m)) by lia. cbn [orb].
  destruct (Z.leb_spec 1 d), (Z.leb_spec d (days_in_month y m)); cbn [andb];
    try (rewrite (proj2 (Z.ltb_lt d 1)) by lia; cbn [orb]; eauto);
    try (rewrite (proj2 (Z.ltb_ge d 1)) by lia;
         rewrite (proj2 (Z.ltb_lt (days_in_month y m) d)) by lia; cbn [orb]; eauto).
  rewrite (proj2 (Z.ltb_ge d 1)), (proj2 (Z.ltb_ge (days_in_month y m) d)) by lia.
  reflexivity.
Qed.

(** What [strptime] returns is a date of the years 1 to 9999; what it
    raises is a [ValueError]. *)
Lemma strptime_spec s :
  match strptime s with
  | Ret d => 1 <= d_year d <= 9999 /\ is_date d
  | Raise x => exn_cls x = ValueError
  end.
Proof.
  unfold strptime. destruct (match_format s) as [[[[Y m] d] rest]|] eqn:E; [|reflexivity].
  destruct (negb (String.eqb rest "")); [reflexivity|].
  destruct (match_format_groups _ _ _ _ _ E) as (LY & Lm & Ld).
  rewrite date_new_small by (apply int_of_digits_small; lia).
  pose proof (check_date_args_spec (int_of_digits 0 Y) (int_of_digits 0 m) (int_of_digits 0 d)) as C.
  destruct (_ && _ && _) eqn:V.
  - rewrite C. cbn [d_year d_month d_day]. unfold is_date. cbn [d_year d_month d_day].
    apply andb_true_iff in V. destruct V as [V1 V2]. apply andb_true_iff in V1.
    rewrite !Z.leb_le in V1. split; [lia|exact V2].
  - destruct C as [reason ->]. reflexivity.
Qed.

Lemma days_before_year_bounds y : 1 <= y <= 9999 -> 0 <= days_before_year y <= 3651700.
Proof.
  intros H. unfold days_before_year. cbv zeta.
  pose proof (Z.div_mod (y - 1) 4 ltac:(lia)).
  pose proof (Z.mod_pos_bound (y - 1) 4 ltac:(lia)).
  pose proof (Z.div_mod (y - 1) 100 ltac:(lia)).
  pose proof (Z.mod_pos_bound (y - 1) 100 ltac:(lia)).
  pose proof (Z.div_mod (y - 1) 400 ltac:(lia)).
  pose proof (Z.mod_pos_bound (y - 1) 400 ltac:(lia)).
  split; lia.
Qed.

Lemma days_before_month_bounds y m : 1 <= m <= 12 -> 0 <= days_before_month y m <= 335.
Proof.
  intros H. assert (C := month_cases m H). unfold days_before_month.
  repeat (destruct C as [-> | C]); try subst m; destruct (is_leap y);
    match goal with
    | |- 0 <= ?t <= _ => let v := eval vm_compute in t in change t with v
    end; lia.
Qed.

Lemma toordinal_bounds d :
  1 <= d_year d <= 9999 -> is_date d -> 1 <= toordinal d <= 3652066.
Proof.
  intros Hy Hd. destruct (is_date_bounds d Hd) as [Hm Hdd].
  pose proof (days_in_month_bounds (d_year d) (d_month d)).
  pose proof (days_before_year_bounds _ Hy). pose proof (days_before_month_bounds (d_year d) _ Hm).
  unfold toordinal, ymd_to_ord. lia.
Qed.

Lemma code_digit n : 0 <= n <= 9 -> code (digit n) = 48 + n.
Proof.
  intros H. unfold code, digit. rewrite nat_ascii_embedding by lia. lia.
Qed.

Lemma in_range_digit n : 0 <= n <= 9 -> in_range (digit n) "0" "9" = true.
Proof.
  intros H. unfold in_range. rewrite code_digit by exact H.
  change (code "0") with 48. change (code "9") with 57.
  apply andb_true_iff. rewrite !Z.leb_le. lia.
Qed.

Lemma digit_not_blank n : 0 <= n <= 9 -> Ascii.eqb (digit n) " " = false.
Proof.
  intros H. destruct (Ascii.eqb (digit n) " ") eqn:E; [|reflexivity].
  apply Ascii.eqb_eq in E. pose proof (code_digit n H) as C. rewrite E in C.
  change (code " ") with 32 in C. lia.
Qed.

Lemma int_of_two_digits n : 0 <= n <= 99 -> int_of_digits 0 (two_digits n) = n.
Proof.
  intros H. unfold two_digits. cbn [int_of_digits].
  assert (0 <= n / 10 <= 9) by (Z.div_mod_to_equations; lia).
  assert (0 <= n mod 10 <= 9) by (Z.div_mod_to_equations; lia).
  rewrite !digit_not_blank, !code_digit by assumption.
  Z.div_mod_to_equations; lia.
Qed.

Lemma int_of_four_digits n : 0 <= n <= 9999 -> int_of_digits 0 (four_digits n) = n.
Proof.
  intros H. unfold four_digits. cbn [int_of_digits].
  assert (0 <= n / 1000 <= 9) by (Z.div_mod_to_equations; lia).
  assert (0 <= n / 100 mod 10 <= 9) by (Z.div_mod_to_equations; lia).
  assert (0 <= n / 10 mod 10 <= 9) by (Z.div_mod_to_equations; lia).
  assert (0 <= n mod 10 <= 9) by (Z.div_mod_to_equations; lia).
  rewrite !digit_not_blank, !code_digit by assumption.
  Z.div_mod_to_equations; lia.
Qed.

Lemma day_cases d : 1 <= d <= 31 ->
  d = 1 \/ d = 2 \/ d = 3 \/ d = 4 \/ d = 5 \/ d = 6 \/ d = 7 \/ d = 8 \/ d = 9 \/ d = 10
  \/ d = 11 \/ d = 12 \/ d = 13 \/ d = 14 \/ d = 15 \/ d = 16 \/ d = 17 \/ d = 18 \/ d = 19
  \/ d = 20 \/ d = 21 \/ d = 22 \/ d = 23 \/ d = 24 \/ d = 25 \/ d = 26 \/ d = 27 \/ d = 28
  \/ d = 29 \/ d = 30 \/ d = 31.
Proof. lia. Qed.

(** The format's pattern matches the whole of a well-formed text. *)
Lemma match_format_iso y m d :
  0 <= y <= 9999 -> 1 <= m <= 12 -> 1 <= d <= 31 ->
  match_format (iso_format y m d) = Some (four_digits y, two_digits m, two_digits d, "").
Proof.
  intros Hy Hm Hd.
  assert (0 <= y / 1000 <= 9) by (Z.div_mod_to_equations; lia).
  assert (0 <= y / 100 mod 10 <= 9) by (Z.div_mod_to_equations; lia).
  assert (0 <= y / 10 mod 10 <= 9) by (Z.div_mod_to_equations; lia).
  assert (0 <= y mod 10 <= 9) by (Z.div_mod_to_equations; lia).
  unfold match_format, iso_format, four_digits. cbn [String.append year_re].
  rewrite !in_range_digit by assumption. cbn [andb].
  fold (four_digits y). generalize (four_digits y). intros Y.
  assert (Cm := month_cases m Hm). assert (Cd := day_cases d Hd).
  repeat (destruct Cm as [-> | Cm]); try subst m;
    repeat (destruct Cd as [-> | Cd]); try subst d; reflexivity.
Qed.

Lemma strptime_iso y m d :
  1 <= y <= 9999 -> gregorian_date y m d = true ->
  strptime (iso_format y m d) = Ret (Date y m d).
Proof.
  intros Hy G.
  assert (B := is_date_bounds (Date y m d) G). cbn [d_year d_month d_day] in B.
  pose proof (days_in_month_bounds y m).
  unfold strptime. rewrite match_format_iso by lia. cbn [String.eqb negb].
  rewrite int_of_four_digits, !int_of_two_digits by lia.
  assert (P31 : 2 ^ 31 = 2147483648) by reflexivity.
  rewrite date_new_small by lia.
  pose proof (check_date_args_spec y m d) as C.
  rewrite (proj2 (Z.leb_le 1 y)), (proj2 (Z.leb_le y 9999)), G in C by lia. exact C.
Qed.

Lemma days_after_is_date n d : is_date d -> is_date (days_after n d).
Proof. intros H. induction n; cbn; [exact H|now apply next_day_is_date]. Qed.

Lemma toordinal_days_after n d :
  is_date d -> toordinal (days_after n d) = toordinal d + Z.of_nat n.
Proof.
  intros H. induction n as [|n IH]; [cbn; lia|].
  change (days_after (S n) d) with (next_day (days_after n d)).
  rewrite toordinal_next_day by (now apply days_after_is_date). lia.
Qed.


Lemma strftime_A_next_day d : is_date d -> strftime_A (next_day d) = following (strftime_A d).
Proof.
  intros H. unfold strftime_A. rewrite weekday_next_day by exact H.
  assert (B : 0 <= weekday (d_year d) (d_month d) (d_day d) < 7).
  { unfold weekday. apply Z.mod_pos_bound. lia. }
  revert B. generalize (weekday (d_year d) (d_month d) (d_day d)). intros k B.
  assert (C : k = 0 \/ k = 1 \/ k = 2 \/ k = 3 \/ k = 4 \/ k = 5 \/ k = 6) by lia.
  repeat (destruct C as [-> | C]); try subst k; reflexivity.
Qed.

(** *** Overflow, the cycle of 400 years, and what the pattern consumes *)

Lemma c_int_large v :
  ~ fits_C_int v -> exists e, c_int v = Raise e /\ exn_cls e = OverflowError.
Proof.
  unfold fits_C_int, c_int. intros H.
  destruct ((v <? - 2 ^ 63) || (2 ^ 63 <=? v)); [eexists; split; reflexivity|].
  destruct (Z.leb_spec (2 ^ 31) v); [eexists; split; reflexivity|].
  destruct (Z.ltb_spec v (- 2 ^ 31)); [eexists; split; reflexivity|]. lia.
Qed.

Lemma date_new_large year month day :
  ~ (fits_C_int year /\ fits_C_int month /\ fits_C_int day) ->
  exists e, date_new year month day = Raise e /\ exn_cls e = OverflowError.
Proof.
  intros H. unfold date_new.
  assert (D : forall v, fits_C_int v \/ ~ fits_C_int v) by (intros v; unfold fits_C_int; lia).
  destruct (D year) as [Y|Y]; [|destruct (c_int_large _ Y) as (e & -> & C); now exists e].
  rewrite (c_int_small _ Y). cbn [obind].
  destruct (D month) as [M|M]; [|destruct (c_int_large _ M) as (e & -> & C); now exists e].
  rewrite (c_int_small _ M). cbn [obind].
  destruct (D day) as [Dy|Dy]; [|destruct (c_int_large _ Dy) as (e & -> & C); now exists e].
  tauto.
Qed.

Lemma is_leap_400 y : is_leap (y + 400) = is_leap y.
Proof.
  unfold is_leap.
  replace ((y + 400) mod 4) with (y mod 4) by divmod.
  replace ((y + 400) mod 100) with (y mod 100) by divmod.
  replace ((y + 400) mod 400) with (y mod 400) by divmod.
  reflexivity.
Qed.

Lemma days_before_year_400 y : days_before_year (y + 400) = days_before_year y + 146097.
Proof. unfold days_before_year. cbv zeta. divmod. Qed.

Lemma ymd_to_ord_400 y m d : ymd_to_ord (y + 400) m d = ymd_to_ord y m d + 146097.
Proof.
  unfold ymd_to_ord, days_before_month. rewrite days_before_year_400, is_leap_400. lia.
Qed.

Lemma gregorian_date_400 y m d : gregorian_date (y + 400) m d = gregorian_date y m d.
Proof. unfold gregorian_date, days_in_month. now rewrite is_leap_400. Qed.

Lemma strftime_A_400 y m d : strftime_A (Date (y + 400) m d) = strftime_A (Date y m d).
Proof.
  unfold strftime_A, weekday. cbn [d_year d_month d_day]. rewrite ymd_to_ord_400.
  f_equal. f_equal. divmod.
Qed.

(** The names of the days, read cyclically. *)
Lemma day_names_cycle k j :
  0 <= k < 7 -> 0 <= j < 7 ->
  nth (Z.to_nat ((k + j) mod 7))
      ["Monday"; "Tuesday"; "Wednesday"; "Thursday"; "Friday"; "Saturday"; "Sunday"] ""
  = Nat.iter (Z.to_nat j) following
      (nth (Z.to_nat k)
         ["Monday"; "Tuesday"; "Wednesday"; "Thursday"; "Friday"; "Saturday"; "Sunday"] "").
Proof.
  intros Hk Hj.
  assert (Ck : k = 0 \/ k = 1 \/ k = 2 \/ k = 3 \/ k = 4 \/ k = 5 \/ k = 6) by lia.
  assert (Cj : j = 0 \/ j = 1 \/ j = 2 \/ j = 3 \/ j = 4 \/ j = 5 \/ j = 6) by lia.
  repeat (destruct Ck as [-> | Ck]); try subst k;
    repeat (destruct Cj as [-> | Cj]); try subst j; reflexivity.
Qed.

Lemma strftime_A_shift d1 d2 :
  strftime_A d2
  = Nat.iter (Z.to_nat ((toordinal d2 - toordinal d1) mod 7)) following (strftime_A d1).
Proof.
  unfold strftime_A, weekday. fold (toordinal d1). fold (toordinal d2).
  rewrite <- day_names_cycle by (apply Z.mod_pos_bound; lia).
  f_equal. f_equal.
  rewrite <- Zplus_mod. f_equal. lia.
Qed.

Lemma days_in_year y :
  ymd_to_ord (y + 1) 1 1 - ymd_to_ord y 1 1 = if is_leap y then 366 else 365.
Proof.
  unfold ymd_to_ord, days_before_month. cbn [Z.to_nat nth Z.ltb andb].
  change (2 <? 1) with false. cbn [andb].
  rewrite days_before_year_succ. destruct (is_leap y); lia.
Qed.

(** What the pattern of the format consumes of a text. *)

Lemma year_re_split {R} s (k : string -> string -> option R) r :
  year_re s k = Some r ->
  exists g rest, s = g ++ rest /\ String.length g = 4%nat /\ k g rest = Some r.
Proof.
  unfold year_re. destruct s as [|a [|b [|c [|d rest]]]]; try discriminate.
  destruct (_ && _); [|discriminate]. intros H.
  exists (String a (String b (String c (String d "")))), rest. auto.
Qed.

Lemma lit_re_split {R} c s (k : string -> option R) r :
  lit_re c s k = Some r -> exists rest, s = String c rest /\ k rest = Some r.
Proof.
  unfold lit_re. destruct s as [|a rest]; try discriminate.
  destruct (Ascii.eqb a c) eqn:E; [|discriminate]. apply Ascii.eqb_eq in E. subst a.
  intros H. exists rest. auto.
Qed.

Lemma two_re_split {R} a1 b1 a2 b2 s (k : string -> string -> option R) r :
  two_re a1 b1 a2 b2 s k = Some r ->
  exists g rest, s = g ++ rest /\ (1 <= String.length g <= 2)%nat /\ k g rest = Some r.
Proof.
  unfold two_re. destruct s as [|x [|y rest]]; try discriminate.
  destruct (_ && _); [|discriminate]. intros H. exists (String x (String y "")), rest.
  cbn. repeat split; auto.
Qed.

Lemma one_re_split {R} a b s (k : string -> string -> option R) r :
  one_re a b s k = Some r ->
  exists g rest, s = g ++ rest /\ (1 <= String.length g <= 2)%nat /\ k g rest = Some r.
Proof.
  unfold one_re. destruct s as [|x rest]; try discriminate.
  destruct (in_range x a b); [|discriminate]. intros H. exists (String x ""), rest.
  cbn. repeat split; auto.
Qed.

Lemma month_re_split {R} s (k : string -> string -> option R) r :
  month_re s k = Some r ->
  exists g rest, s = g ++ rest /\ (1 <= String.length g <= 2)%nat /\ k g rest = Some r.
Proof.
  unfold month_re. intros H.
  repeat (apply alt_some in H; destruct H as [H|H]);
    first [eapply two_re_split; eassumption | eapply one_re_split; eassumption].
Qed.

Lemma day_re_split {R} s (k : string -> string -> option R) r :
  day_re s k = Some r ->
  exists g rest, s = g ++ rest /\ (1 <= String.length g <= 2)%nat /\ k g rest = Some r.
Proof.
  unfold day_re. intros H.
  repeat (apply alt_some in H; destruct H as [H|H]);
    first [eapply two_re_split; eassumption | eapply one_re_split; eassumption].
Qed.

Lemma length_append (a b : string) :
  String.length (a ++ b) = (String.length a + String.length b)%nat.
Proof. induction a as [|c a IH]; cbn; [reflexivity|now rewrite IH]. Qed.

Lemma match_format_length s Y m d rest :
  match_format s = Some (Y, m, d, rest) ->
  (8 + String.length rest <= String.length s <= 10 + String.length rest)%nat.
Proof.
  unfold match_format. intros H.
  apply year_re_split in H. destruct H as (Y' & r1 & -> & LY & H).
  apply lit_re_split in H. destruct H as (r2 & -> & H).
  apply month_re_split in H. destruct H as (m' & r3 & -> & Lm & H).
  apply lit_re_split in H. destruct H as (r4 & -> & H).
  apply day_re_split in H. destruct H as (d' & r5 & -> & Ld & H).
  inversion H; subst.
  rewrite !length_append. cbn [String.length]. rewrite !length_append. cbn [String.length].
  rewrite !length_append. lia.
Qed.

Lemma strptime_length s d :
  strptime s = Ret d -> (8 <= String.length s <= 10)%nat.
Proof.
  unfold strptime. destruct (match_format s) as [[[[Y m] dd] rest]|] eqn:E; [|discriminate].
  destruct (String.eqb rest "") eqn:R; [|discriminate].
  apply String.eqb_eq in R. subst rest. intros _.
  apply match_format_length in E. cbn [String.length] in E. lia.
Qed.

(** The format's pattern matches the whole of a text without padding. *)
Lemma match_format_unpadded y m d :
  0 <= y <= 9999 -> 1 <= m <= 12 -> 1 <= d <= 31 ->
  exists gm gd,
    match_format (unpadded_format y m d) = Some (four_digits y, gm, gd, "")
    /\ int_of_digits 0 gm = m /\ int_of_digits 0 gd = d.
Proof.
  intros Hy Hm Hd.
  assert (0 <= y / 1000 <= 9) by (Z.div_mod_to_equations; lia).
  assert (0 <= y / 100 mod 10 <= 9) by (Z.div_mod_to_equations; lia).
  assert (0 <= y / 10 mod 10 <= 9) by (Z.div_mod_to_equations; lia).
  assert (0 <= y mod 10 <= 9) by (Z.div_mod_to_equations; lia).
  unfold match_format, unpadded_format, four_digits. cbn [String.append year_re].
  rewrite !in_range_digit by assumption. cbn [andb].
  fold (four_digits y). generalize (four_digits y). intros Y.
  assert (Cm := month_cases m Hm). assert (Cd := day_cases d Hd).
  repeat (destruct Cm as [-> | Cm]); try subst m;
    repeat (destruct Cd as [-> | Cd]); try subst d;
    (eexists; eexists; split; [reflexivity|split; reflexivity]).
Qed.

Lemma strptime_unpadded y m d :
  1 <= y <= 9999 -> gregorian_date y m d = true ->
  strptime (unpadded_format y m d) = Ret (Date y m d).
Proof.
  intros Hy G.
  assert (B := is_date_bounds (Date y m d) G). cbn [d_year d_month d_day] in B.
  pose proof (days_in_month_bounds y m).
  unfold strptime.
  destruct (match_format_unpadded y m d ltac:(lia) ltac:(lia) ltac:(lia)) as (gm & gd & -> & Em & Ed).
  cbn [String.eqb negb].
  rewrite int_of_four_digits, Em, Ed by lia.
  assert (P31 : 2 ^ 31 = 2147483648) by reflexivity.
  rewrite date_new_small by lia.
  pose proof (check_date_args_spec y m d) as C.
  rewrite (proj2 (Z.leb_le 1 y)), (proj2 (Z.leb_le y 9999)), G in C by lia. exact C.
Qed.

(* ===================================================================== *)
(** ** Facts about the tools and the entry point, and the claims *)
(* ===================================================================== *)

Section Facts.

Context {P : Platform}.

Lemma log_nil w : log w [] = w.
Proof. destruct w; unfold log; simpl; now rewrite app_nil_r. Qed.

Lemma log_log w a b : log (log w a) b = log w (a ++ b).
Proof. unfold log; simpl; now rewrite app_assoc. Qed.

Lemma print_run line w : print line w = (Ret tt, log w [Stdout line]).
Proof. reflexivity. Qed.

Lemma emit_run ev w : emit ev w = (Ret tt, log w [ev]).
Proof. reflexivity. Qed.

Lemma bind_ret_run {A B} (m : M A) (f : A -> M B) w a w' :
  m w = (Ret a, w') -> bind m f w = f a w'.
Proof. intros H; unfold bind; now rewrite H. Qed.

Lemma bind_raise_run {A B} (m : M A) (f : A -> M B) w e w' :
  m w = (Raise e, w') -> bind m f w = (Raise e, w').
Proof. intros H; unfold bind; now rewrite H. Qed.

Lemma emits_ret {A} ok (a : A) : emits ok (ret a).
Proof. intros w; exists []; simpl; now rewrite app_nil_r. Qed.

Lemma emits_raise {A} ok e : emits ok (@raise _ A e).
Proof. intros w; exists []; simpl; now rewrite app_nil_r. Qed.

Lemma emits_lift {A} ok (o : outcome A) : emits ok (lift o).
Proof. intros w; exists []; simpl; now rewrite app_nil_r. Qed.

Lemma emits_ask {A} ok (f : env -> A * env) : emits ok (ask f).
Proof.
  intros w; exists []; unfold ask; destruct (f (w_env w)); simpl; now rewrite app_nil_r.
Qed.

Lemma emits_emit ok ev : ok ev = true -> emits ok (emit ev).
Proof. intros H w; exists [ev]; simpl; now rewrite H. Qed.

Lemma emits_bind {A B} ok (m : M A) (f : A -> M B) :
  emits ok m -> (forall a, emits ok (f a)) -> emits ok (bind m f).
Proof.
  intros Hm Hf w. unfold bind.
  destruct (Hm w) as (e1 & E1 & F1).
  destruct (m w) as [[a|e] w1]; simpl in *.
  - destruct (Hf a w1) as (e2 & E2 & F2).
    exists (e1 ++ e2)%list. rewrite E2, E1, app_assoc, forallb_app, F1, F2. auto.
  - exists e1. auto.
Qed.

Lemma emits_try {A} ok (body : M A) catches handler :
  emits ok body -> (forall e, emits ok (handler e)) -> emits ok (try_except body catches handler).
Proof.
  intros Hm Hf w. unfold try_except.
  destruct (Hm w) as (e1 & E1 & F1).
  destruct (body w) as [[a|e] w1]; simpl in *.
  - exists e1; auto.
  - destruct (catches e).
    + destruct (Hf e w1) as (e2 & E2 & F2).
      exists (e1 ++ e2)%list. rewrite E2, E1, app_assoc, forallb_app, F1, F2. auto.
    + exists e1; auto.
Qed.

Create HintDb emits.
#[local] Hint Resolve emits_ret emits_raise emits_lift emits_ask emits_bind emits_try : emits.

Lemma emits_print ok line : ok (Stdout line) = true -> emits ok (print line).
Proof. apply emits_emit. Qed.
#[local] Hint Resolve emits_print : emits.

Lemma emits_arg {A} ok (c : pyval -> option A) tool param d args :
  emits ok (arg c tool param d args).
Proof.
  unfold arg. destruct (dict_get param args) as [v|].
  - destruct (c v); auto with emits.
  - destruct d; auto with emits.
Qed.
#[local] Hint Resolve emits_arg : emits.

Ltac emits_tac :=
  repeat first
    [ apply emits_bind; [ | intros ? ]
    | apply emits_try; [ | intros ? ]
    | apply emits_print; reflexivity
    | apply emits_emit; reflexivity
    | apply emits_ret | apply emits_raise | apply emits_lift | apply emits_ask | apply emits_arg ].

(** The tools only print. *)
Lemma tools_only_print t args :
  In t tools -> emits is_stdout (tool_run t args).
Proof.
  intros H. unfold tools in H. simpl in H.
  repeat (destruct H as [<- | H]); try contradiction; simpl.
  - unfold get_current_timestamp. emits_tac.
  - unfold generate_random_number, randint. emits_tac.
    destruct (0 <? _); emits_tac.
  - unfold generate_uuid. emits_tac.
  - unfold hash_string. emits_tac.
  - unfold calculate_file_size. emits_tac.
    destruct (scale _ _ _). emits_tac.
  - unfold get_day_of_week. emits_tac.
  - unfold calculate_days_between. emits_tac.
Qed.

Lemma bind_ret_inv {A B} (m : M A) (f : A -> M B) w b w' :
  bind m f w = (Ret b, w') -> exists a w1, m w = (Ret a, w1) /\ f a w1 = (Ret b, w').
Proof.
  unfold bind. destruct (m w) as [[a|e] w1]; intros H.
  - now exists a, w1.
  - discriminate.
Qed.

Lemma find_unregistered registry tool_name args :
  existsb (fun t => String.eqb (t_name t) tool_name) registry = false ->
  find_and_invoke registry tool_name args = ret VNone.
Proof.
  induction registry as [|t rest IH]; simpl; intros H.
  - reflexivity.
  - apply orb_false_iff in H. destruct H as [H1 H2]. rewrite H1. auto.
Qed.

Lemma find_registered registry tool_name args :
  existsb (fun t => String.eqb (t_name t) tool_name) registry = true ->
  exists t, In t registry /\ t_name t = tool_name
            /\ find_and_invoke registry tool_name args = tool_invoke t args.
Proof.
  induction registry as [|t rest IH]; simpl; intros H.
  - discriminate.
  - destruct (String.eqb (t_name t) tool_name) eqn:E.
    + exists t. apply String.eqb_eq in E. auto.
    + simpl in H. destruct (IH H) as (t' & I & N & F). exists t'. auto.
Qed.

Lemma tool_invoke_run t args w :
  tool_invoke t args w =
  match tool_run t args (log w [ToolInvoked (t_name t) args]) with
  | (Ret r, w1) => (Ret r, log w1 [ToolReturned (t_name t) r])
  | (Raise e, w1) => (Raise e, w1)
  end.
Proof.
  unfold tool_invoke, bind. rewrite emit_run.
  destruct (tool_run t args _) as [[r|e] w1]; reflexivity.
Qed.

(** No registered tool returns [None]. *)
Lemma tools_return_values t args w r w' :
  In t tools -> tool_run t args w = (Ret r, w') -> r <> VNone.
Proof.
  intros H. unfold tools in H. simpl in H.
  repeat (destruct H as [<- | H]); try contradiction; simpl; intros R;
    repeat (apply bind_ret_inv in R; destruct R as (? & ? & _ & R));
    inversion R; discriminate.
Qed.

(** One turn of the loop over the requests. *)
Lemma run_tool_calls_step tc rest i messages w :
  match find_and_invoke tools (tc_name tc) (tc_args tc) (log w [executing_line i tc]) with
  | (Ret r, w1) =>
      run_tool_calls (tc :: rest) i messages w =
      run_tool_calls rest (i + 1)
        (messages ++ [ToolMessage (answer_text (tc_name tc) r) (call_id tc)])
        (log w1 (result_lines (tc_name tc) r))
  | (Raise e, w1) => run_tool_calls (tc :: rest) i messages w = (Raise e, w1)
  end.
Proof.
  destruct (find_and_invoke tools (tc_name tc) (tc_args tc) _) as [[r|e] w1] eqn:E;
    cbn [run_tool_calls];
    (erewrite bind_ret_run by apply print_run); fold (executing_line i tc).
  - (erewrite bind_ret_run by exact E).
    destruct r; unfold answer_text, result_lines; cbn [py_str];
      repeat (erewrite bind_ret_run by (first [apply print_run | reflexivity]));
      unfold log; cbn [w_env w_events py_str]; rewrite <- ?app_assoc; reflexivity.
  - now (erewrite bind_raise_run by exact E).
Qed.

Lemma emits_weaken {A} (ok1 ok2 : event -> bool) (m : M A) :
  (forall ev, ok1 ev = true -> ok2 ev = true) -> emits ok1 m -> emits ok2 m.
Proof.
  intros H Hm w. destruct (Hm w) as (evs & E & F). exists evs. split; [exact E|].
  rewrite forallb_forall in *. auto.
Qed.

Lemma filter_none {A} (f g : A -> bool) l :
  (forall x, g x = true -> f x = false) -> forallb g l = true -> filter f l = [].
Proof.
  intros H. induction l as [|x l IH]; simpl; intros F; [reflexivity|].
  apply andb_true_iff in F. destruct F as [F1 F2]. rewrite (H _ F1). auto.
Qed.

Lemma stdout_not_tool evs : forallb is_stdout evs = true -> tool_events evs = [].
Proof. apply filter_none. now intros []. Qed.

Lemma stdout_not_llm evs : forallb is_stdout evs = true -> llm_calls evs = [].
Proof. apply filter_none. now intros []. Qed.

Lemma not_llm_calls evs : forallb not_llm evs = true -> llm_calls evs = [].
Proof. apply filter_none. intros ev. unfold not_llm. now destruct (is_llm ev). Qed.

(** What the lookup of one request adds to the trace. *)
Lemma find_and_invoke_trace tool_name args w :
  let r := find_and_invoke tools tool_name args w in
  if registered tool_name then
    exists lines,
      forallb is_stdout lines = true /\
      match fst r with
      | Ret v =>
          v <> VNone /\
          w_events (snd r) =
          (w_events w ++ ToolInvoked tool_name args :: lines ++ [ToolReturned tool_name v])%list
      | Raise _ => w_events (snd r) = (w_events w ++ ToolInvoked tool_name args :: lines)%list
      end
  else r = (Ret VNone, w).
Proof.
  intros r. subst r. unfold registered.
  destruct (existsb _ tools) eqn:E.
  - destruct (find_registered tools tool_name args E) as (t & I & N & F).
    rewrite F, tool_invoke_run, N.
    destruct (tools_only_print t args I (log w [ToolInvoked tool_name args]))
      as (lines & EV & ST).
    exists lines. split; [exact ST|].
    destruct (tool_run t args _) as [[v|e] w1] eqn:R; cbn [fst snd log w_events] in *.
    + split; [eapply tools_return_values; eauto|].
      rewrite EV, <- !app_assoc. reflexivity.
    + rewrite EV, <- !app_assoc. reflexivity.
  - now rewrite (find_unregistered tools tool_name args E).
Qed.


(** C9.  A request without an ["id"] key does not make the loop fail: the
    loop runs exactly as it does on the same request with the empty text for
    its id.  The named tool is looked up and invoked as for any request; when
    the invocation returns, the tool-result message appended carries the
    empty text as its id and the loop goes on; the only exception the turn
    can raise is the one raised by the tool itself. *)
Theorem missing_id_gives_empty_correlation_id tc rest i messages w :
  tc_id tc = None ->
  run_tool_calls (tc :: rest) i messages w
  = run_tool_calls (ToolCall (tc_name tc) (tc_args tc) (Some "") :: rest) i messages w /\
  match find_and_invoke tools (tc_name tc) (tc_args tc) (log w [executing_line i tc]) with
  | (Ret r, w1) =>
      run_tool_calls (tc :: rest) i messages w =
      run_tool_calls rest (i + 1)
        (messages ++ [ToolMessage (answer_text (tc_name tc) r) ""])
        (log w1 (result_lines (tc_name tc) r))
  | (Raise e, w1) => run_tool_calls (tc :: rest) i messages w = (Raise e, w1)
  end.
Proof.
  intros H.
  pose proof (run_tool_calls_step tc rest i messages w) as S.
  pose proof (run_tool_calls_step (ToolCall (tc_name tc) (tc_args tc) (Some "")) rest i messages w)
    as S'.
  unfold call_id, executing_line in S, S'. cbn [tc_name tc_args tc_id] in S'. rewrite H in S.
  split; [|exact S].
  destruct (find_and_invoke tools (tc_name tc) (tc_args tc) _) as [[r|e] w1]; congruence.
Qed.

Lemma result_lines_stdout tool_name r : forallb is_stdout (result_lines tool_name r) = true.
Proof. now destruct r. Qed.

Lemma answer_text_value tool_name r : r <> VNone -> answer_text tool_name r = py_str r.
Proof. destruct r; try reflexivity. now intros []. Qed.

Ltac list_eq := repeat (progress (rewrite <- ?app_assoc; cbn [app])); reflexivity.

(** C8, as amended.  For every list of requests that all carry an id and
    whose tool invocations all return, the loop executes the requests one
    after the other in the order of the list and appends one tool-result
    message per request, in that order: the tool events of the trace are the
    invocation and the return of each registered tool, in the order of the
    requests, and each message carries the text [str(result)] of the result
    of its own request (or the not-found text) with the id of that request. *)
Theorem tool_results_follow_requests calls i messages w history w' :
  Forall (fun tc => tc_id tc <> None) calls ->
  run_tool_calls calls i messages w = (Ret history, w') ->
  exists evs answers,
    w_events w' = (w_events w ++ evs)%list /\
    history = (messages ++ answers)%list /\
    answered calls (tool_events evs) answers.
Proof.
  intros Hid. revert i messages w.
  induction Hid as [|tc rest Htc Hrest IH]; intros i messages w H.
  - inversion H; subst. exists [], []. rewrite !app_nil_r. repeat split. constructor.
  - pose proof (run_tool_calls_step tc rest i messages w) as S.
    pose proof (find_and_invoke_trace (tc_name tc) (tc_args tc) (log w [executing_line i tc])) as T.
    cbv zeta in T.
    destruct (tc_id tc) as [id|] eqn:Eid; [clear Htc|now contradiction Htc].
    assert (Hcid : call_id tc = id) by (unfold call_id; now rewrite Eid).
    destruct (registered (tc_name tc)) eqn:Ereg.
    + destruct T as (lines & ST & T).
      destruct (find_and_invoke tools (tc_name tc) (tc_args tc) _) as [[r|e] w1];
        cbn [fst snd] in T; rewrite S in H; [|discriminate].
      destruct T as [Hr T].
      destruct (IH _ _ _ H) as (evs & answers & E1 & E2 & A).
      exists (executing_line i tc :: ToolInvoked (tc_name tc) (tc_args tc) :: lines
              ++ ToolReturned (tc_name tc) r :: result_lines (tc_name tc) r ++ evs)%list,
             (ToolMessage (py_str r) id :: answers).
      split; [|split].
      * rewrite E1. cbn [log w_events]. rewrite T. cbn [log w_events]. list_eq.
      * rewrite E2, Hcid, answer_text_value by exact Hr. list_eq.
      * unfold tool_events. cbn [filter executing_line is_tool].
        rewrite filter_app. cbn [filter is_tool]. rewrite filter_app.
        fold (tool_events lines). fold (tool_events (result_lines (tc_name tc) r)).
        rewrite (stdout_not_tool _ ST), (stdout_not_tool _ (result_lines_stdout _ _)).
        cbn [app]. now apply answered_tool.
    + rewrite T in S. rewrite S in H.
      destruct (IH _ _ _ H) as (evs & answers & E1 & E2 & A).
      exists (executing_line i tc :: result_lines (tc_name tc) VNone ++ evs)%list,
             (ToolMessage ("Tool " ++ tc_name tc ++ " not found") id :: answers).
      split; [|split].
      * rewrite E1. cbn [log w_events]. list_eq.
      * rewrite E2, Hcid. list_eq.
      * unfold tool_events. cbn [filter executing_line is_tool result_lines app].
        now apply answered_unknown.
Qed.




(** The [try] statement of [invoke_agent]: the outcome of its body, or the
    error payload the handler builds. *)
Lemma invoke_agent_run payload context w :
  match invoke_agent_try payload w with
  | (Ret v, w') => invoke_agent payload context w = (Ret v, w')
  | (Raise e, w') =>
      invoke_agent payload context w =
      (Ret (VDict [("result", VStr ("Error: " ++ exn_msg e))]),
       log w' [Stdout ("[ERROR] Exception in invoke_agent: " ++ exn_msg e); Traceback e])
  end.
Proof.
  unfold invoke_agent, try_except.
  destruct (invoke_agent_try payload w) as [[v|e] w']; [reflexivity|].
  unfold invoke_agent_except.
  (erewrite bind_ret_run by apply print_run).
  (erewrite bind_ret_run by apply emit_run).
  unfold ret. now rewrite log_log.
Qed.


Lemma llm_run messages w :
  llm_with_tools_invoke messages w =
  (fst (llm_reply messages (w_env w)),
   World (snd (llm_reply messages (w_env w))) (w_events w ++ [LlmInvoked messages])).
Proof.
  unfold llm_with_tools_invoke, bind. rewrite emit_run. cbn [log w_env w_events].
  now destruct (llm_reply messages (w_env w)).
Qed.

Lemma first_messages_only_prints payload : emits is_stdout (first_messages payload).
Proof.
  unfold first_messages, payload_get, new_HumanMessage.
  apply emits_bind.
  - destruct payload; try apply emits_raise.
    destruct (dict_get _ _); apply emits_ret.
  - intros v. emits_tac. destruct v; emits_tac. destruct (forallb _ _); emits_tac.
Qed.

Lemma find_and_invoke_no_llm registry tool_name args :
  (forall t, In t registry -> In t tools) ->
  emits not_llm (find_and_invoke registry tool_name args).
Proof.
  induction registry as [|t rest IH]; intros Hin; cbn [find_and_invoke].
  - apply emits_ret.
  - destruct (String.eqb _ _).
    + unfold tool_invoke. emits_tac.
      apply emits_weaken with (ok1 := is_stdout); [now intros []|].
      apply tools_only_print. apply Hin. now left.
    + apply IH. intros t' I. apply Hin. now right.
Qed.

Lemma run_tool_calls_no_llm calls i messages :
  emits not_llm (run_tool_calls calls i messages).
Proof.
  revert i messages. induction calls as [|tc rest IH]; intros i messages; cbn [run_tool_calls].
  - apply emits_ret.
  - emits_tac.
    + apply find_and_invoke_no_llm. auto.
    + destruct a0; emits_tac.
    + apply IH.
Qed.

Lemma final_call_run history w :
  final_call history w =
  match llm_reply history (w_env w) with
  | (Ret final, e) =>
      (Ret (VDict [("result", content final)]),
       World e (w_events w ++
                [Stdout "[DEBUG] Getting final response from LLM...";
                 LlmInvoked history;
                 Stdout ("[DEBUG] Final response content: " ++ py_str (content final))]))
  | (Raise x, e) =>
      (Raise x,
       World e (w_events w ++
                [Stdout "[DEBUG] Getting final response from LLM...";
                 LlmInvoked history]))
  end.
Proof.
  unfold final_call. (erewrite bind_ret_run by apply print_run).
  destruct (llm_reply history (w_env w)) as [[final|x] e] eqn:F.
  - erewrite bind_ret_run;
      [|rewrite llm_run; cbn [log w_env w_events]; rewrite F; reflexivity].
    (erewrite bind_ret_run by apply print_run).
    unfold ret, log. cbn [fst snd w_env w_events]. now rewrite <- !app_assoc.
  - erewrite bind_raise_run;
      [|rewrite llm_run; cbn [log w_env w_events]; rewrite F; reflexivity].
    cbn [fst snd]. now rewrite <- !app_assoc.
Qed.

(** C2, as amended.  In an invocation whose first reply requests one or
    more tools, the model is invoked at most twice.  When every tool
    invocation of the round returns, so that the loop ends with the messages
    [history], the model is invoked exactly once more, on [history]; no tool
    is executed after that call; and when that call returns a reply, the
    content of the reply is the result of the invocation, whether or not the
    reply itself requests tools.  (A tool invocation or a second call that
    raises leads to the error payload of C1 instead.) *)
Theorem one_round_of_tools payload context w messages w1 response e2 :
  first_messages payload w = (Ret messages, w1) ->
  llm_reply messages (w_env w1) = (Ret response, e2) ->
  tool_calls response <> [] ->
  let w2 :=
    World e2
      (w_events w1 ++
       [Stdout "[DEBUG] Invoking LLM with tools...";
        LlmInvoked messages;
        Stdout "[DEBUG] LLM response received. Has tool_calls: True";
        Stdout ("[DEBUG] Tool calls requested: "
                ++ str_int (Z.of_nat (List.length (tool_calls response))))]) in
  let run := invoke_agent payload context w in
  exists evs,
    w_events (snd run) = (w_events w ++ evs)%list /\
    (List.length (llm_calls evs) <= 2)%nat /\
    forall history w3,
      run_tool_calls (tool_calls response) 0 (messages ++ [AIMessage response]) w2
      = (Ret history, w3) ->
      exists before after,
        evs = (before ++ LlmInvoked history :: after)%list /\
        llm_calls before = [LlmInvoked messages] /\
        llm_calls after = [] /\
        tool_events after = [] /\
        forall final e4,
          llm_reply history (w_env w3) = (Ret final, e4) ->
          fst run = Ret (VDict [("result", content final)]).
Proof.
  intros H1 H2 H3 w2 run.
  destruct (first_messages_only_prints payload w) as (ev1 & E1 & S1).
  rewrite H1 in E1. cbn [snd] in E1.
  destruct (run_tool_calls_no_llm (tool_calls response) 0 (messages ++ [AIMessage response]) w2)
    as (ev2 & E2 & S2).
  assert (T : invoke_agent_try payload w = tool_round messages response
                (World e2 (w_events w1 ++
                   [Stdout "[DEBUG] Invoking LLM with tools...";
                    LlmInvoked messages;
                    Stdout "[DEBUG] LLM response received. Has tool_calls: True"]))).
  { unfold invoke_agent_try.
    (erewrite bind_ret_run by exact H1).
    (erewrite bind_ret_run by apply print_run).
    erewrite bind_ret_run; [|rewrite llm_run; cbn [log w_env w_events]; rewrite H2; reflexivity].
    destruct (tool_calls response) eqn:TC; [now contradiction H3|].
    (erewrite bind_ret_run by apply print_run).
    unfold log. cbn [w_env w_events fst snd]. rewrite <- !app_assoc. reflexivity. }
  assert (R : tool_round messages response
                (World e2 (w_events w1 ++
                   [Stdout "[DEBUG] Invoking LLM with tools...";
                    LlmInvoked messages;
                    Stdout "[DEBUG] LLM response received. Has tool_calls: True"]))
              = bind (run_tool_calls (tool_calls response) 0 (messages ++ [AIMessage response]))
                  final_call w2).
  { unfold tool_round. (erewrite bind_ret_run by apply print_run).
    unfold log, w2. cbn [w_env w_events]. rewrite <- !app_assoc. reflexivity. }
  pose proof (invoke_agent_run payload context w) as C.
  rewrite T, R in C. fold run in C.
  destruct (run_tool_calls (tool_calls response) 0 (messages ++ [AIMessage response]) w2)
    as [[history|e] w3] eqn:L; cbn [snd] in E2.
  - (erewrite bind_ret_run in C by exact L).
    rewrite final_call_run in C.
    destruct (llm_reply history (w_env w3)) as [[final|e] e4] eqn:F; cbn [fst snd] in C.
    + cbn [w_env w_events] in C.
      exists (ev1 ++ [Stdout "[DEBUG] Invoking LLM with tools...";
                      LlmInvoked messages;
                      Stdout "[DEBUG] LLM response received. Has tool_calls: True";
                      Stdout ("[DEBUG] Tool calls requested: "
                              ++ str_int (Z.of_nat (List.length (tool_calls response))))]
              ++ ev2 ++ [Stdout "[DEBUG] Getting final response from LLM...";
                         LlmInvoked history;
                         Stdout ("[DEBUG] Final response content: " ++ py_str (content final))])%list.
      split; [|split].
      * rewrite C. cbn [snd w_events]. rewrite E2. unfold w2. cbn [w_events]. rewrite E1. list_eq.
      * unfold llm_calls. rewrite !filter_app.
        fold (llm_calls ev1). fold (llm_calls ev2).
        rewrite (stdout_not_llm _ S1), (not_llm_calls _ S2). cbn. lia.
      * intros history' w3' Heq. inversion Heq; subst history' w3'.
        exists (ev1 ++ [Stdout "[DEBUG] Invoking LLM with tools...";
                      LlmInvoked messages;
                      Stdout "[DEBUG] LLM response received. Has tool_calls: True";
                      Stdout ("[DEBUG] Tool calls requested: "
                              ++ str_int (Z.of_nat (List.length (tool_calls response))))]
              ++ ev2 ++ [Stdout "[DEBUG] Getting final response from LLM..."])%list,
               [Stdout ("[DEBUG] Final response content: " ++ py_str (content final))].
        split; [list_eq|]. split; [|split; [reflexivity|split; [reflexivity|]]].
        -- unfold llm_calls. rewrite !filter_app.
           fold (llm_calls ev1). fold (llm_calls ev2).
           rewrite (stdout_not_llm _ S1), (not_llm_calls _ S2). reflexivity.
        -- intros final' e4' Hf. rewrite F in Hf. inversion Hf; subst. rewrite C. reflexivity.
    + unfold log in C. cbn [w_env w_events] in C.
      exists (ev1 ++ [Stdout "[DEBUG] Invoking LLM with tools...";
                      LlmInvoked messages;
                      Stdout "[DEBUG] LLM response received. Has tool_calls: True";
                      Stdout ("[DEBUG] Tool calls requested: "
                              ++ str_int (Z.of_nat (List.length (tool_calls response))))]
              ++ ev2 ++ [Stdout "[DEBUG] Getting final response from LLM...";
                         LlmInvoked history;
                         Stdout ("[ERROR] Exception in invoke_agent: " ++ exn_msg e);
                         Traceback e])%list.
      split; [|split].
      * rewrite C. cbn [snd w_events]. rewrite E2. unfold w2. cbn [w_events]. rewrite E1. list_eq.
      * unfold llm_calls. rewrite !filter_app.
        fold (llm_calls ev1). fold (llm_calls ev2).
        rewrite (stdout_not_llm _ S1), (not_llm_calls _ S2). cbn. lia.
      * intros history' w3' Heq. inversion Heq; subst history' w3'.
        exists (ev1 ++ [Stdout "[DEBUG] Invoking LLM with tools...";
                      LlmInvoked messages;
                      Stdout "[DEBUG] LLM response received. Has tool_calls: True";
                      Stdout ("[DEBUG] Tool calls requested: "
                              ++ str_int (Z.of_nat (List.length (tool_calls response))))]
              ++ ev2 ++ [Stdout "[DEBUG] Getting final response from LLM..."])%list,
               [Stdout ("[ERROR] Exception in invoke_agent: " ++ exn_msg e); Traceback e].
        split; [list_eq|]. split; [|split; [reflexivity|split; [reflexivity|]]].
        -- unfold llm_calls. rewrite !filter_app.
           fold (llm_calls ev1). fold (llm_calls ev2).
           rewrite (stdout_not_llm _ S1), (not_llm_calls _ S2). reflexivity.
        -- intros final' e4' Hf. rewrite F in Hf. discriminate.
  - (erewrite bind_raise_run in C by exact L).
    unfold log in C. cbn [w_env w_events] in C.
    exists (ev1 ++ [Stdout "[DEBUG] Invoking LLM with tools...";
                    LlmInvoked messages;
                    Stdout "[DEBUG] LLM response received. Has tool_calls: True";
                    Stdout ("[DEBUG] Tool calls requested: "
                            ++ str_int (Z.of_nat (List.length (tool_calls response))))]
            ++ ev2 ++ [Stdout ("[ERROR] Exception in invoke_agent: " ++ exn_msg e);
                       Traceback e])%list.
    split; [|split].
    + rewrite C. cbn [snd w_events]. rewrite E2. unfold w2. cbn [w_events]. rewrite E1. list_eq.
    + unfold llm_calls. rewrite !filter_app.
      fold (llm_calls ev1). fold (llm_calls ev2).
      rewrite (stdout_not_llm _ S1), (not_llm_calls _ S2). cbn. lia.
    + intros history' w3' Heq. discriminate.
Qed.


Lemma hash_string_run text algorithm w :
  exists result,
    hash_string text algorithm w =
    (Ret result,
     World (w_env w)
           (w_events w ++
            [Stdout ("[TOOL] hash_string called with text='" ++ text ++ "', algorithm='"
                     ++ algorithm ++ "', returning: " ++ result)])) /\
    result =
      if String.eqb algorithm "md5" then hexdigest (md5 (encode_utf8 text))
      else if String.eqb algorithm "sha1" then hexdigest (sha1 (encode_utf8 text))
      else if String.eqb algorithm "sha256" then hexdigest (sha256 (encode_utf8 text))
      else if String.eqb algorithm "sha512" then hexdigest (sha512 (encode_utf8 text))
      else "Unsupported algorithm: " ++ algorithm ++ ". Use md5, sha1, sha256, or sha512.".
Proof. eexists. split; reflexivity. Qed.


(** C10.  [hash_string] compares the algorithm with the four names
    exactly: for every algorithm other than the texts ["md5"], ["sha1"],
    ["sha256"] and ["sha512"] (["SHA256"] or ["sha-256"], say) the result is
    the unsupported-algorithm text, not a digest. *)
Theorem hash_string_names_are_exact text algorithm w :
  algorithm <> "md5" -> algorithm <> "sha1" -> algorithm <> "sha256" -> algorithm <> "sha512" ->
  fst (hash_string text algorithm w)
  = Ret ("Unsupported algorithm: " ++ algorithm ++ ". Use md5, sha1, sha256, or sha512.").
Proof.
  intros H1 H2 H3 H4.
  destruct (hash_string_run text algorithm w) as (result & -> & ->). cbn [fst].
  apply String.eqb_neq in H1, H2, H3, H4. now rewrite H1, H2, H3, H4.
Qed.

(** C6, as amended.  For every integer [n] that [float] converts, those of
    magnitude below [2^1024 - 2^970], [calculate_file_size] returns the text
    ["value unit"], where the unit is the smallest of bytes, KB, MB, GB, TB
    and PB in which [n] is below 1024, and PB when there is none, and the
    value is [round(size, 2)] for the float [size] that is [float(n)] divided
    exactly by the unit, printed as [repr] prints it.  That value is the float
    nearest to a decimal [h / 100] with two places, and for [n] below [2^53]
    in magnitude [h / 100] times the unit is within half a hundredth of the
    unit of [n]. *)
Theorem calculate_file_size_picks_smallest_unit n w :
  Z.abs n < 2 ^ 1024 - 2 ^ 970 ->
  exists x,
    float_of_int n = Ret x /\
    let k := unit_index_of n in
    let size := Float (n <? 0) (f_man x) (f_exp x - 10 * k) in
    0 <= k <= 5 /\
    (k = 5 \/ n < 1024 ^ (k + 1)) /\
    (forall j, 0 <= j < k -> 1024 ^ (j + 1) <= n) /\
    fst (calculate_file_size n w)
    = Ret (float_repr (float_round size 2) ++ " " ++ nth (Z.to_nat k) units "") /\
    exists h,
      float_round size 2 = Float (n <? 0) (fst (nearest h 100)) (snd (nearest h 100)) /\
      (Z.abs n < 2 ^ 53 -> 2 * Z.abs (h * 1024 ^ k - 100 * Z.abs n) <= 1024 ^ k).
Proof.
  intros Hr. apply float_of_int_range in Hr. destruct Hr as [x Hx].
  exists x. split; [exact Hx|]. cbv zeta.
  destruct (unit_index_of_spec n) as (K1 & K2 & K3). cbv zeta in K1, K2, K3.
  destruct (scale_float_of_int n x Hx) as (Sg & Sc & Ex).
  set (k := unit_index_of n) in *.
  split; [exact K1|]. split; [exact K2|]. split; [exact K3|].
  assert (Hm : 0 <= f_man x).
  { revert Hx. unfold float_of_int. destruct (Z.eq_dec n 0) as [->|Nz].
    - cbn. intros H. inversion H. cbn. lia.
    - destruct (nearest_int (Z.abs n) ltac:(lia)) as (m & e & NE & Hm & _).
      rewrite NE. destruct (971 <? e); [discriminate|]. intros H. inversion H. cbn.
      assert (0 < 2 ^ 52) by reflexivity. lia. }
  split.
  - unfold calculate_file_size, bind, lift. rewrite Hx, Sc, Sg. reflexivity.
  - destruct (float_round_2 (Float (n <? 0) (f_man x) (f_exp x - 10 * k)) Hm)
      as (h & H0 & HR & HE).
    exists h. split; [exact HR|]. intros H53. specialize (Ex H53).
    cbn [f_neg] in HR.
    assert (PK : 1024 ^ k = 2 ^ (10 * k)) by (apply pow1024; lia).
    assert (PKpos : 0 < 2 ^ (10 * k)) by (apply pow2_gt0; lia).
    rewrite PK. set (K := 2 ^ (10 * k)) in *.
    set (e := f_exp x) in *. set (m := f_man x) in *.
    unfold frac_of in HE. cbn [f_man f_exp fst snd] in HE.
    destruct (0 <=? e - 10 * k) eqn:E1; cbn [fst snd] in HE.
    + apply Z.leb_le in E1.
      rewrite (Z.max_r (- e) 0), (Z.max_l e 0) in Ex by lia. change (2 ^ 0) with 1 in Ex.
      assert (X : 2 ^ e = K * 2 ^ (e - 10 * k)).
      { unfold K. rewrite <- pow2_add by lia. f_equal. lia. }
      pose proof (pow2_gt0 (e - 10 * k) E1). nia.
    + apply Z.leb_gt in E1.
      pose proof (pow2_gt0 (- (e - 10 * k)) ltac:(lia)) as PB.
      set (b := 2 ^ (- (e - 10 * k))) in *.
      assert (Y : Z.abs n * b = m * K).
      { destruct (Z.lt_ge_cases e 0) as [N|N].
        - rewrite (Z.max_l (- e) 0), (Z.max_r e 0) in Ex by lia. change (2 ^ 0) with 1 in Ex.
          assert (X : b = K * 2 ^ (- e)).
          { unfold b, K. rewrite <- pow2_add by lia. f_equal. lia. }
          nia.
        - rewrite (Z.max_r (- e) 0), (Z.max_l e 0) in Ex by lia. change (2 ^ 0) with 1 in Ex.
          assert (X : K = 2 ^ e * b).
          { unfold b, K. rewrite <- pow2_add by lia. f_equal. lia. }
          nia. }
      assert (Z1 : (h * K - 100 * Z.abs n) * b = (h * b - 100 * m) * K) by nia.
      assert (Z2 : Z.abs (h * K - 100 * Z.abs n) * b = Z.abs (h * b - 100 * m) * K).
      { rewrite <- (Z.abs_eq b) at 1 by lia. rewrite <- (Z.abs_eq K) at 2 by lia.
        rewrite <- !Z.abs_mul. now rewrite Z1. }
      nia.
Qed.

(** C5, as amended.  For every triple of integers that fit a C [int],
    [get_day_of_week] returns without raising.  If the year is between 1 and
    9999 and the triple is a date of the proleptic Gregorian calendar, the
    result is the year, the month and day padded to two digits, and the name
    of the weekday of that date; otherwise it is the text ["Invalid date: "]
    followed by a reason.  The weekday is that of the calendar: January 1st,
    2000 is a Saturday, and the day after a date has the following weekday. *)
Theorem get_day_of_week_names_the_weekday year month day w :
  - 2 ^ 31 <= year < 2 ^ 31 -> - 2 ^ 31 <= month < 2 ^ 31 -> - 2 ^ 31 <= day < 2 ^ 31 ->
  (if (1 <=? year) && (year <=? 9999) && gregorian_date year month day
   then fst (get_day_of_week year month day w)
        = Ret (str_int year ++ "-" ++ fmt_02d month ++ "-" ++ fmt_02d day ++ " was/is a "
               ++ strftime_A (Date year month day))
   else exists reason, fst (get_day_of_week year month day w) = Ret ("Invalid date: " ++ reason))
  /\ strftime_A (Date 2000 1 1) = "Saturday"
  /\ (forall d, is_date d -> strftime_A (next_day d) = following (strftime_A d)).
Proof.
  intros Hy Hm Hd. split; [|split; [reflexivity|exact strftime_A_next_day]].
  pose proof (check_date_args_spec year month day) as C.
  unfold get_day_of_week, try_except, bind, lift.
  rewrite date_new_small by assumption.
  destruct (_ && _ && _).
  - rewrite C. reflexivity.
  - destruct C as [reason ->]. cbn. eauto.
Qed.

(** C7, as amended.  [calculate_days_between("2020-01-01", "2025-12-31")]
    reports 2191 days, 313.0 weeks and 6.0 years.  For two well-formed texts
    YYYY-MM-DD of dates of the years 1 to 9999 the count is the ordinal of the
    end date minus the ordinal of the start date, the weeks are the count
    divided by 7 and the years the count divided by 365.25, each rounded to
    two places; ordinals count days, [n] days after a date its ordinal is [n]
    more.  For every pair of texts the tool returns without raising: the
    report when [strptime] accepts both texts for the format [%Y-%m-%d]
    (which also admits a month or day of one digit), and otherwise the text
    ["Invalid date format. Use YYYY-MM-DD. Error: "] followed by the reason of
    the first text refused. *)
Theorem calculate_days_between_counts_days w :
  fst (calculate_days_between "2020-01-01" "2025-12-31" w)
  = Ret "2191 days (approximately 313.0 weeks or 6.0 years)"
  /\ (forall y1 m1 d1 y2 m2 d2,
        1 <= y1 <= 9999 -> gregorian_date y1 m1 d1 = true ->
        1 <= y2 <= 9999 -> gregorian_date y2 m2 d2 = true ->
        let days := ymd_to_ord y2 m2 d2 - ymd_to_ord y1 m1 d1 in
        exists weeks fdays,
          int_truediv days 7 = Ret weeks /\ float_of_int days = Ret fdays /\
          fst (calculate_days_between (iso_format y1 m1 d1) (iso_format y2 m2 d2) w)
          = Ret (str_int days ++ " days (approximately " ++ float_repr (float_round weeks 2)
                 ++ " weeks or "
                 ++ float_repr (float_round (float_div fdays float_365_25) 2) ++ " years)"))
  /\ (forall d n, is_date d -> toordinal (days_after n d) = toordinal d + Z.of_nat n)
  /\ (forall start_date end_date,
        match strptime start_date, strptime end_date with
        | Ret s, Ret e =>
            exists text,
              days_report (toordinal e - toordinal s) = Ret text /\
              fst (calculate_days_between start_date end_date w) = Ret text
        | Raise x, _ | Ret _, Raise x =>
            fst (calculate_days_between start_date end_date w)
            = Ret ("Invalid date format. Use YYYY-MM-DD. Error: " ++ exn_msg x)
        end).
Proof.
  assert (G : forall start_date end_date,
        match strptime start_date, strptime end_date with
        | Ret s, Ret e =>
            exists text,
              days_report (toordinal e - toordinal s) = Ret text /\
              fst (calculate_days_between start_date end_date w) = Ret text
        | Raise x, _ | Ret _, Raise x =>
            fst (calculate_days_between start_date end_date w)
            = Ret ("Invalid date format. Use YYYY-MM-DD. Error: " ++ exn_msg x)
        end).
  { intros start_date end_date.
    pose proof (strptime_spec start_date) as S1. pose proof (strptime_spec end_date) as S2.
    unfold calculate_days_between, try_except, bind, lift.
    destruct (strptime start_date) as [s|x].
    - destruct (strptime end_date) as [e|x].
      + destruct S1 as [Y1 D1], S2 as [Y2 D2].
        pose proof (toordinal_bounds s Y1 D1). pose proof (toordinal_bounds e Y2 D2).
        assert (P22 : 2 ^ 22 = 4194304) by reflexivity.
        destruct (days_report_returns (toordinal e - toordinal s) ltac:(lia))
          as (weeks & fdays & _ & _ & R).
        rewrite R. eexists. split; reflexivity.
      + unfold is_ValueError. rewrite S2. reflexivity.
    - unfold is_ValueError. rewrite S1. reflexivity. }
  split; [|split; [|split; [intros d n; apply toordinal_days_after|exact G]]].
  - vm_compute. reflexivity.
  - intros y1 m1 d1 y2 m2 d2 Y1 G1 Y2 G2 days.
    pose proof (G (iso_format y1 m1 d1) (iso_format y2 m2 d2)) as T.
    rewrite !strptime_iso in T by assumption.
    destruct T as (text & R & T). unfold toordinal in R. cbn [d_year d_month d_day] in R.
    pose proof (toordinal_bounds (Date y1 m1 d1) Y1 G1) as B1.
    pose proof (toordinal_bounds (Date y2 m2 d2) Y2 G2) as B2.
    unfold toordinal in B1, B2. cbn [d_year d_month d_day] in B1, B2.
    assert (P22 : 2 ^ 22 = 4194304) by reflexivity.
    destruct (days_report_returns days ltac:(unfold days; lia)) as (weeks & fdays & W & F & R').
    exists weeks, fdays. split; [exact W|]. split; [exact F|].
    rewrite T. fold days in R. congruence.
Qed.

(** *** Properties beyond the claims *)

(** The start of the [try] body, up to the reply of the model. *)
Lemma invoke_agent_try_first_call payload w messages w1 :
  first_messages payload w = (Ret messages, w1) ->
  invoke_agent_try payload w =
  match llm_reply messages (w_env w1) with
  | (Ret response, e2) =>
      let w2 := World e2 (w_events w1 ++
                  [Stdout "[DEBUG] Invoking LLM with tools...";
                   LlmInvoked messages;
                   Stdout ("[DEBUG] LLM response received. Has tool_calls: "
                           ++ match tool_calls response with [] => "False" | _ => "True" end)]) in
      match tool_calls response with
      | _ :: _ => tool_round messages response w2
      | [] =>
          (Ret (VDict [("result", content response)]),
           log w2 [Stdout ("[DEBUG] No tools used. Direct response: "
                           ++ py_str (content response))])
      end
  | (Raise e, e2) =>
      (Raise e, World e2 (w_events w1 ++
                  [Stdout "[DEBUG] Invoking LLM with tools..."; LlmInvoked messages]))
  end.
Proof.
  intros H1. unfold invoke_agent_try.
  (erewrite bind_ret_run by exact H1).
  (erewrite bind_ret_run by apply print_run).
  destruct (llm_reply messages (w_env w1)) as [[response|e] e2] eqn:H2.
  - erewrite bind_ret_run; [|rewrite llm_run; cbn [log w_env w_events]; rewrite H2; reflexivity].
    (erewrite bind_ret_run by apply print_run).
    cbv zeta. unfold log. cbn [w_env w_events fst snd]. rewrite <- !app_assoc. cbn [app].
    destruct (tool_calls response); [|reflexivity].
    (erewrite bind_ret_run by apply print_run).
    unfold ret, log. cbn [w_env w_events]. rewrite <- !app_assoc. reflexivity.
  - erewrite bind_raise_run; [|rewrite llm_run; cbn [log w_env w_events]; rewrite H2; reflexivity].
    cbn [fst snd]. rewrite <- !app_assoc. reflexivity.
Qed.

(** X1.  When the first reply of the model requests no tool, the
    invocation returns the content of that reply as its result: the model has
    been invoked exactly once, with the first messages, no tool has been
    invoked, and nothing is asked of the outside world after the reply. *)
Theorem direct_reply_is_returned payload context w messages w1 response e2 :
  first_messages payload w = (Ret messages, w1) ->
  llm_reply messages (w_env w1) = (Ret response, e2) ->
  tool_calls response = [] ->
  exists evs,
    invoke_agent payload context w
    = (Ret (VDict [("result", content response)]), World e2 (w_events w ++ evs)%list) /\
    llm_calls evs = [LlmInvoked messages] /\
    tool_events evs = [].
Proof.
  intros H1 H2 H3.
  destruct (first_messages_only_prints payload w) as (ev1 & E1 & S1).
  rewrite H1 in E1. cbn [snd] in E1.
  pose proof (invoke_agent_run payload context w) as C.
  rewrite (invoke_agent_try_first_call _ _ _ _ H1), H2 in C. cbv zeta in C. rewrite H3 in C.
  exists (ev1 ++ [Stdout "[DEBUG] Invoking LLM with tools...";
                  LlmInvoked messages;
                  Stdout "[DEBUG] LLM response received. Has tool_calls: False";
                  Stdout ("[DEBUG] No tools used. Direct response: "
                          ++ py_str (content response))])%list.
  split; [|split].
  - rewrite C. unfold log. cbn [w_env w_events]. rewrite E1. f_equal. f_equal. list_eq.
  - unfold llm_calls. rewrite filter_app. fold (llm_calls ev1).
    rewrite (stdout_not_llm _ S1). reflexivity.
  - unfold tool_events. rewrite filter_app. fold (tool_events ev1).
    rewrite (stdout_not_tool _ S1). reflexivity.
Qed.

(** X2.  Of a payload that is a dictionary, [invoke_agent] reads the value
    of ["prompt"] only, with ["Hello!"] standing for a missing key; the other
    keys and the [context] argument do not matter: two invocations whose
    payloads give the same prompt run alike. *)
Theorem invoke_agent_reads_only_the_prompt d d' context context' w :
  prompt_of d = prompt_of d' ->
  invoke_agent (VDict d) context w = invoke_agent (VDict d') context' w.
Proof.
  intros H. unfold invoke_agent. f_equal.
  unfold invoke_agent_try, first_messages. f_equal. f_equal.
  unfold payload_get. unfold prompt_of in H.
  destruct (dict_get "prompt" d), (dict_get "prompt" d'); subst; reflexivity.
Qed.

(** X3.  A payload that is not a dictionary has no [get] method: the
    invocation returns the error payload with the text of the
    [AttributeError], after printing the error and writing the traceback, and
    does nothing else; the model is not invoked. *)
Theorem non_dict_payload_is_reported payload context w :
  (forall d, payload <> VDict d) ->
  let e := Exn AttributeError ("'" ++ type_name payload ++ "' object has no attribute 'get'") in
  invoke_agent payload context w
  = (Ret (VDict [("result", VStr ("Error: " ++ exn_msg e))]),
     log w [Stdout ("[ERROR] Exception in invoke_agent: " ++ exn_msg e); Traceback e]).
Proof.
  intros H e.
  pose proof (invoke_agent_run payload context w) as C.
  assert (T : invoke_agent_try payload w = (Raise e, w)).
  { unfold invoke_agent_try, first_messages, payload_get.
    destruct payload; try reflexivity. now contradiction (H items). }
  rewrite T in C. exact C.
Qed.

(** X4.  When the prompt is a text, the model is invoked, and its first
    invocation carries exactly two messages: the system message of the module
    and the human message with the prompt as it was given. *)
Theorem first_model_call_carries_the_prompt d context w s :
  prompt_of d = VStr s ->
  exists evs later,
    w_events (snd (invoke_agent (VDict d) context w)) = (w_events w ++ evs)%list /\
    llm_calls evs = LlmInvoked [SystemMessage system_prompt; HumanMessage (VStr s)] :: later.
Proof.
  intros H.
  set (messages := [SystemMessage system_prompt; HumanMessage (VStr s)]).
  assert (F : first_messages (VDict d) w
              = (Ret messages, log w [Stdout ("[DEBUG] Received prompt: " ++ s)])).
  { unfold first_messages, payload_get. unfold prompt_of in H.
    destruct (dict_get "prompt" d) as [v|]; [subst v|inversion H; subst s]; reflexivity. }
  pose proof (invoke_agent_run (VDict d) context w) as C.
  rewrite (invoke_agent_try_first_call _ _ _ _ F) in C.
  cbn [log w_env w_events] in C.
  destruct (llm_reply messages (w_env w)) as [[response|e] e2].
  - cbv zeta in C. destruct (tool_calls response) as [|tc tcs] eqn:TC.
    + rewrite C. eexists. exists []. cbn [snd log w_events]. split; [list_eq|]. reflexivity.
    + set (w2 := World e2 _) in C.
      destruct (run_tool_calls_no_llm (tc :: tcs) 0 (messages ++ [AIMessage response])
                  (log w2 [Stdout ("[DEBUG] Tool calls requested: "
                                   ++ str_int (Z.of_nat (List.length (tc :: tcs))))]))
        as (ev2 & E2 & S2).
      assert (R : tool_round messages response w2
                  = bind (run_tool_calls (tc :: tcs) 0 (messages ++ [AIMessage response]))
                      final_call
                      (log w2 [Stdout ("[DEBUG] Tool calls requested: "
                                       ++ str_int (Z.of_nat (List.length (tc :: tcs))))])).
      { unfold tool_round. rewrite TC. (erewrite bind_ret_run by apply print_run). reflexivity. }
      rewrite R in C. clear R.
      destruct (run_tool_calls (tc :: tcs) 0 _ _) as [[history|e] w3] eqn:L; cbn [snd] in E2.
      * (erewrite bind_ret_run in C by exact L). rewrite final_call_run in C.
        destruct (llm_reply history (w_env w3)) as [[final|e] e4].
        -- rewrite C. cbn [snd w_events]. rewrite E2. unfold w2. cbn [log w_events].
           eexists. eexists. split; [list_eq|].
           unfold llm_calls. cbn [filter is_llm app]. rewrite !filter_app.
           cbn [filter is_llm app]. reflexivity.
        -- rewrite C. cbn [snd w_events log]. rewrite E2. unfold w2. cbn [log w_events].
           eexists. eexists. split; [list_eq|].
           unfold llm_calls. cbn [filter is_llm app]. rewrite !filter_app.
           cbn [filter is_llm app]. reflexivity.
      * (erewrite bind_raise_run in C by exact L).
        rewrite C. cbn [snd w_events log]. rewrite E2. unfold w2. cbn [log w_events].
        eexists. eexists. split; [list_eq|].
        unfold llm_calls. cbn [filter is_llm app]. rewrite !filter_app.
        cbn [filter is_llm app]. reflexivity.
  - rewrite C. cbn [snd log w_events]. eexists. exists []. split; [list_eq|]. reflexivity.
Qed.


(** X5.  The seven tools are registered under the names of their
    functions, and no tool hides another: a request that names a registered
    tool invokes that very tool. *)
Theorem every_tool_is_found_by_its_name t args :
  In t tools ->
  In (t_name t) tool_names /\
  find_and_invoke tools (t_name t) args = tool_invoke t args.
Proof.
  intros H. unfold tools in H. simpl in H.
  repeat (destruct H as [<- | H]); try contradiction;
    (split; [cbn; tauto|reflexivity]).
Qed.



(** X7.  [generate_random_number] returns an integer between [min_val]
    and [max_val], both included, when [min_val <= max_val], and prints it.
    When [max_val < min_val] the range is empty: [random.randint] raises
    [ValueError], which the tool does not catch, and nothing is printed. *)
Theorem generate_random_number_range min_val max_val w :
  if min_val <=? max_val then
    exists r w',
      generate_random_number min_val max_val w = (Ret r, w') /\
      min_val <= r <= max_val /\
      w_events w' =
      (w_events w ++ [Stdout ("[TOOL] generate_random_number called with min=" ++ str_int min_val
                              ++ ", max=" ++ str_int max_val ++ ", returning: " ++ str_int r)])%list
  else
    exists e, generate_random_number min_val max_val w = (Raise e, w) /\ exn_cls e = ValueError.
Proof.
  unfold generate_random_number, randint, bind, ask, print, emit, ret, raise.
  destruct (Z.leb_spec min_val max_val) as [L|L].
  - rewrite (proj2 (Z.ltb_lt 0 (max_val + 1 - min_val))) by lia.
    destruct (random_below _ _) as [r e'].
    pose proof (Z.mod_pos_bound r (max_val + 1 - min_val) ltac:(lia)).
    eexists. eexists. split; [reflexivity|]. split; [lia|reflexivity].
  - rewrite (proj2 (Z.ltb_ge 0 (max_val + 1 - min_val))) by lia.
    eexists. split; reflexivity.
Qed.




(** X9.  When the first reply requests tools and the loop over the
    requests raises [e], the invocation returns the error payload with the
    text of [e], after printing the error and writing the traceback; the model
    has been invoked once and is not invoked again. *)
Theorem tool_failure_is_reported payload context w messages w1 response e2 e w3 :
  first_messages payload w = (Ret messages, w1) ->
  llm_reply messages (w_env w1) = (Ret response, e2) ->
  run_tool_calls (tool_calls response) 0 (messages ++ [AIMessage response])
    (World e2
       (w_events w1 ++
        [Stdout "[DEBUG] Invoking LLM with tools...";
         LlmInvoked messages;
         Stdout "[DEBUG] LLM response received. Has tool_calls: True";
         Stdout ("[DEBUG] Tool calls requested: "
                 ++ str_int (Z.of_nat (List.length (tool_calls response))))]))
  = (Raise e, w3) ->
  invoke_agent payload context w
  = (Ret (VDict [("result", VStr ("Error: " ++ exn_msg e))]),
     log w3 [Stdout ("[ERROR] Exception in invoke_agent: " ++ exn_msg e); Traceback e]) /\
  exists evs,
    w_events w3 = (w_events w ++ evs)%list /\ llm_calls evs = [LlmInvoked messages].
Proof.
  intros H1 H2 L.
  destruct (first_messages_only_prints payload w) as (ev1 & E1 & S1).
  rewrite H1 in E1. cbn [snd] in E1.
  destruct (run_tool_calls_no_llm (tool_calls response) 0 (messages ++ [AIMessage response])
              (World e2
                 (w_events w1 ++
                  [Stdout "[DEBUG] Invoking LLM with tools...";
                   LlmInvoked messages;
                   Stdout "[DEBUG] LLM response received. Has tool_calls: True";
                   Stdout ("[DEBUG] Tool calls requested: "
                           ++ str_int (Z.of_nat (List.length (tool_calls response))))])))
    as (ev2 & E2 & S2).
  rewrite L in E2. cbn [snd w_events] in E2.
  destruct (tool_calls response) as [|tc tcs] eqn:TC; [discriminate|].
  pose proof (invoke_agent_run payload context w) as C.
  rewrite (invoke_agent_try_first_call _ _ _ _ H1), H2 in C. cbv zeta in C. rewrite TC in C.
  unfold tool_round in C. rewrite TC in C.
  (erewrite bind_ret_run in C by apply print_run).
  unfold log in C at 1. cbn [w_env w_events] in C. rewrite <- app_assoc in C. cbn [app] in C.
  (erewrite bind_raise_run in C by exact L).
  split; [exact C|].
  exists (ev1 ++ [Stdout "[DEBUG] Invoking LLM with tools...";
                  LlmInvoked messages;
                  Stdout "[DEBUG] LLM response received. Has tool_calls: True";
                  Stdout ("[DEBUG] Tool calls requested: "
                          ++ str_int (Z.of_nat (List.length (tc :: tcs))))] ++ ev2)%list.
  split; [rewrite E2, E1; list_eq|].
  unfold llm_calls. rewrite !filter_app. fold (llm_calls ev1). fold (llm_calls ev2).
  rewrite (stdout_not_llm _ S1), (not_llm_calls _ S2). reflexivity.
Qed.




(** X11.  When one of the three arguments of [get_day_of_week] does not fit
    a C [int], [datetime.date] raises [OverflowError], which the
    [except ValueError] clause does not catch: the tool raises, and prints
    nothing. *)
Theorem get_day_of_week_overflows_outside_C_int year month day w :
  ~ (fits_C_int year /\ fits_C_int month /\ fits_C_int day) ->
  exists e, get_day_of_week year month day w = (Raise e, w) /\ exn_cls e = OverflowError.
Proof.
  intros H. destruct (date_new_large year month day H) as (e & D & C).
  exists e. split; [|exact C].
  unfold get_day_of_week, try_except, bind, lift. rewrite D.
  unfold is_ValueError. now rewrite C.
Qed.

Lemma get_day_of_week_valid year month day w :
  1 <= year <= 9999 -> gregorian_date year month day = true ->
  fst (get_day_of_week year month day w)
  = Ret (str_int year ++ "-" ++ fmt_02d month ++ "-" ++ fmt_02d day ++ " was/is a "
         ++ strftime_A (Date year month day)).
Proof.
  intros Hy G.
  assert (B := is_date_bounds (Date year month day) G). cbn [d_year d_month d_day] in B.
  pose proof (days_in_month_bounds year month).
  assert (P31 : 2 ^ 31 = 2147483648) by reflexivity.
  pose proof (check_date_args_spec year month day) as C.
  rewrite (proj2 (Z.leb_le 1 year)), (proj2 (Z.leb_le year 9999)), G in C by lia.
  unfold get_day_of_week, try_except, bind, lift.
  rewrite date_new_small by lia. rewrite C. reflexivity.
Qed.

(** X12.  The Gregorian calendar repeats every 400 years: for a date of
    the years 1 to 9599, [get_day_of_week] names the same weekday for it and
    for the same day 400 years later. *)
Theorem weekdays_repeat_every_400_years year month day w :
  1 <= year -> year + 400 <= 9999 -> gregorian_date year month day = true ->
  exists day_name,
    fst (get_day_of_week year month day w)
    = Ret (str_int year ++ "-" ++ fmt_02d month ++ "-" ++ fmt_02d day ++ " was/is a "
           ++ day_name) /\
    fst (get_day_of_week (year + 400) month day w)
    = Ret (str_int (year + 400) ++ "-" ++ fmt_02d month ++ "-" ++ fmt_02d day ++ " was/is a "
           ++ day_name).
Proof.
  intros H1 H2 G. exists (strftime_A (Date year month day)).
  split; [apply get_day_of_week_valid; [lia|exact G]|].
  rewrite <- strftime_A_400.
  apply get_day_of_week_valid; [lia|now rewrite gregorian_date_400].
Qed.

(** The report for two texts that [strptime] accepts. *)
Lemma calculate_days_between_accepted start_date end_date s e w :
  strptime start_date = Ret s -> strptime end_date = Ret e ->
  exists rest,
    days_report (toordinal e - toordinal s)
    = Ret (str_int (toordinal e - toordinal s) ++ " days (approximately " ++ rest) /\
    fst (calculate_days_between start_date end_date w)
    = Ret (str_int (toordinal e - toordinal s) ++ " days (approximately " ++ rest).
Proof.
  intros E1 E2.
  pose proof (strptime_spec start_date) as S1. pose proof (strptime_spec end_date) as S2.
  rewrite E1 in S1. rewrite E2 in S2. destruct S1 as [Y1 D1], S2 as [Y2 D2].
  pose proof (toordinal_bounds s Y1 D1). pose proof (toordinal_bounds e Y2 D2).
  assert (P22 : 2 ^ 22 = 4194304) by reflexivity.
  destruct (days_report_returns (toordinal e - toordinal s) ltac:(lia))
    as (weeks & fdays & _ & _ & R).
  eexists. split; [exact R|].
  unfold calculate_days_between, try_except, bind, lift.
  rewrite E1, E2, R. reflexivity.
Qed.

(** X13.  The day counts of [calculate_days_between] add up: for three
    texts that [strptime] accepts, the count from the first to the third is
    the sum of the counts from the first to the second and from the second to
    the third; exchanging the two texts negates the count; and from a date to
    itself the report is 0 days, 0.0 weeks and 0.0 years. *)
Theorem day_counts_add_up a b c da db dc w :
  strptime a = Ret da -> strptime b = Ret db -> strptime c = Ret dc ->
  exists n1 n2 r1 r2 r3 r4,
    fst (calculate_days_between a b w) = Ret (str_int n1 ++ " days (approximately " ++ r1) /\
    fst (calculate_days_between b c w) = Ret (str_int n2 ++ " days (approximately " ++ r2) /\
    fst (calculate_days_between a c w)
    = Ret (str_int (n1 + n2) ++ " days (approximately " ++ r3) /\
    fst (calculate_days_between b a w) = Ret (str_int (- n1) ++ " days (approximately " ++ r4) /\
    fst (calculate_days_between a a w) = Ret "0 days (approximately 0.0 weeks or 0.0 years)".
Proof.
  intros A B C.
  destruct (calculate_days_between_accepted a b da db w A B) as (r1 & _ & R1).
  destruct (calculate_days_between_accepted b c db dc w B C) as (r2 & _ & R2).
  destruct (calculate_days_between_accepted a c da dc w A C) as (r3 & _ & R3).
  destruct (calculate_days_between_accepted b a db da w B A) as (r4 & _ & R4).
  destruct (calculate_days_between_accepted a a da da w A A) as (r5 & D5 & R5).
  exists (toordinal db - toordinal da), (toordinal dc - toordinal db), r1, r2, r3, r4.
  split; [exact R1|]. split; [exact R2|]. split; [|split].
  - rewrite R3. do 2 f_equal. f_equal. lia.
  - rewrite R4. do 2 f_equal. f_equal. lia.
  - rewrite R5, <- D5. replace (toordinal da - toordinal da) with 0 by lia.
    vm_compute. reflexivity.
Qed.

(** X14.  The two date tools agree: for two dates of the years 1 to 9999,
    the weekday [get_day_of_week] names for the second one is the weekday it
    names for the first one, moved forward by the day count of
    [calculate_days_between] modulo 7. *)
Theorem weekday_advances_with_the_day_count y1 m1 d1 y2 m2 d2 w :
  1 <= y1 <= 9999 -> gregorian_date y1 m1 d1 = true ->
  1 <= y2 <= 9999 -> gregorian_date y2 m2 d2 = true ->
  exists n rest name1 name2,
    fst (calculate_days_between (iso_format y1 m1 d1) (iso_format y2 m2 d2) w)
    = Ret (str_int n ++ " days (approximately " ++ rest) /\
    fst (get_day_of_week y1 m1 d1 w)
    = Ret (str_int y1 ++ "-" ++ fmt_02d m1 ++ "-" ++ fmt_02d d1 ++ " was/is a " ++ name1) /\
    fst (get_day_of_week y2 m2 d2 w)
    = Ret (str_int y2 ++ "-" ++ fmt_02d m2 ++ "-" ++ fmt_02d d2 ++ " was/is a " ++ name2) /\
    name2 = Nat.iter (Z.to_nat (n mod 7)) following name1.
Proof.
  intros Y1 G1 Y2 G2.
  destruct (calculate_days_between_accepted (iso_format y1 m1 d1) (iso_format y2 m2 d2)
              (Date y1 m1 d1) (Date y2 m2 d2) w
              (strptime_iso _ _ _ Y1 G1) (strptime_iso _ _ _ Y2 G2)) as (rest & _ & R).
  exists (toordinal (Date y2 m2 d2) - toordinal (Date y1 m1 d1)), rest,
         (strftime_A (Date y1 m1 d1)), (strftime_A (Date y2 m2 d2)).
  split; [exact R|]. split; [now apply get_day_of_week_valid|].
  split; [now apply get_day_of_week_valid|]. apply strftime_A_shift.
Qed.

(** X15.  From January 1st of a year to January 1st of the next,
    [calculate_days_between] reports 366 days (52.29 weeks, 1.0 years) when
    the year is a leap year and 365 days (52.14 weeks, 1.0 years) when it is
    not. *)
Theorem a_year_has_365_or_366_days year w :
  1 <= year < 9999 ->
  fst (calculate_days_between (iso_format year 1 1) (iso_format (year + 1) 1 1) w)
  = Ret (if is_leap year then "366 days (approximately 52.29 weeks or 1.0 years)"
         else "365 days (approximately 52.14 weeks or 1.0 years)").
Proof.
  intros H.
  assert (G : forall y, gregorian_date y 1 1 = true) by (intros y; reflexivity).
  destruct (calculate_days_between_accepted (iso_format year 1 1) (iso_format (year + 1) 1 1)
              (Date year 1 1) (Date (year + 1) 1 1) w
              (strptime_iso year 1 1 ltac:(lia) (G _))
              (strptime_iso (year + 1) 1 1 ltac:(lia) (G _)))
    as (rest & D & R).
  rewrite R, <- D. unfold toordinal. cbn [d_year d_month d_day]. rewrite days_in_year.
  destruct (is_leap year); vm_compute; reflexivity.
Qed.

(** X16.  [calculate_days_between] does not tell a month or a day without
    its leading zero from the padded one: for a date of the years 1 to 9999,
    with [2020-1-5] for [2020-01-05], say, as the start or as the end, it
    returns the same text. *)
Theorem unpadded_dates_count_as_padded year month day other w :
  1 <= year <= 9999 -> gregorian_date year month day = true ->
  fst (calculate_days_between (unpadded_format year month day) other w)
  = fst (calculate_days_between (iso_format year month day) other w) /\
  fst (calculate_days_between other (unpadded_format year month day) w)
  = fst (calculate_days_between other (iso_format year month day) w).
Proof.
  intros Hy G.
  unfold calculate_days_between, try_except, bind, lift.
  rewrite strptime_unpadded, strptime_iso by assumption.
  split.
  - destruct (strptime other) as [e|x].
    + destruct (days_report _) as [text|x]; [reflexivity|].
      destruct (is_ValueError x); reflexivity.
    + destruct (is_ValueError x); reflexivity.
  - destruct (strptime other) as [e|x].
    + destruct (days_report _) as [text|x]; [reflexivity|].
      destruct (is_ValueError x); reflexivity.
    + destruct (is_ValueError x); reflexivity.
Qed.

(** X17.  A text of fewer than 8 or more than 10 characters is never a
    date for [calculate_days_between]: when one of the two texts is that short
    or that long, the result is the error text. *)
Theorem short_and_long_texts_are_refused start_date end_date w :
  (String.length start_date < 8)%nat \/ (10 < String.length start_date)%nat \/
  (String.length end_date < 8)%nat \/ (10 < String.length end_date)%nat ->
  exists reason,
    fst (calculate_days_between start_date end_date w)
    = Ret ("Invalid date format. Use YYYY-MM-DD. Error: " ++ reason).
Proof.
  intros H.
  pose proof (strptime_spec start_date) as S1. pose proof (strptime_spec end_date) as S2.
  pose proof (strptime_length start_date) as L1. pose proof (strptime_length end_date) as L2.
  unfold calculate_days_between, try_except, bind, lift.
  destruct (strptime start_date) as [s|x].
  - specialize (L1 s eq_refl).
    destruct (strptime end_date) as [e|x].
    + specialize (L2 e eq_refl). lia.
    + unfold is_ValueError. rewrite S2. eexists. reflexivity.
  - unfold is_ValueError. rewrite S1. eexists. reflexivity.
Qed.

Lemma calculate_file_size_run n x w :
  float_of_int n = Ret x ->
  fst (calculate_file_size n w)
  = Ret (float_repr (float_round (Float (f_neg x) (f_man x) (f_exp x - 10 * unit_index_of n)) 2)
         ++ " " ++ nth (Z.to_nat (unit_index_of n)) units "").
Proof.
  intros Hx. destruct (scale_float_of_int n x Hx) as (_ & Sc & _).
  unfold calculate_file_size, bind, lift. rewrite Hx, Sc. reflexivity.
Qed.

(** X18.  A byte count between -1023 and 1023 is reported as it is, with
    one decimal, in bytes: [calculate_file_size(n)] is [str(n)] followed by
    [".0 bytes"]. *)
Theorem sizes_below_1024_are_reported_in_bytes n w :
  - 1024 < n < 1024 ->
  fst (calculate_file_size n w) = Ret (str_int n ++ ".0 bytes").
Proof.
  intros H. destruct (small_integers_text n H) as (x & Hx & T).
  rewrite (calculate_file_size_run n x w Hx).
  rewrite (unit_index_of_unique n 0) by lia.
  replace (f_exp x - 10 * 0) with (f_exp x) by lia.
  destruct x as [s m e]. cbn [f_neg f_man f_exp]. rewrite T.
  cbn [Z.to_nat nth units]. rewrite append_assoc. reflexivity.
Qed.

(** X19.  A whole number [q] of units, from 1 to 1023, is reported exactly
    in that unit: for the unit of index [k], [calculate_file_size(q * 1024^k)]
    is [str(q)] followed by [".0"] and the name of the unit. *)
Theorem whole_units_are_reported_exactly q k w :
  1 <= q < 1024 -> 0 <= k <= 5 ->
  fst (calculate_file_size (q * 1024 ^ k) w)
  = Ret (str_int q ++ ".0 " ++ nth (Z.to_nat k) units "").
Proof.
  intros Hq Hk. destruct (small_integers_text q ltac:(lia)) as (x & Hx & T).
  destruct x as [s m e].
  assert (s = false) as ->.
  { unfold float_of_int in Hx. destruct (nearest (Z.abs q) 1) as [m' e'].
    destruct (971 <? e'); [discriminate|]. inversion Hx.
    apply Z.ltb_ge. lia. }
  rewrite (calculate_file_size_run _ _ w (float_of_whole_units q k m e Hq Hk Hx)).
  rewrite unit_index_of_whole_units by assumption. cbn [f_neg f_man f_exp].
  replace (e + 10 * k - 10 * k) with e by lia. rewrite T.
  rewrite append_assoc. reflexivity.
Qed.


End Facts.

(* ===================================================================== *)
(** ** The claims at concrete inputs *)
(* ===================================================================== *)

(** A model failure becomes an error payload. *)
Example invoke_agent_reports_model_failure :
  fst (invoke_agent (P := Sim) demo_payload VNone (sim_world []))
  = Ret (VDict [("result", VStr "Error: model endpoint unreachable")]).
Proof. vm_compute. reflexivity. Qed.

(** A payload that is not a dictionary becomes an error payload. *)
Example invoke_agent_reports_malformed_payload :
  fst (invoke_agent (P := Sim) VNone VNone demo_world)
  = Ret (VDict [("result", VStr "Error: 'NoneType' object has no attribute 'get'")]).
Proof. vm_compute. reflexivity. Qed.

(** C2, counterexample: the first reply requests a tool whose invocation
    raises; the model is invoked once, not twice, and the result is the error
    text, not the text of a second reply. *)
Lemma failing_tool_prevents_second_model_call :
  tool_calls (AiMessage (VStr "") [demo_failing_call; demo_uuid_call]) <> []
  /\ fst (invoke_agent (P := Sim) demo_payload VNone demo_failing_world)
     = Ret (VDict [("result", VStr "Error: empty range for randrange() (5, 2, -3)")])
  /\ List.length
       (llm_calls (w_events (snd (invoke_agent (P := Sim) demo_payload VNone demo_failing_world))))
     = 1%nat.
Proof. split; [discriminate|split; (vm_compute; reflexivity)]. Qed.

(** C2, witness: the second reply requests a tool again, and its text is the
    result all the same. *)
Lemma one_round_of_tools_witness :
  fst (invoke_agent (P := Sim) demo_payload VNone demo_world)
  = Ret (VDict [("result", VStr "It is 1.0 GB.")])
  /\ exists evs,
       w_events (snd (invoke_agent (P := Sim) demo_payload VNone demo_world))
       = (w_events demo_world ++ evs)%list
       /\ (List.length (llm_calls evs) <= 2)%nat.
Proof.
  let r1 := eval vm_compute in (first_messages (P := Sim) demo_payload demo_world) in
  lazymatch r1 with
  | (Ret ?m, ?w1) =>
      let r2 := eval vm_compute in (llm_reply (Platform := Sim) m (w_env w1)) in
      lazymatch r2 with
      | (Ret ?resp, ?e2) =>
          assert (H1 : first_messages (P := Sim) demo_payload demo_world = (Ret m, w1))
            by (vm_compute; reflexivity);
          assert (H2 : llm_reply (Platform := Sim) m (w_env w1) = (Ret resp, e2))
            by (vm_compute; reflexivity);
          destruct (one_round_of_tools (P := Sim) demo_payload VNone demo_world m w1 resp e2
                      H1 H2 ltac:(discriminate)) as (evs & E & L & K)
      end
  end.
  split; [|exists evs; split; assumption].
  lazymatch type of K with
  | forall h w3, ?run = _ -> _ =>
      let r := eval vm_compute in run in
      lazymatch r with
      | (Ret ?h, ?w3) =>
          assert (H3 : run = (Ret h, w3)) by (vm_compute; reflexivity);
          destruct (K h w3 H3) as (before & after & _ & _ & _ & _ & Kf)
      end
  end.
  exact (Kf _ _ eq_refl).
Defined.


(** C5, counterexample: January 1st of the year 10000 is a date of the
    proleptic Gregorian calendar, and the tool answers with an error text. *)
Lemma year_10000_is_rejected :
  gregorian_date 10000 1 1 = true
  /\ fst (get_day_of_week (P := Sim) 10000 1 1 (sim_world []))
     = Ret "Invalid date: year 10000 is out of range".
Proof. split; (vm_compute; reflexivity). Qed.

(** C5, witness *)
Lemma get_day_of_week_witness :
  fst (get_day_of_week (P := Sim) 2000 1 1 (sim_world []))
  = Ret "2000-01-01 was/is a Saturday".
Proof.
  pose proof (proj1 (get_day_of_week_names_the_weekday (P := Sim) 2000 1 1 (sim_world [])
                       ltac:(lia) ltac:(lia) ltac:(lia))) as H.
  vm_compute in H. exact H.
Defined.

(** An invalid date gives an error text. *)
Example get_day_of_week_rejects_february_30 :
  fst (get_day_of_week (P := Sim) 2021 2 30 (sim_world []))
  = Ret "Invalid date: day is out of range for month".
Proof. vm_compute. reflexivity. Qed.

(** An integer beyond the C [int] raises [OverflowError], which the
    [except ValueError] clause does not catch. *)
Example get_day_of_week_overflows :
  fst (get_day_of_week (P := Sim) (2 ^ 31) 1 1 (sim_world []))
  = Raise (Exn OverflowError "signed integer is greater than maximum").
Proof. vm_compute. reflexivity. Qed.

(** C6, counterexample: 5 bytes are reported in bytes, although 5 scaled to
    any larger unit, PB included, is below 1024 too: the unit chosen is not the
    largest one with that property. *)
Lemma five_bytes_are_reported_in_bytes :
  fst (calculate_file_size (P := Sim) 5 (sim_world [])) = Ret "5.0 bytes"
  /\ nth 0 units "" = "bytes"
  /\ 5 < 1024 * 1024 ^ 1
  /\ 5 < 1024 * 1024 ^ 5.
Proof. repeat split; (vm_compute; reflexivity). Qed.

(** C6, witness *)
Lemma calculate_file_size_witness :
  fst (calculate_file_size (P := Sim) 1536 (sim_world [])) = Ret "1.5 KB".
Proof.
  destruct (calculate_file_size_picks_smallest_unit (P := Sim) 1536 (sim_world [])
              ltac:(vm_compute; reflexivity))
    as (x & Hx & _ & _ & _ & R & _).
  rewrite R. vm_compute in Hx. inversion Hx. vm_compute. reflexivity.
Defined.

Example calculate_file_size_examples :
  map (fun n => fst (calculate_file_size (P := Sim) n (sim_world [])))
      [0; 1023; 1024; 1048575; 1073741824; 2 ^ 60; -5]
  = [Ret "0.0 bytes"; Ret "1023.0 bytes"; Ret "1.0 KB"; Ret "1024.0 KB"; Ret "1.0 GB";
     Ret "1024.0 PB"; Ret "-5.0 bytes"].
Proof. vm_compute. reflexivity. Qed.

(** [float(n)] raises for an integer beyond the floats. *)
Example calculate_file_size_overflows :
  fst (calculate_file_size (P := Sim) (2 ^ 1024) (sim_world []))
  = Raise (Exn OverflowError "int too large to convert to float").
Proof. vm_compute. reflexivity. Qed.

Lemma iso_format_length y m d : String.length (iso_format y m d) = 10%nat.
Proof. reflexivity. Qed.

(** C7, counterexample: the text [2020-1-1] does not have the shape
    YYYY-MM-DD, and the answer is a day count, not an error text. *)
Lemma lenient_dates_are_counted :
  (forall y m d, iso_format y m d <> "2020-1-1")
  /\ fst (calculate_days_between (P := Sim) "2020-1-1" "2020-01-05" (sim_world []))
     = Ret "4 days (approximately 0.57 weeks or 0.01 years)".
Proof.
  split.
  - intros y m d H. pose proof (iso_format_length y m d) as L. rewrite H in L. discriminate.
  - vm_compute. reflexivity.
Qed.

(** A day written as a blank and a digit is accepted as well. *)
Example blank_padded_day_is_counted :
  fst (calculate_days_between (P := Sim) "2020-01-01" "2020-01- 5" (sim_world []))
  = Ret "4 days (approximately 0.57 weeks or 0.01 years)".
Proof. vm_compute. reflexivity. Qed.

(** A text that the format rejects, and a date that does not exist. *)
Example calculate_days_between_error_texts :
  fst (calculate_days_between (P := Sim) "2020-13-01" "2020-01-05" (sim_world []))
  = Ret ("Invalid date format. Use YYYY-MM-DD. Error: "
         ++ "time data '2020-13-01' does not match format '%Y-%m-%d'")
  /\ fst (calculate_days_between (P := Sim) "2021-02-30" "2020-01-05" (sim_world []))
     = Ret "Invalid date format. Use YYYY-MM-DD. Error: day is out of range for month".
Proof. split; vm_compute; reflexivity. Qed.

(** The count is signed. *)
Example calculate_days_between_is_signed :
  fst (calculate_days_between (P := Sim) "2020-01-02" "2020-01-01" (sim_world []))
  = Ret "-1 days (approximately -0.14 weeks or -0.0 years)".
Proof. vm_compute. reflexivity. Qed.

(** C8, counterexample: the first request raises, the second one is never
    executed and no tool-result message is appended for either. *)
Lemma failing_tool_ends_the_loop :
  Forall (fun tc => tc_id tc <> None) [demo_failing_call; demo_uuid_call]
  /\ fst (run_tool_calls (P := Sim) [demo_failing_call; demo_uuid_call] 0 [] (sim_world []))
     = Raise (Exn ValueError "empty range for randrange() (5, 2, -3)")
  /\ tool_events
       (w_events (snd (run_tool_calls (P := Sim) [demo_failing_call; demo_uuid_call] 0 []
                         (sim_world []))))
     = [ToolInvoked "generate_random_number" [("min_val", VInt 5); ("max_val", VInt 1)]].
Proof.
  split; [|split; vm_compute; reflexivity].
  repeat constructor; discriminate.
Qed.

(** C8, witness: a registered tool and an unknown one, answered in order. *)
Lemma tool_results_follow_requests_witness :
  exists evs answers,
    answered (P := Sim) [demo_size_call; demo_unknown_call] (tool_events evs) answers
    /\ answers = [ToolMessage "1.0 GB" "call-1";
                  ToolMessage "Tool lookup_weather not found" "call-2"].
Proof.
  let r := eval vm_compute in
        (run_tool_calls (P := Sim) [demo_size_call; demo_unknown_call] 0 [] (sim_world [])) in
  lazymatch r with
  | (Ret ?h, ?w') =>
      assert (H : run_tool_calls (P := Sim) [demo_size_call; demo_unknown_call] 0 []
                    (sim_world []) = (Ret h, w')) by (vm_compute; reflexivity);
      destruct (tool_results_follow_requests (P := Sim) [demo_size_call; demo_unknown_call]
                  0 [] (sim_world []) h w'
                  ltac:(repeat constructor; discriminate) H)
        as (evs & answers & E1 & E2 & A)
  end.
  exists evs, answers. split; [exact A|]. cbn [app] in E2. symmetry. exact E2.
Defined.

(** C9, witness: a request without an id. *)
Lemma missing_id_witness :
  exists w',
    run_tool_calls (P := Sim) [demo_call_without_id] 0 [] (sim_world [])
    = (Ret [ToolMessage "00000000-0000-4000-8000-000000000000" ""], w').
Proof.
  pose proof (missing_id_gives_empty_correlation_id (P := Sim) demo_call_without_id [] 0 []
                (sim_world []) eq_refl) as [_ H].
  vm_compute in H. eexists. exact H.
Defined.

(** C10, witness *)
Lemma hash_string_rejects_SHA256 :
  fst (hash_string (P := Sim) "hello" "SHA256" (sim_world []))
  = Ret "Unsupported algorithm: SHA256. Use md5, sha1, sha256, or sha512.".
Proof.
  apply (hash_string_names_are_exact (P := Sim) "hello" "SHA256" (sim_world []));
    discriminate.
Defined.

Example hash_string_rejects_sha_dash_256 :
  fst (hash_string (P := Sim) "hello" "sha-256" (sim_world []))
  = Ret "Unsupported algorithm: sha-256. Use md5, sha1, sha256, or sha512.".
Proof. vm_compute. reflexivity. Qed.

(* ===================================================================== *)
(** ** The properties beyond the claims at concrete inputs *)
(* ===================================================================== *)

(** X1, witness: a reply without requests is the result. *)
Lemma direct_reply_witness :
  exists evs,
    invoke_agent (P := Sim) demo_payload VNone demo_direct_world
    = (Ret (VDict [("result", VStr "Hello there.")]),
       World (SimEnv [] 0) (w_events demo_direct_world ++ evs)%list)
    /\ llm_calls evs
       = [LlmInvoked [SystemMessage system_prompt;
                      HumanMessage (VStr "How large is 1073741824 bytes?")]]
    /\ tool_events evs = [].
Proof.
  let r1 := eval vm_compute in (first_messages (P := Sim) demo_payload demo_direct_world) in
  lazymatch r1 with
  | (Ret ?m, ?w1) =>
      assert (H1 : first_messages (P := Sim) demo_payload demo_direct_world = (Ret m, w1))
        by (vm_compute; reflexivity);
      exact (direct_reply_is_returned (P := Sim) demo_payload VNone demo_direct_world m w1
               (AiMessage (VStr "Hello there.") []) (SimEnv [] 0) H1 eq_refl eq_refl)
  end.
Defined.

(** X2, witness: no prompt is the prompt ["Hello!"]. *)
Lemma missing_prompt_witness :
  invoke_agent (P := Sim) (VDict [("session", VStr "abc")]) VNone demo_direct_world
  = invoke_agent (P := Sim) (VDict [("prompt", VStr "Hello!")]) (VStr "context")
      demo_direct_world.
Proof.
  exact (invoke_agent_reads_only_the_prompt (P := Sim) [("session", VStr "abc")]
           [("prompt", VStr "Hello!")] VNone (VStr "context") demo_direct_world eq_refl).
Defined.

(** X3, witness: a list for a payload. *)
Lemma non_dict_payload_witness :
  fst (invoke_agent (P := Sim) (VList []) VNone demo_world)
  = Ret (VDict [("result", VStr "Error: 'list' object has no attribute 'get'")]).
Proof.
  pose proof (non_dict_payload_is_reported (P := Sim) (VList []) VNone demo_world
                ltac:(intros d; discriminate)) as H.
  cbv zeta in H. rewrite H. reflexivity.
Defined.

(** X4, witness *)
Lemma first_model_call_witness :
  exists evs later,
    w_events (snd (invoke_agent (P := Sim) demo_payload VNone demo_world))
    = (w_events demo_world ++ evs)%list
    /\ llm_calls evs
       = LlmInvoked [SystemMessage system_prompt;
                     HumanMessage (VStr "How large is 1073741824 bytes?")] :: later.
Proof.
  exact (first_model_call_carries_the_prompt (P := Sim)
           [("prompt", VStr "How large is 1073741824 bytes?")] VNone demo_world
           "How large is 1073741824 bytes?" eq_refl).
Defined.

(** X5, witness *)
Lemma tool_lookup_witness :
  In "hash_string" tool_names
  /\ find_and_invoke (P := Sim) tools "hash_string" [("text", VStr "hello")]
     = tool_invoke hash_string_tool [("text", VStr "hello")].
Proof.
  apply (every_tool_is_found_by_its_name (P := Sim) hash_string_tool).
  do 3 right. left. reflexivity.
Defined.


(** A range of one number, and an empty range. *)
Example generate_random_number_examples :
  fst (generate_random_number (P := Sim) 7 7 (sim_world [])) = Ret 7
  /\ fst (generate_random_number (P := Sim) 5 1 (sim_world []))
     = Raise (Exn ValueError "empty range for randrange() (5, 2, -3)").
Proof. split; vm_compute; reflexivity. Qed.


(** X9, witness: the error of the tool is the result. *)
Lemma tool_failure_witness :
  fst (invoke_agent (P := Sim) demo_payload VNone demo_failing_world)
  = Ret (VDict [("result", VStr "Error: empty range for randrange() (5, 2, -3)")]).
Proof.
  let r1 := eval vm_compute in (first_messages (P := Sim) demo_payload demo_failing_world) in
  lazymatch r1 with
  | (Ret ?m, ?w1) =>
      let r2 := eval vm_compute in (llm_reply (Platform := Sim) m (w_env w1)) in
      lazymatch r2 with
      | (Ret ?resp, ?e2) =>
          assert (H1 : first_messages (P := Sim) demo_payload demo_failing_world = (Ret m, w1))
            by (vm_compute; reflexivity);
          assert (H2 : llm_reply (Platform := Sim) m (w_env w1) = (Ret resp, e2))
            by (vm_compute; reflexivity);
          pose proof (tool_failure_is_reported (P := Sim) demo_payload VNone demo_failing_world
                        m w1 resp e2) as T
      end
  end.
  lazymatch type of T with
  | forall e w3, _ -> _ -> ?run = _ -> _ =>
      let r := eval vm_compute in run in
      lazymatch r with
      | (Raise ?e, ?w3) =>
          assert (H3 : run = (Raise e, w3)) by (vm_compute; reflexivity);
          destruct (T e w3 H1 H2 H3) as [C _]
      end
  end.
  rewrite C. reflexivity.
Defined.


(** X11, witness: the year [2^31]. *)
Lemma get_day_of_week_overflow_witness :
  exists e,
    get_day_of_week (P := Sim) (2 ^ 31) 1 1 (sim_world []) = (Raise e, sim_world [])
    /\ exn_cls e = OverflowError.
Proof.
  apply (get_day_of_week_overflows_outside_C_int (P := Sim)).
  unfold fits_C_int. lia.
Defined.

(** X12, witness: February 29th of 1600 and of 2000. *)
Lemma weekdays_repeat_witness :
  exists day_name,
    fst (get_day_of_week (P := Sim) 1600 2 29 (sim_world []))
    = Ret (str_int 1600 ++ "-" ++ fmt_02d 2 ++ "-" ++ fmt_02d 29 ++ " was/is a " ++ day_name)
    /\ fst (get_day_of_week (P := Sim) (1600 + 400) 2 29 (sim_world []))
       = Ret (str_int (1600 + 400) ++ "-" ++ fmt_02d 2 ++ "-" ++ fmt_02d 29 ++ " was/is a "
              ++ day_name).
Proof.
  apply (weekdays_repeat_every_400_years (P := Sim)); [lia|lia|reflexivity].
Defined.

(** X13, witness: three dates of 2020 and 2021. *)
Lemma day_counts_witness :
  exists n1 n2 r1 r2 r3 r4,
    fst (calculate_days_between (P := Sim) "2020-01-01" "2020-03-01" (sim_world []))
    = Ret (str_int n1 ++ " days (approximately " ++ r1)
    /\ fst (calculate_days_between (P := Sim) "2020-03-01" "2021-01-01" (sim_world []))
       = Ret (str_int n2 ++ " days (approximately " ++ r2)
    /\ fst (calculate_days_between (P := Sim) "2020-01-01" "2021-01-01" (sim_world []))
       = Ret (str_int (n1 + n2) ++ " days (approximately " ++ r3)
    /\ fst (calculate_days_between (P := Sim) "2020-03-01" "2020-01-01" (sim_world []))
       = Ret (str_int (- n1) ++ " days (approximately " ++ r4)
    /\ fst (calculate_days_between (P := Sim) "2020-01-01" "2020-01-01" (sim_world []))
       = Ret "0 days (approximately 0.0 weeks or 0.0 years)".
Proof.
  apply (day_counts_add_up (P := Sim) "2020-01-01" "2020-03-01" "2021-01-01"
           (Date 2020 1 1) (Date 2020 3 1) (Date 2021 1 1)); vm_compute; reflexivity.
Defined.

(** X14, witness: one week apart. *)
Lemma weekday_advances_witness :
  exists n rest name1 name2,
    fst (calculate_days_between (P := Sim) (iso_format 2024 2 28) (iso_format 2024 3 6)
           (sim_world []))
    = Ret (str_int n ++ " days (approximately " ++ rest)
    /\ fst (get_day_of_week (P := Sim) 2024 2 28 (sim_world []))
       = Ret (str_int 2024 ++ "-" ++ fmt_02d 2 ++ "-" ++ fmt_02d 28 ++ " was/is a " ++ name1)
    /\ fst (get_day_of_week (P := Sim) 2024 3 6 (sim_world []))
       = Ret (str_int 2024 ++ "-" ++ fmt_02d 3 ++ "-" ++ fmt_02d 6 ++ " was/is a " ++ name2)
    /\ name2 = Nat.iter (Z.to_nat (n mod 7)) following name1.
Proof.
  apply (weekday_advances_with_the_day_count (P := Sim)); [lia|reflexivity|lia|reflexivity].
Defined.

(** X15, witness: the leap year 2024. *)
Lemma year_length_witness :
  fst (calculate_days_between (P := Sim) (iso_format 2024 1 1) (iso_format (2024 + 1) 1 1)
         (sim_world []))
  = Ret (if is_leap 2024 then "366 days (approximately 52.29 weeks or 1.0 years)"
         else "365 days (approximately 52.14 weeks or 1.0 years)").
Proof.
  apply (a_year_has_365_or_366_days (P := Sim)). lia.
Defined.

(** X16, witness: [2020-1-5] for [2020-01-05]. *)
Lemma unpadded_dates_witness :
  fst (calculate_days_between (P := Sim) (unpadded_format 2020 1 5) "2020-01-01" (sim_world []))
  = fst (calculate_days_between (P := Sim) (iso_format 2020 1 5) "2020-01-01" (sim_world []))
  /\ fst (calculate_days_between (P := Sim) "2020-01-01" (unpadded_format 2020 1 5)
            (sim_world []))
     = fst (calculate_days_between (P := Sim) "2020-01-01" (iso_format 2020 1 5)
              (sim_world [])).
Proof.
  apply (unpadded_dates_count_as_padded (P := Sim)); [lia|reflexivity].
Defined.

(** X17, witness: a text of six characters. *)
Lemma short_text_witness :
  exists reason,
    fst (calculate_days_between (P := Sim) "2020-1" "2020-01-05" (sim_world []))
    = Ret ("Invalid date format. Use YYYY-MM-DD. Error: " ++ reason).
Proof.
  apply (short_and_long_texts_are_refused (P := Sim)). left. cbn. lia.
Defined.

(** X18, witness *)
Lemma small_size_witness :
  fst (calculate_file_size (P := Sim) (-5) (sim_world [])) = Ret (str_int (-5) ++ ".0 bytes").
Proof.
  apply (sizes_below_1024_are_reported_in_bytes (P := Sim)). lia.
Defined.

(** X19, witness: five units of index 3. *)
Lemma whole_units_witness :
  fst (calculate_file_size (P := Sim) (5 * 1024 ^ 3) (sim_world []))
  = Ret (str_int 5 ++ ".0 " ++ nth (Z.to_nat 3) units "").
Proof.
  apply (whole_units_are_reported_exactly (P := Sim)); lia.
Defined.

Example whole_units_example :
  fst (calculate_file_size (P := Sim) 5368709120 (sim_world [])) = Ret "5.0 GB".
Proof. vm_compute. reflexivity. Qed.

